(** * dippy_validation_api/validation_api.py: job-lifecycle orchestrator

    A shallow embedding of the validation API (submission gateway,
    leaderboard store, evaluation worker with its retry loops, startup
    column check and shutdown pruning) together with the properties
    established about it.

    Conventions of the embedding:
    - the leaderboard DataFrame is a [list Row.t], most recent row first
      ([pd.concat([new_entry, leaderboard])] is a cons);
    - [namespace.leaderboard] is modelled as already loaded; the CSV file
      written by [save_leaderboard] is the field [leaderboard_file];
    - Python floats are IEEE binary64 values: Rocq's primitive floats;
    - exceptions are values of [Exn]; a raising computation keeps the state
      changes made before the raise, as in Python;
    - the functions imported from [utilities.validation_utils] and the two
      scoring services are parameters of the development. *)

From Stdlib Require Import Floats.PrimFloat.
From Stdlib Require Import ZArith NArith Bool List String Ascii Lia.
From Stdlib Require Import DecimalString.
From Stdlib Require DecimalPos.
Import ListNotations.

Set Warnings "-inexact-float".

Open Scope string_scope.
Open Scope Z_scope.

(** ** Constants (lines 25-52) *)

Definition QUALITATIVE_SCORE_WEIGHT : float := 0.82%float.
Definition MODEL_SIZE_SCORE_WEIGHT : float := 0.06%float.
Definition LATENCY_SCORE_WEIGHT : float := 0.06%float.
Definition VIBE_SCORE_WEIGHT : float := 0.06%float.

Definition MAX_MODEL_SIZE : Z := 30 * 1024 * 1024 * 1024.
Definition MIN_REPO_SIZE : Z := 10 * 1024 * 1024.
Definition MAX_REPO_SIZE : Z := 80 * 1024 * 1024 * 1024.

Definition EVAL_SCORE_PORT : Z := 8001.
Definition VIBE_SCORE_PORT : Z := 8002.

(** ** Python primitives used by the module *)

(** [str(n)] and [f"{n}"] for a Python int. *)
Definition str_of_int (n : Z) : string := NilZero.string_of_int (Z.to_int n).

(** [f"{b}"] for a bytes object: the [b'...'] form.  Escaping of
    non-printable bytes is not modelled. *)
Definition repr_bytes (content : string) : string := "b'" ++ content ++ "'".

(** ASCII white space, as stripped by [int(str)]. *)
Definition is_space (c : ascii) : bool :=
  let n := nat_of_ascii c in
  (((9 <=? n) && (n <=? 13)) || (n =? 32) || ((28 <=? n) && (n <=? 31)))%nat.

Fixpoint lstrip (s : string) : string :=
  match s with
  | EmptyString => EmptyString
  | String c s' => if is_space c then lstrip s' else s
  end.

Fixpoint rstrip (s : string) : string :=
  match s with
  | EmptyString => EmptyString
  | String c s' =>
      match rstrip s' with
      | EmptyString => if is_space c then EmptyString else String c EmptyString
      | t => String c t
      end
  end.

Definition strip (s : string) : string := rstrip (lstrip s).

Definition digit_of (c : ascii) : option Z :=
  let n := nat_of_ascii c in
  if ((48 <=? n) && (n <=? 57))%nat then Some (Z.of_nat (n - 48)) else None.

(** Decimal digits, single underscores allowed between two digits. *)
Fixpoint parse_digits (acc : Z) (after_digit : bool) (s : string) : option Z :=
  match s with
  | EmptyString => if after_digit then Some acc else None
  | String c s' =>
      match digit_of c with
      | Some d => parse_digits (10 * acc + d) true s'
      | None =>
          if (Ascii.eqb c "_" && after_digit)%bool
          then parse_digits acc false s'
          else None
      end
  end.

(** [int(s)] for a [str] in base 10: surrounding white space is
    stripped, one sign is allowed, leading zeros are allowed.  [None] is
    the [ValueError] Python raises on any other text.  Digits outside
    ASCII are not modelled. *)
Definition py_int (s : string) : option Z :=
  match strip s with
  | String "+" r => parse_digits 0 false r
  | String "-" r => option_map Z.opp (parse_digits 0 false r)
  | t => parse_digits 0 false t
  end.

(** ** Data model *)

(** [EvaluateModelRequest] (lines 57-63).  The request and the row
    share four field names; each record has a module of its own, and the
    fields of the request are the ones used unqualified. *)
Module Request.
Record EvaluateModelRequest := mkRequest {
  repo_namespace : string;
  repo_name : string;
  chat_template_type : string;
  hash : string;
  revision : string;
  competition_id : string
}.
End Request.
Import Request.

(** One row of the leaderboard frame, with the twelve columns of
    line 448. *)
Module Row.
Record t := mk {
  hash : string;
  repo_namespace : string;
  repo_name : string;
  chat_template_type : string;
  model_size_score : float;
  qualitative_score : float;
  latency_score : float;
  vibe_score : float;
  total_score : float;
  timestamp : Z;
  status : string;
  notes : string
}.

Definition set_status (s : string) (r : t) : t :=
  mk (hash r) (repo_namespace r) (repo_name r) (chat_template_type r)
     (model_size_score r) (qualitative_score r) (latency_score r)
     (vibe_score r) (total_score r) (timestamp r) s (notes r).

Definition set_notes (n : string) (r : t) : t :=
  mk (hash r) (repo_namespace r) (repo_name r) (chat_template_type r)
     (model_size_score r) (qualitative_score r) (latency_score r)
     (vibe_score r) (total_score r) (timestamp r) (status r) n.

Definition set_model_size_score (x : float) (r : t) : t :=
  mk (hash r) (repo_namespace r) (repo_name r) (chat_template_type r)
     x (qualitative_score r) (latency_score r)
     (vibe_score r) (total_score r) (timestamp r) (status r) (notes r).

Definition set_qualitative_score (x : float) (r : t) : t :=
  mk (hash r) (repo_namespace r) (repo_name r) (chat_template_type r)
     (model_size_score r) x (latency_score r)
     (vibe_score r) (total_score r) (timestamp r) (status r) (notes r).

Definition set_latency_score (x : float) (r : t) : t :=
  mk (hash r) (repo_namespace r) (repo_name r) (chat_template_type r)
     (model_size_score r) (qualitative_score r) x
     (vibe_score r) (total_score r) (timestamp r) (status r) (notes r).

Definition set_vibe_score (x : float) (r : t) : t :=
  mk (hash r) (repo_namespace r) (repo_name r) (chat_template_type r)
     (model_size_score r) (qualitative_score r) (latency_score r)
     x (total_score r) (timestamp r) (status r) (notes r).

Definition set_total_score (x : float) (r : t) : t :=
  mk (hash r) (repo_namespace r) (repo_name r) (chat_template_type r)
     (model_size_score r) (qualitative_score r) (latency_score r)
     (vibe_score r) x (timestamp r) (status r) (notes r).
End Row.

(** [leaderboard.loc[leaderboard['hash'] == h, col] = v]: the update [f]
    applied to every row whose hash is [h]. *)
Definition loc_set (h : string) (f : Row.t -> Row.t) (lb : list Row.t)
  : list Row.t :=
  map (fun r => if String.eqb (Row.hash r) h then f r else r) lb.

(** [(leaderboard['hash'] == h).any()] *)
Definition hash_any (h : string) (lb : list Row.t) : bool :=
  existsb (fun r => String.eqb (Row.hash r) h) lb.

(** Number of rows carrying the hash [h]. *)
Definition count_hash (h : string) (lb : list Row.t) : nat :=
  List.length (filter (fun r => String.eqb (Row.hash r) h) lb).

(** Exceptions the module raises or lets through. *)
Inductive Exn :=
| ValueError (msg : string)
| RuntimeError (msg : string)
| TypeError (msg : string)
| KeyError (key : string)
| AttributeError (msg : string)
| JSONDecodeError
| HTTPException (status_code : Z) (detail : string)
| LookupFailure (msg : string).

Inductive Outcome (A : Type) :=
| Return (a : A)
| Raise (e : Exn).
Arguments Return {A} a.
Arguments Raise {A} e.

(** Outbound HTTP traffic and sleeps of the worker, in program order. *)
Inductive Event :=
| PostScore (port : Z) (path : string)
| PostShutdown (port : Z)
| Sleep (seconds : Z).

(** The shared state: [namespace.leaderboard], the CSV file on disk, the
    multiprocessing queue ([None] is the sentinel) and the trace of the
    worker's outbound calls. *)
Record State := mkState {
  leaderboard : list Row.t;
  leaderboard_file : list Row.t;
  evaluation_queue : list (option EvaluateModelRequest);
  trace : list Event
}.

Definition set_leaderboard (lb : list Row.t) (st : State) : State :=
  mkState lb (leaderboard_file st) (evaluation_queue st) (trace st).

Definition set_evaluation_queue (q : list (option EvaluateModelRequest))
  (st : State) : State :=
  mkState (leaderboard st) (leaderboard_file st) q (trace st).

Definition emit (e : Event) (st : State) : State :=
  mkState (leaderboard st) (leaderboard_file st) (evaluation_queue st)
          (trace st ++ [e])%list.

(** [save_leaderboard] (lines 116-117), applied to
    [namespace.leaderboard]. *)
Definition save_leaderboard (st : State) : State :=
  mkState (leaderboard st) (leaderboard st) (evaluation_queue st) (trace st).

(** [update_leaderboard_status] (lines 273-283). *)
Definition update_leaderboard_status (h status notes : string) (st : State)
  : State :=
  let lb := loc_set h (Row.set_status status) (leaderboard st) in
  let lb := if String.eqb notes "" then lb
            else loc_set h (Row.set_notes notes) lb in
  save_leaderboard (set_leaderboard lb st).

(** The dictionary returned by [get_json_result] (lines 286-303). *)
Record Score := mkScore {
  score_model_size_score : float;
  score_qualitative_score : float;
  score_latency_score : float;
  score_vibe_score : float;
  score_total_score : float
}.

Record JsonResult := mkJsonResult {
  score : Score;
  result_status : string
}.

Definition json_of_row (r : Row.t) : JsonResult :=
  mkJsonResult
    (mkScore (Row.model_size_score r) (Row.qualitative_score r)
             (Row.latency_score r) (Row.vibe_score r) (Row.total_score r))
    (Row.status r).

(** [get_json_result]: the first row with the hash, [None] without one. *)
Definition get_json_result (lb : list Row.t) (h : string)
  : option JsonResult :=
  option_map json_of_row
    (find (fun r => String.eqb (Row.hash r) h) lb).

(** Keys of [chat_template_mappings] (lines 67-75). *)
Definition chat_template_mappings : list (string * string) :=
  [ ("vicuna", "prompt_templates/vicuna_prompt_template.jinja");
    ("chatml", "prompt_templates/chatml_prompt_template.jinja");
    ("mistral", "prompt_templates/mistral_prompt_template.jinja");
    ("zephyr", "prompt_templates/zephyr_prompt_template.jinja");
    ("alpaca", "prompt_templates/alpaca_prompt_template.jinja");
    ("llama2", "prompt_templates/llama2_prompt_template.jinja");
    ("llama3", "prompt_templates/llama3_prompt_template.jinja") ].

(** [key in chat_template_mappings] *)
Definition in_mappings (key : string) : bool :=
  existsb (fun kv => String.eqb (fst kv) key) chat_template_mappings.

(** ** Submission gateway: [evaluate_model] (lines 306-394) *)

(** Result of a call into [utilities.validation_utils]: it raised,
    returned [None], or returned a size in bytes. *)
Inductive Lookup :=
| LookupRaises (msg : string)
| LookupNone
| LookupSize (n : Z).

(** Verdict of the checks of lines 340-387 on a freshly inserted row. *)
Inductive Admission :=
| Rejected (failure_notes : string)
| Crashed (e : Exn)
| Accepted.

Section Gateway.

(** The three functions imported at line 19. *)
Variable regenerate_hash : string -> string -> string -> string -> Z.
Variable check_model_repo_size : string -> string -> string -> Lookup.
Variable get_model_size : string -> string -> Lookup.

(** The test of line 309, [None] when [int(request.hash)] raises. *)
Definition hash_check (request : EvaluateModelRequest) : option bool :=
  match py_int (hash request) with
  | None => None
  | Some n =>
      Some (n =? regenerate_hash (repo_namespace request) (repo_name request)
                   (chat_template_type request) (competition_id request))
  end.

(** The row built at lines 319-332; [utcnow] is the reading of
    [pd.Timestamp.utcnow()]. *)
Definition new_entry (utcnow : Z) (request : EvaluateModelRequest) : Row.t :=
  Row.mk (hash request) (repo_namespace request) (repo_name request)
         (chat_template_type request)
         (-1.0)%float (-1.0)%float (-1.0)%float (-1.0)%float (-1.0)%float
         utcnow "QUEUED" "".

(** Lines 340-387, in source order.  [check_model_repo_size] is called
    inside [try ... except Exception]; [get_model_size] is not, so an
    exception it raises leaves the handler. *)
Definition admission_checks (request : EvaluateModelRequest) : Admission :=
  if negb (in_mappings (chat_template_type request)) then
    Rejected ("Chat template type not supported: "
              ++ chat_template_type request)
  else
    match check_model_repo_size (hash request) (repo_namespace request)
                                (repo_name request) with
    | LookupRaises e => Rejected ("Error checking model repo size: " ++ e)
    | LookupNone =>
        Rejected "Error checking model repo size. Make sure the model repository exists and is accessible."
    | LookupSize model_repo_size =>
        if (model_repo_size >? MAX_REPO_SIZE)
           || (model_repo_size <? MIN_REPO_SIZE)
        then
          Rejected ("Model repo size is not up to requirments: "
                    ++ str_of_int model_repo_size
                    ++ " bytes. Should be less than "
                    ++ str_of_int MAX_REPO_SIZE
                    ++ " bytes and greater than "
                    ++ str_of_int MIN_REPO_SIZE ++ " bytes")
        else
          match get_model_size (repo_namespace request) (repo_name request) with
          | LookupRaises e => Crashed (LookupFailure e)
          | LookupNone =>
              Rejected "Error getting model size. Make sure the model.index.safetensors.json file exists in the model repository. And it has the metadata->total_size field."
          | LookupSize model_size =>
              if model_size / 4 >? MAX_MODEL_SIZE then
                Rejected ("Model size is too large: "
                          ++ str_of_int model_size
                          ++ " bytes. Should be less than "
                          ++ str_of_int MAX_MODEL_SIZE ++ " bytes")
              else Accepted
          end
    end.

(** The common tail of every rejecting branch:
    [update_leaderboard_status(ns, hash, "FAILED", failure_notes)] then
    [return get_json_result(ns, hash)]. *)
Definition reject (request : EvaluateModelRequest) (failure_notes : string)
  (st : State) : Outcome (option JsonResult) * State :=
  let st' := update_leaderboard_status (hash request) "FAILED"
                                       failure_notes st in
  (Return (get_json_result (leaderboard st') (hash request)), st').

Definition evaluate_model (utcnow : Z) (request : EvaluateModelRequest)
  (st : State) : Outcome (option JsonResult) * State :=
  match hash_check request with
  | None =>
      (Raise (ValueError ("invalid literal for int() with base 10: '"
                          ++ hash request ++ "'")), st)
  | Some false =>
      (Raise (HTTPException 400 "Hash does not match the model details"), st)
  | Some true =>
      match get_json_result (leaderboard st) (hash request) with
      | Some current_status => (Return (Some current_status), st)
      | None =>
          let st :=
            save_leaderboard
              (set_leaderboard (new_entry utcnow request :: leaderboard st) st)
          in
          match admission_checks request with
          | Rejected failure_notes => reject request failure_notes st
          | Crashed e => (Raise e, st)
          | Accepted =>
              let st :=
                set_evaluation_queue
                  (evaluation_queue st ++ [Some request])%list st in
              (Return (get_json_result (leaderboard st) (hash request)), st)
          end
      end
  end.

End Gateway.

(** [save_leaderboard_periodically] (lines 397-403): one tick. *)
Definition save_leaderboard_periodically (st : State) : State :=
  save_leaderboard st.

(** [display_leaderboard] (lines 406-409). *)
Definition display_leaderboard (st : State) : list Row.t := leaderboard st.

(** ** Evaluation worker (lines 119-270) *)

(** A [requests.Response]: [json] is [None] when the body is not JSON;
    a JSON object is an association list whose values are numbers or
    [null] (Python's [None]). *)
Record Response := mkResponse {
  status_code : Z;
  content : string;
  json : option (list (string * option float))
}.

(** What one [requests.post] does: raise (connection refused, ...) or
    hand back a response. *)
Inductive Reply :=
| Raises (msg : string)
| Responds (r : Response).

(** One attempt against a scoring service: [took] is the time in
    milliseconds between the start of the attempt and the reading of
    [time.time()] that follows its outcome; [time.sleep(1)] is taken to
    last one second, any overrun counting into the attempt after it. *)
Record Attempt := mkAttempt {
  took : N;
  reply : Reply
}.

(** The first argument of a call to [update_leaderboard_status]. *)
Inductive PyObject :=
| Namespace
| Str (s : string).

(** A computation of the worker: state passing, exceptions, and [None]
    when the iteration budget of a loop is used up. *)
Definition M (A : Type) : Type := State -> option (Outcome A * State).

Definition ret {A : Type} (a : A) : M A := fun st => Some (Return a, st).

Definition raise {A : Type} (e : Exn) : M A := fun st => Some (Raise e, st).

Definition bind {A B : Type} (m : M A) (f : A -> M B) : M B :=
  fun st =>
    match m st with
    | None => None
    | Some (Raise e, st') => Some (Raise e, st')
    | Some (Return a, st') => f a st'
    end.

Definition modify (f : State -> State) : M unit :=
  fun st => Some (Return tt, f st).

Definition gets {A : Type} (f : State -> A) : M A :=
  fun st => Some (Return (f st), st).

Notation "x <- m ;; k" := (bind m (fun x => k))
  (at level 61, m at next level, right associativity).
Notation "m ;;; k" := (bind m (fun _ => k))
  (at level 61, right associativity).

(** [bool(response)] is [response.ok]: no 4xx or 5xx status. *)
Definition response_ok (r : Response) : bool :=
  negb ((400 <=? status_code r) && (status_code r <? 600)).

(** Lines 165 and 214:
    [f"Error calling X API with message: {resp.content if resp else e}"]. *)
Definition error_string (api_name : string) (resp : option Response)
  (e : string) : string :=
  "Error calling " ++ api_name ++ " API with message: "
  ++ match resp with
     | Some r => if response_ok r then repr_bytes (content r) else e
     | None => e
     end.

(** Text of the [RuntimeError] of lines 162 and 211. *)
Definition bad_status_message (api_name : string) (r : Response) : string :=
  "Error calling " ++ api_name ++ " API: " ++ repr_bytes (content r).

(** [update_leaderboard_status] as called: line 274 reads
    [namespace.leaderboard] before the [try], so a first argument that is
    not the namespace raises. *)
Definition call_update_leaderboard_status (namespace : PyObject)
  (h status notes : string) : M unit :=
  match namespace with
  | Namespace => modify (update_leaderboard_status h status notes)
  | Str _ => raise (AttributeError "'str' object has no attribute 'leaderboard'")
  end.

(** The retry loops of lines 153-177 and 202-225, which differ in the
    endpoint and the label only.  [k] counts the attempts made, [elapsed]
    is [time.time() - start_time] in milliseconds when attempt [k]
    starts, [resp] is the variable [eval_score_response] /
    [vibe_score_response]. *)
Fixpoint post_with_retry (api_name : string) (port : Z) (path : string)
  (service : nat -> Attempt) (h : string)
  (fuel k : nat) (elapsed : N) (resp : option Response) : M Response :=
  match fuel with
  | O => fun _ => None
  | S fuel' =>
      let now := (elapsed + took (service k))%N in
      let on_exception (resp : option Response) (e : string) : M Response :=
        if (30000 <? now)%N then
          let err := error_string api_name resp e in
          call_update_leaderboard_status Namespace h "FAILED" err ;;;
          modify (emit (PostShutdown port)) ;;;
          raise (RuntimeError err)
        else
          modify (emit (Sleep 1)) ;;;
          post_with_retry api_name port path service h
                          fuel' (S k) (now + 1000)%N resp
      in
      modify (emit (PostScore port path)) ;;;
      match reply (service k) with
      | Raises msg => on_exception resp msg
      | Responds r =>
          if status_code r =? 200 then ret r
          else on_exception (Some r) (bad_status_message api_name r)
      end
  end.

(** Iterations that always suffice: an attempt that fails after the
    deadline ends the loop, and every retry is at least one second after
    the previous attempt. *)
Definition retry_fuel : nat := 32.

(** [response.json()] *)
Definition response_json (r : Response) : M (list (string * option float)) :=
  match json r with
  | Some d => ret d
  | None => raise JSONDecodeError
  end.

(** [d[key]] *)
Definition getitem (d : list (string * option float)) (key : string)
  : M (option float) :=
  match find (fun kv => String.eqb (fst kv) key) d with
  | Some kv => ret (snd kv)
  | None => raise (KeyError key)
  end.

(** [float(x)] for a JSON number or [None]. *)
Definition py_float (x : option float) : M float :=
  match x with
  | Some v => ret v
  | None =>
      raise (TypeError "float() argument must be a string or a real number, not 'NoneType'")
  end.

(** Lines 239-242. *)
Definition weighted_total (model_size_score eval_score latency_score
  vibe_score : float) : float :=
  (let total_score := model_size_score * MODEL_SIZE_SCORE_WEIGHT in
   let total_score := total_score + eval_score * QUALITATIVE_SCORE_WEIGHT in
   let total_score := total_score + latency_score * LATENCY_SCORE_WEIGHT in
   total_score + vibe_score * VIBE_SCORE_WEIGHT)%float.

(** Lines 194-199. *)
Definition write_partial_scores (h : string)
  (model_size_score eval_score latency_score : float) (st : State) : State :=
  let lb := leaderboard st in
  let lb := loc_set h (Row.set_model_size_score model_size_score) lb in
  let lb := loc_set h (Row.set_qualitative_score eval_score) lb in
  let lb := loc_set h (Row.set_latency_score latency_score) lb in
  let lb := loc_set h (Row.set_notes "Now computing vibe score") lb in
  save_leaderboard (set_leaderboard lb st).

(** Lines 247-254; the frame is stored in the namespace and not saved
    to the file here. *)
Definition write_final_scores (h : string)
  (model_size_score eval_score latency_score vibe_score total_score : float)
  (st : State) : State :=
  let lb := leaderboard st in
  let lb := loc_set h (Row.set_model_size_score model_size_score) lb in
  let lb := loc_set h (Row.set_qualitative_score eval_score) lb in
  let lb := loc_set h (Row.set_latency_score latency_score) lb in
  let lb := loc_set h (Row.set_vibe_score vibe_score) lb in
  let lb := loc_set h (Row.set_total_score total_score) lb in
  let lb := loc_set h (Row.set_status "COMPLETED") lb in
  let lb := loc_set h (Row.set_notes "") lb in
  set_leaderboard lb st.

Section Worker.

(** The two scoring services: the [k]-th POST of the job for a request. *)
Variable eval_score_api : EvaluateModelRequest -> nat -> Attempt.
Variable vibe_score_api : EvaluateModelRequest -> nat -> Attempt.

(** Whether the block of lines 245-254 raises for this job, and with
    which text; it raises before line 254 stores the frame. *)
Variable final_write_fault : EvaluateModelRequest -> option string.

Definition evaluate_model_logic (fuel : nat) (request : EvaluateModelRequest)
  : M Score :=
  let h := hash request in
  lb <- gets leaderboard ;;
  if negb (hash_any h lb) then
    raise (ValueError ("Model " ++ h ++ " not found in the leaderboard"))
  else
  call_update_leaderboard_status Namespace h "RUNNING"
                                 "Model evaluation in progress" ;;;
  eval_score_response <-
    post_with_retry "eval_score" EVAL_SCORE_PORT "/eval_score"
                    (eval_score_api request) h fuel 0 0 None ;;
  modify (emit (PostShutdown EVAL_SCORE_PORT)) ;;;
  eval_score_data <- response_json eval_score_response ;;
  eval_score <- getitem eval_score_data "eval_score" ;;
  latency_score <- getitem eval_score_data "latency_score" ;;
  model_size_score <- getitem eval_score_data "model_size_score" ;;
  m <- py_float model_size_score ;;
  q <- py_float eval_score ;;
  l <- py_float latency_score ;;
  modify (write_partial_scores h m q l) ;;;
  vibe_score_response <-
    post_with_retry "vibe_score" VIBE_SCORE_PORT "/vibe_match_score"
                    (vibe_score_api request) h fuel 0 0 None ;;
  modify (emit (PostShutdown VIBE_SCORE_PORT)) ;;;
  vibe_score_data <- response_json vibe_score_response ;;
  vibe_score <- getitem vibe_score_data "vibe_score" ;;
  match eval_score, latency_score, model_size_score, vibe_score with
  | Some q, Some l, Some m, Some v =>
      let total_score := weighted_total m q l v in
      match final_write_fault request with
      | None =>
          modify (write_final_scores h m q l v total_score) ;;;
          ret (mkScore m q l v total_score)
      | Some failure_reason =>
          (* line 260: [update_leaderboard_status(request.hash, "FAILED",
             failure_reason)], the namespace argument is missing *)
          call_update_leaderboard_status (Str h) "FAILED" failure_reason "" ;;;
          raise (RuntimeError ("Error updating leaderboard: " ++ failure_reason))
      end
  | _, _, _, _ =>
      raise (HTTPException 500
               "Error calculating scores, one or more scores are None")
  end.

(** [model_evaluation_worker] (lines 119-133) run over the items the
    queue holds: the sentinel [None] ends the loop, the result or the
    exception of a job is logged and the loop goes on.  With the queue
    empty [get()] blocks, which is the [[]] case. *)
Fixpoint worker_loop (fuel : nat) (items : list (option EvaluateModelRequest))
  (st : State) : option State :=
  match items with
  | [] => Some (set_evaluation_queue [] st)
  | None :: rest => Some (set_evaluation_queue rest st)
  | Some request :: rest =>
      match evaluate_model_logic fuel request (set_evaluation_queue rest st) with
      | None => None
      | Some (_, st') => worker_loop fuel rest st'
      end
  end.

Definition model_evaluation_worker (fuel : nat) (st : State) : option State :=
  worker_loop fuel (evaluation_queue st) st.

(** ** Shutdown (lines 482-508) *)

Definition shutdown (fuel : nat) (st : State) : option State :=
  (* lines 485-486: empty the queue *)
  let st := set_evaluation_queue [] st in
  (* lines 488-491 *)
  let st :=
    save_leaderboard
      (set_leaderboard
         (filter (fun r => negb (String.eqb (Row.status r) "QUEUED"))
                 (leaderboard st)) st) in
  (* line 497: the sentinel; line 500: join the worker *)
  let st :=
    set_evaluation_queue (evaluation_queue st ++ [None])%list st in
  match model_evaluation_worker fuel st with
  | None => None
  | Some st =>
      (* lines 504-507 *)
      Some (save_leaderboard
              (set_leaderboard
                 (filter (fun r => negb (String.eqb (Row.status r) "RUNNING"))
                         (leaderboard st)) st))
  end.

End Worker.

(** ** Startup column check (lines 447-467) *)

Definition columns : list string :=
  [ "hash"; "repo_namespace"; "repo_name"; "chat_template_type";
    "model_size_score"; "qualitative_score"; "latency_score"; "vibe_score";
    "total_score"; "timestamp"; "status"; "notes" ].

Inductive Startup :=
| SysExit (code : Z)
| Proceed.

(** The [else] branch of line 459, on the column names of the frame read
    from the existing file:
    [if not all(col in leaderboard.columns for col in columns): sys.exit(1)]. *)
Definition startup_load (on_disk : list string) : Startup :=
  if negb (forallb (fun col => existsb (String.eqb col) on_disk) columns)
  then SysExit 1
  else Proceed.

(** ** Concrete scenarios used to exercise the model *)

Definition request_chatml : EvaluateModelRequest :=
  mkRequest "acme" "llama-8b" "chatml" "7" "main" "d1".

Definition empty_state : State := mkState [] [] [] [].

(** A 200 response of the eval_score service. *)
Definition eval_ok_response : Response :=
  mkResponse 200 "{}"
    (Some [ ("eval_score", Some 0.5%float);
            ("latency_score", Some 0.8%float);
            ("model_size_score", Some 1.0%float) ]).

(** A 200 response of the vibe_score service. *)
Definition vibe_ok_response : Response :=
  mkResponse 200 "{}" (Some [ ("vibe_score", Some 0.9%float) ]).

(** Services that answer at once. *)
Definition eval_api_ok (_ : EvaluateModelRequest) (_ : nat) : Attempt :=
  mkAttempt 100 (Responds eval_ok_response).

Definition vibe_api_ok (_ : EvaluateModelRequest) (_ : nat) : Attempt :=
  mkAttempt 100 (Responds vibe_ok_response).

Definition no_fault (_ : EvaluateModelRequest) : option string := None.

(** A store holding the queued row of [request_chatml]. *)
Definition queued_row : Row.t :=
  Row.mk "7" "acme" "llama-8b" "chatml"
         (-1.0)%float (-1.0)%float (-1.0)%float (-1.0)%float (-1.0)%float
         0 "QUEUED" "".

Definition queued_state : State :=
  mkState [queued_row] [queued_row] [] [].

(** Rows in each of the four statuses, for the shutdown scenario. *)
Definition row_with (h status notes : string) : Row.t :=
  Row.mk h "acme" "llama-8b" "chatml"
         (-1.0)%float (-1.0)%float (-1.0)%float (-1.0)%float (-1.0)%float
         0 status notes.

Definition completed_row : Row.t :=
  Row.mk "11" "acme" "done" "chatml"
         1.0%float 0.5%float 0.8%float 0.9%float 0.5720000000000001%float
         0 "COMPLETED" "".


(** The reading of the specification for the startup check: the
    on-disk column set is exactly the schema. *)
Definition same_column_set (on_disk : list string) : Prop :=
  forall c, In c on_disk <-> In c columns.

(** The rows a shutdown keeps. *)
Definition survives_shutdown (r : Row.t) : bool :=
  negb (String.eqb (Row.status r) "QUEUED")
  && negb (String.eqb (Row.status r) "RUNNING").

(** What [update_leaderboard_status(ns, h, "FAILED", notes)] does to a
    row of hash [h] when [notes] is not empty. *)
Definition mark_failed (failure_notes : string) (r : Row.t) : Row.t :=
  Row.set_notes failure_notes (Row.set_status "FAILED" r).

(** The sentinel scores of a row that no phase has filled in. *)
Definition unset_score : Score :=
  mkScore (-1.0)%float (-1.0)%float (-1.0)%float (-1.0)%float (-1.0)%float.

(** Instances of the imported functions for the scenarios: the
    fingerprint of every submission is 7. *)
Definition regenerate_hash_7 (_ _ _ _ : string) : Z := 7.

Definition repo_size_5MB (_ _ _ : string) : Lookup :=
  LookupSize (5 * 1024 * 1024).

Definition repo_size_1GB (_ _ _ : string) : Lookup :=
  LookupSize (1024 * 1024 * 1024).

Definition model_size_16GB (_ _ : string) : Lookup :=
  LookupSize (16 * 1024 * 1024 * 1024).

Definition request_unsupported : EvaluateModelRequest :=
  mkRequest "acme" "llama-8b" "gpt" "7" "main" "d1".

(** The same submission as [request_chatml], its hash written with a
    leading zero. *)
Definition request_chatml_07 : EvaluateModelRequest :=
  mkRequest "acme" "llama-8b" "chatml" "07" "main" "d1".

Definition request_wrong_hash : EvaluateModelRequest :=
  mkRequest "acme" "llama-8b" "chatml" "8" "main" "d1".

(** The state after the insertion of lines 319-335. *)
Definition inserted (utcnow : Z) (request : EvaluateModelRequest)
  (st : State) : State :=
  mkState (new_entry utcnow request :: leaderboard st)
          (new_entry utcnow request :: leaderboard st)
          (evaluation_queue st) (trace st).

(** A row whose stored hash reads, as an integer, as the fingerprint of
    its identity columns for some competition id (the competition id is
    not a column of the leaderboard). *)
Definition row_fingerprint_ok
  (regenerate_hash : string -> string -> string -> string -> Z)
  (r : Row.t) : Prop :=
  exists competition_id,
    py_int (Row.hash r)
    = Some (regenerate_hash (Row.repo_namespace r) (Row.repo_name r)
                            (Row.chat_template_type r) competition_id).

Definition fingerprint_inv
  (regenerate_hash : string -> string -> string -> string -> Z)
  (st : State) : Prop :=
  Forall (row_fingerprint_ok regenerate_hash) (leaderboard st).

(** *** Vocabulary for the retry loop *)

(** [time.time() - start_time], in milliseconds, when attempt [k]
    starts, provided the attempts before it all failed and were retried:
    each of them took its time and was followed by [time.sleep(1)]. *)
Fixpoint start_at (service : nat -> Attempt) (k : nat) : N :=
  match k with
  | O => 0
  | S k' => start_at service k' + took (service k') + 1000
  end.

(** The reading of the clock after attempt [k], which the test of lines
    164 and 213 compares with 30 seconds. *)
Definition observed_at (service : nat -> Attempt) (k : nat) : N :=
  start_at service k + took (service k).

(** The attempt got a response with status 200. *)
Definition attempt_succeeds (a : Attempt) : bool :=
  match reply a with
  | Responds r => status_code r =? 200
  | Raises _ => false
  end.

(** The response variable of the loop when attempt [k] starts: the
    response of the latest attempt before [k] that got one. *)
Fixpoint response_var (service : nat -> Attempt) (k : nat)
  : option Response :=
  match k with
  | O => None
  | S k' =>
      match reply (service k') with
      | Responds r => Some r
      | Raises _ => response_var service k'
      end
  end.

(** [str(e)] for the exception of a failed attempt. *)
Definition exception_text (api_name : string) (a : Attempt) : string :=
  match reply a with
  | Raises msg => msg
  | Responds r => bad_status_message api_name r
  end.

(** The trace of [k] failed attempts, each followed by the sleep. *)
Fixpoint retry_trace (port : Z) (path : string) (k : nat) : list Event :=
  match k with
  | O => []
  | S k' => retry_trace port path k' ++ [PostScore port path; Sleep 1]
  end.

Definition add_trace (evs : list Event) (st : State) : State :=
  mkState (leaderboard st) (leaderboard_file st) (evaluation_queue st)
          (trace st ++ evs).

(** How a retry loop ends: attempt [n] is the first to succeed, every
    attempt before it having failed with the clock at 30 seconds or
    less; or attempt [n] is the first to fail with the clock past 30
    seconds. *)
Inductive PhaseEnd :=
| Proceeds (n : nat) (r : Response)
| GivesUp (n : nat) (err : string).

Definition phase_ends (api_name : string) (service : nat -> Attempt)
  (e : PhaseEnd) : Prop :=
  match e with
  | Proceeds n r =>
      (forall j, (j < n)%nat ->
                 attempt_succeeds (service j) = false
                 /\ (observed_at service j <= 30000)%N)
      /\ reply (service n) = Responds r /\ status_code r = 200
  | GivesUp n err =>
      (forall j, (j < n)%nat ->
                 attempt_succeeds (service j) = false
                 /\ (observed_at service j <= 30000)%N)
      /\ attempt_succeeds (service n) = false
      /\ (30000 < observed_at service n)%N
      /\ err = error_string api_name (response_var service (S n))
                             (exception_text api_name (service n))
  end.

(** *** The job, phase by phase *)

(** Lines 236-270: the [None] test, the total and the final write. *)
Definition finish_job (final_write_fault : EvaluateModelRequest -> option string)
  (request : EvaluateModelRequest)
  (eval_score latency_score model_size_score vibe_score : option float)
  : M Score :=
  let h := hash request in
  match eval_score, latency_score, model_size_score, vibe_score with
  | Some q, Some l, Some m, Some v =>
      let total_score := weighted_total m q l v in
      match final_write_fault request with
      | None =>
          modify (write_final_scores h m q l v total_score) ;;;
          ret (mkScore m q l v total_score)
      | Some failure_reason =>
          call_update_leaderboard_status (Str h) "FAILED" failure_reason "" ;;;
          raise (RuntimeError ("Error updating leaderboard: " ++ failure_reason))
      end
  | _, _, _, _ =>
      raise (HTTPException 500
               "Error calculating scores, one or more scores are None")
  end.

(** Lines 227-270: the job from the end of the vibe_score loop. *)
Definition after_vibe_score
  (final_write_fault : EvaluateModelRequest -> option string)
  (request : EvaluateModelRequest)
  (eval_score latency_score model_size_score : option float)
  (vibe_score_response : Response) : M Score :=
  modify (emit (PostShutdown VIBE_SCORE_PORT)) ;;;
  vibe_score_data <- response_json vibe_score_response ;;
  vibe_score <- getitem vibe_score_data "vibe_score" ;;
  finish_job final_write_fault request
             eval_score latency_score model_size_score vibe_score.

(** Lines 179-270: the job from the end of the eval_score loop. *)
Definition after_eval_score
  (vibe_score_api : EvaluateModelRequest -> nat -> Attempt)
  (final_write_fault : EvaluateModelRequest -> option string)
  (fuel : nat) (request : EvaluateModelRequest)
  (eval_score_response : Response) : M Score :=
  let h := hash request in
  modify (emit (PostShutdown EVAL_SCORE_PORT)) ;;;
  eval_score_data <- response_json eval_score_response ;;
  eval_score <- getitem eval_score_data "eval_score" ;;
  latency_score <- getitem eval_score_data "latency_score" ;;
  model_size_score <- getitem eval_score_data "model_size_score" ;;
  m <- py_float model_size_score ;;
  q <- py_float eval_score ;;
  l <- py_float latency_score ;;
  modify (write_partial_scores h m q l) ;;;
  vibe_score_response <-
    post_with_retry "vibe_score" VIBE_SCORE_PORT "/vibe_match_score"
                    (vibe_score_api request) h fuel 0 0 None ;;
  after_vibe_score final_write_fault request
                   eval_score latency_score model_size_score
                   vibe_score_response.

(** The value of a key of a JSON body, when the body is an object that
    has the key. *)
Definition json_field (r : Response) (key : string) : option (option float) :=
  match json r with
  | Some d => option_map snd (find (fun kv => String.eqb (fst kv) key) d)
  | None => None
  end.

(** *** Relations between the state before and after a computation *)

(** Every run of [m] relates the state it starts from to the state it
    ends in by [R], whether it returns or raises. *)
Definition preserved_by (R : State -> State -> Prop) {A : Type} (m : M A)
  : Prop :=
  forall st o st', m st = Some (o, st') -> R st st'.

(** [m] ends, with a result or an exception, from every state. *)
Definition terminates {A : Type} (m : M A) : Prop :=
  forall st, exists o st', m st = Some (o, st').

(** The trace only grows. *)
Definition trace_extends (st st' : State) : Prop :=
  exists evs, trace st' = (trace st ++ evs)%list.

(** Two rows with the same identity columns. *)
Definition same_identity (r r' : Row.t) : Prop :=
  Row.hash r' = Row.hash r
  /\ Row.repo_namespace r' = Row.repo_namespace r
  /\ Row.repo_name r' = Row.repo_name r
  /\ Row.chat_template_type r' = Row.chat_template_type r
  /\ Row.timestamp r' = Row.timestamp r.

(** The worker's footprint on a job of hash [h]: the rows of the
    leaderboard are the same rows in the same order, those of another
    hash untouched and those of hash [h] with their identity columns
    kept; the queue is not written. *)
Definition job_frame (h : string) (st st' : State) : Prop :=
  (exists f, (forall r, same_identity r (f r))
             /\ leaderboard st' = loc_set h f (leaderboard st))
  /\ evaluation_queue st' = evaluation_queue st.

(** The state in which the eval_score loop of a job starts. *)
Definition running (request : EvaluateModelRequest) (st : State) : State :=
  update_leaderboard_status (hash request) "RUNNING"
                            "Model evaluation in progress" st.

(** The eval_score service refuses connections at 0 s, 1 s, ..., 29 s
    and answers at 30 s. *)
Definition eval_api_down_29s (_ : EvaluateModelRequest) (k : nat) : Attempt :=
  if (k <? 30)%nat then mkAttempt 0 (Raises "Connection refused")
  else mkAttempt 0 (Responds eval_ok_response).

(** A scoring service that refuses every connection. *)
Definition api_down (_ : EvaluateModelRequest) (_ : nat) : Attempt :=
  mkAttempt 0 (Raises "Connection refused").

(** The state of a job both of whose loops ended on a success, after
    [n] failures of eval_score and [k] failures of vibe_score, when the
    vibe_score loop is left. *)
Definition after_both_loops (request : EvaluateModelRequest) (n k : nat)
  (m q l : float) (st : State) : State :=
  add_trace
    (retry_trace VIBE_SCORE_PORT "/vibe_match_score" k
     ++ [PostScore VIBE_SCORE_PORT "/vibe_match_score"])
    (write_partial_scores (hash request) m q l
       (emit (PostShutdown EVAL_SCORE_PORT)
          (add_trace
             (retry_trace EVAL_SCORE_PORT "/eval_score" n
              ++ [PostScore EVAL_SCORE_PORT "/eval_score"])
             (running request st)))).

(** The vibe_score service answers 200 with [{"vibe_score": null}]. *)
Definition vibe_null_response : Response :=
  mkResponse 200 "{}" (Some [ ("vibe_score", None) ]).

Definition vibe_api_null (_ : EvaluateModelRequest) (_ : nat) : Attempt :=
  mkAttempt 100 (Responds vibe_null_response).

(** The final write of every job fails, as it does when the manager
    process holding the namespace is gone. *)
Definition write_fault (_ : EvaluateModelRequest) : option string :=
  Some "[Errno 32] Broken pipe".

(** A second request, queued behind [request_chatml]. *)
Definition request_second : EvaluateModelRequest :=
  mkRequest "acme" "mistral-7b" "mistral" "9" "main" "d1".

Definition two_queued_state : State :=
  let lb := [ row_with "9" "QUEUED" ""; queued_row ] in
  mkState lb lb [Some request_chatml; Some request_second] [].

(** The eval_score service answers its first POST with 200 after 45
    seconds (an evaluation that takes its time). *)
Definition eval_api_slow (_ : EvaluateModelRequest) (_ : nat) : Attempt :=
  mkAttempt 45000 (Responds eval_ok_response).

(** The eval_score service refuses connections at 0 s, 1 s, ..., 30 s
    and answers at 31 s. *)
Definition eval_api_down_30s (_ : EvaluateModelRequest) (k : nat) : Attempt :=
  if (k <? 31)%nat then mkAttempt 0 (Raises "Connection refused")
  else mkAttempt 0 (Responds eval_ok_response).

(** *** The system as a transition system *)

(** No two rows of the leaderboard carry the same hash. *)
Definition unique_hashes (st : State) : Prop :=
  NoDup (map Row.hash (leaderboard st)).

Section System.

Variable regenerate_hash : string -> string -> string -> string -> Z.
Variable check_model_repo_size : string -> string -> string -> Lookup.
Variable get_model_size : string -> string -> Lookup.
Variable eval_score_api : EvaluateModelRequest -> nat -> Attempt.
Variable vibe_score_api : EvaluateModelRequest -> nat -> Attempt.
Variable final_write_fault : EvaluateModelRequest -> option string.

(** One action of one of the processes: a call of the gateway, a job of
    the worker, a run of the worker over the queue, a tick of the
    periodic save, the shutdown. *)
Inductive step : State -> State -> Prop :=
| step_submit utcnow request st :
    step st (snd (evaluate_model regenerate_hash check_model_repo_size
                                 get_model_size utcnow request st))
| step_job fuel request st o st' :
    evaluate_model_logic eval_score_api vibe_score_api final_write_fault
                         fuel request st = Some (o, st') ->
    step st st'
| step_worker fuel st st' :
    model_evaluation_worker eval_score_api vibe_score_api final_write_fault
                            fuel st = Some st' ->
    step st st'
| step_save st :
    step st (save_leaderboard_periodically st)
| step_shutdown fuel st st' :
    shutdown eval_score_api vibe_score_api final_write_fault fuel st
    = Some st' ->
    step st st'.

(** The states the system reaches from [st0]. *)
Inductive reachable_from (st0 : State) : State -> Prop :=
| reach_start : reachable_from st0 st0
| reach_step st st' :
    reachable_from st0 st -> step st st' -> reachable_from st0 st'.

End System.

(** *** A shutdown that finds the worker in a job *)

(** Where the worker stands in its job when the shutdown begins: the
    request is taken from the queue and line 140 not reached yet, or the
    worker is at the top of an iteration of one of the retry loops, or
    it has left one of them. *)
Inductive ProgramPoint :=
| AtStart
| InEvalLoop (k : nat) (elapsed : N) (resp : option Response)
| AfterEvalLoop (eval_score_response : Response)
| InVibeLoop (eval_score latency_score model_size_score : option float)
             (k : nat) (elapsed : N) (resp : option Response)
| AfterVibeLoop (eval_score latency_score model_size_score : option float)
                (vibe_score_response : Response).

(** The rest of the job from a program point. *)
Definition resume
  (eval_score_api vibe_score_api : EvaluateModelRequest -> nat -> Attempt)
  (final_write_fault : EvaluateModelRequest -> option string)
  (fuel : nat) (request : EvaluateModelRequest) (pt : ProgramPoint)
  : M Score :=
  match pt with
  | AtStart =>
      evaluate_model_logic eval_score_api vibe_score_api final_write_fault
                           fuel request
  | InEvalLoop k elapsed resp =>
      eval_score_response <-
        post_with_retry "eval_score" EVAL_SCORE_PORT "/eval_score"
                        (eval_score_api request) (hash request)
                        fuel k elapsed resp ;;
      after_eval_score vibe_score_api final_write_fault fuel request
                       eval_score_response
  | AfterEvalLoop eval_score_response =>
      after_eval_score vibe_score_api final_write_fault fuel request
                       eval_score_response
  | InVibeLoop eval_score latency_score model_size_score k elapsed resp =>
      vibe_score_response <-
        post_with_retry "vibe_score" VIBE_SCORE_PORT "/vibe_match_score"
                        (vibe_score_api request) (hash request)
                        fuel k elapsed resp ;;
      after_vibe_score final_write_fault request
                       eval_score latency_score model_size_score
                       vibe_score_response
  | AfterVibeLoop eval_score latency_score model_size_score
                  vibe_score_response =>
      after_vibe_score final_write_fault request
                       eval_score latency_score model_size_score
                       vibe_score_response
  end.

(** Lines 482-508 with the worker in a job: [evaluation_process.join()]
    returns when the worker has ended the job and read the sentinel. *)
Definition shutdown_in_flight
  (eval_score_api vibe_score_api : EvaluateModelRequest -> nat -> Attempt)
  (final_write_fault : EvaluateModelRequest -> option string)
  (fuel : nat) (request : EvaluateModelRequest) (pt : ProgramPoint)
  (st : State) : option State :=
  let st := set_evaluation_queue [] st in
  let st :=
    save_leaderboard
      (set_leaderboard
         (filter (fun r => negb (String.eqb (Row.status r) "QUEUED"))
                 (leaderboard st)) st) in
  let st :=
    set_evaluation_queue (evaluation_queue st ++ [None])%list st in
  match resume eval_score_api vibe_score_api final_write_fault fuel
               request pt st with
  | None => None
  | Some (_, st) =>
      match model_evaluation_worker eval_score_api vibe_score_api
                                    final_write_fault fuel st with
      | None => None
      | Some st =>
          Some (save_leaderboard
                  (set_leaderboard
                     (filter (fun r => negb (String.eqb (Row.status r) "RUNNING"))
                             (leaderboard st)) st))
      end
  end.


(** A state in which the worker is in the first retry loop of the job of
    [request_chatml], with a queued and a completed row beside it. *)
Definition in_flight_state : State :=
  let lb := [ row_with "14" "QUEUED" "";
              row_with "7" "RUNNING" "Model evaluation in progress";
              completed_row ] in
  mkState lb lb [Some request_second] [PostScore EVAL_SCORE_PORT "/eval_score"].

(** *** Further scenarios *)

(** Lookups at the edge of what the gateway accepts: a repository of
    exactly MIN_REPO_SIZE bytes and a declared size of
    4 * MAX_MODEL_SIZE + 3 bytes. *)
Definition repo_size_min (_ _ _ : string) : Lookup := LookupSize MIN_REPO_SIZE.

Definition model_size_edge (_ _ : string) : Lookup :=
  LookupSize (4 * MAX_MODEL_SIZE + 3).

(** The index file of the model cannot be fetched. *)
Definition model_size_raises (_ _ : string) : Lookup :=
  LookupRaises "Connection reset by peer".

Definition model_size_none (_ _ : string) : Lookup := LookupNone.

(** A repository lookup that must not be reached. *)
Definition repo_size_raises (_ _ _ : string) : Lookup :=
  LookupRaises "404 Client Error".

(** The eval_score service answers 200 with a null latency_score. *)
Definition eval_null_response : Response :=
  mkResponse 200 "{}"
    (Some [ ("eval_score", Some 0.5%float);
            ("latency_score", None);
            ("model_size_score", Some 1.0%float) ]).

Definition eval_api_null (_ : EvaluateModelRequest) (_ : nat) : Attempt :=
  mkAttempt 100 (Responds eval_null_response).

(** A row as lines 247-253 leave it. *)
Definition completed_row_of (m q l v : float) (r : Row.t) : Row.t :=
  Row.mk (Row.hash r) (Row.repo_namespace r) (Row.repo_name r)
         (Row.chat_template_type r) m q l v (weighted_total m q l v)
         (Row.timestamp r) "COMPLETED" "".

(** A row as lines 150 and 194-197 leave it. *)
Definition partial_row_of (m q l : float) (r : Row.t) : Row.t :=
  Row.mk (Row.hash r) (Row.repo_namespace r) (Row.repo_name r)
         (Row.chat_template_type r) m q l (Row.vibe_score r)
         (Row.total_score r) (Row.timestamp r)
         "RUNNING" "Now computing vibe score".

(** The POSTs to a scoring endpoint and the sleeps in a trace. *)
Definition count_posts (evs : list Event) : nat :=
  List.length
    (filter (fun e => match e with PostScore _ _ => true | _ => false end) evs).

Definition count_sleeps (evs : list Event) : nat :=
  List.length
    (filter (fun e => match e with Sleep _ => true | _ => false end) evs).

(** What is left of the queue when the worker has read the first
    sentinel; with no sentinel the worker empties the queue and blocks. *)
Fixpoint after_sentinel (items : list (option EvaluateModelRequest))
  : list (option EvaluateModelRequest) :=
  match items with
  | [] => []
  | None :: rest => rest
  | Some _ :: rest => after_sentinel rest
  end.


(** The same submission with its hash written as [h]. *)
Definition with_hash (h : string) (request : EvaluateModelRequest)
  : EvaluateModelRequest :=
  mkRequest (repo_namespace request) (repo_name request)
            (chat_template_type request) h
            (revision request) (competition_id request).


(** The file holds what the store holds. *)
Definition saved (st : State) : Prop :=
  leaderboard_file st = leaderboard st.

(** A computation that, started with the file in step with the store,
    leaves it so when it raises. *)
Definition raises_saved {A : Type} (m : M A) : Prop :=
  forall st o st',
    m st = Some (o, st') -> saved st ->
    match o with Raise _ => saved st' | Return _ => True end.

(** The vibe_score service answers 200 with a body that is not JSON. *)
Definition vibe_html_response : Response :=
  mkResponse 200 "<html></html>" None.

Definition vibe_api_html (_ : EvaluateModelRequest) (_ : nat) : Attempt :=
  mkAttempt 100 (Responds vibe_html_response).

(** * Properties *)

(** ** The monad *)

Lemma bind_inv {A B : Type} (m : M A) (f : A -> M B) st o st' :
  bind m f st = Some (o, st') ->
  (exists e, m st = Some (Raise e, st') /\ o = Raise e) \/
  (exists a st1, m st = Some (Return a, st1) /\ f a st1 = Some (o, st')).
Proof.
  unfold bind. destruct (m st) as [[[a|e] st1]|] eqn:E; intros H.
  - right. eauto.
  - left. inversion H; subst. eauto.
  - discriminate.
Qed.

Lemma bind_Return_inv {A B : Type} (m : M A) (f : A -> M B) st b st' :
  bind m f st = Some (Return b, st') ->
  exists a st1, m st = Some (Return a, st1) /\ f a st1 = Some (Return b, st').
Proof.
  intros H. apply bind_inv in H. destruct H as [(e & _ & H)|H]; [discriminate|exact H].
Qed.

Lemma bind_Return {A B : Type} (m : M A) (f : A -> M B) st a st1 :
  m st = Some (Return a, st1) -> bind m f st = f a st1.
Proof. intros H. unfold bind. now rewrite H. Qed.

Lemma bind_Raise {A B : Type} (m : M A) (f : A -> M B) st e st1 :
  m st = Some (Raise e, st1) -> bind m f st = Some (Raise e, st1).
Proof. intros H. unfold bind. now rewrite H. Qed.

(** ** Frames and rows *)

Lemma loc_set_length h f lb : List.length (loc_set h f lb) = List.length lb.
Proof. unfold loc_set. apply length_map. Qed.

Lemma loc_set_compose h f g lb :
  (forall r, Row.hash (g r) = Row.hash r) ->
  loc_set h f (loc_set h g lb) = loc_set h (fun r => f (g r)) lb.
Proof.
  intros Hg. unfold loc_set. rewrite map_map. apply map_ext. intros r.
  destruct (String.eqb (Row.hash r) h) eqn:E.
  - now rewrite Hg, E.
  - now rewrite E.
Qed.

Lemma loc_set_In h f lb r' :
  In r' (loc_set h f lb) ->
  exists r, In r lb /\
    r' = (if String.eqb (Row.hash r) h then f r else r).
Proof.
  unfold loc_set. rewrite in_map_iff. intros (r & <- & Hin). eauto.
Qed.

Lemma loc_set_other h f lb :
  (forall r, In r lb -> String.eqb (Row.hash r) h = false) ->
  loc_set h f lb = lb.
Proof.
  intros H. unfold loc_set. rewrite <- (map_id lb) at 2.
  apply map_ext_in. intros r Hr. now rewrite (H r Hr).
Qed.

(** ** The job protocol: what a returning job has done *)

Ltac inv_bind H a st1 H1 :=
  apply bind_Return_inv in H; destruct H as (a & st1 & H1 & H).

Lemma evaluate_model_logic_returns eval_api vibe_api fault fuel request st s st' :
  evaluate_model_logic eval_api vibe_api fault fuel request st
    = Some (Return s, st') ->
  exists m q l v st0,
    fault request = None /\
    s = mkScore m q l v (weighted_total m q l v) /\
    st' = write_final_scores (hash request) m q l v (weighted_total m q l v) st0.
Proof.
  unfold evaluate_model_logic. intros H.
  inv_bind H lb st1 H1.
  destruct (negb (hash_any (hash request) lb)); [discriminate|].
  inv_bind H u2 st2 H2.
  inv_bind H resp st3 H3.
  inv_bind H u4 st4 H4.
  inv_bind H data st5 H5.
  inv_bind H oq st6 H6.
  inv_bind H ol st7 H7.
  inv_bind H om st8 H8.
  inv_bind H m st9 H9.
  inv_bind H q st10 H10.
  inv_bind H l st11 H11.
  inv_bind H u12 st12 H12.
  inv_bind H vresp st13 H13.
  inv_bind H u14 st14 H14.
  inv_bind H vdata st15 H15.
  inv_bind H ov st16 H16.
  destruct oq as [q'|]; [|discriminate].
  destruct ol as [l'|]; [|destruct om; discriminate].
  destruct om as [m'|]; [|discriminate].
  destruct ov as [v|]; [|discriminate].
  destruct (fault request) as [reason|] eqn:F.
  - inv_bind H u17 st17 H17. discriminate.
  - inv_bind H u17 st17 H17. unfold modify in H17. inversion H17; subst.
    unfold ret in H. inversion H; subst.
    exists m', q', l', v, st16. auto.
Qed.

(** ** Weighted total *)

Lemma write_final_scores_rows h m q l v t st r :
  In r (leaderboard (write_final_scores h m q l v t st)) ->
  Row.hash r = h ->
  Row.model_size_score r = m /\ Row.qualitative_score r = q /\
  Row.latency_score r = l /\ Row.vibe_score r = v /\
  Row.total_score r = t /\ Row.status r = "COMPLETED" /\ Row.notes r = "".
Proof.
  unfold write_final_scores. cbn [leaderboard set_leaderboard].
  rewrite !loc_set_compose by reflexivity.
  intros Hin Hh. apply loc_set_In in Hin. destruct Hin as (r0 & _ & ->).
  destruct (String.eqb (Row.hash r0) h) eqn:E.
  - cbn. repeat split; reflexivity.
  - apply String.eqb_neq in E. contradiction.
Qed.

(** C6, as amended: a job that returns has stored, in every row of its
    hash, status COMPLETED and a total_score that is the binary64
    evaluation of
    [model_size_score*0.06 + qualitative_score*0.82 + latency_score*0.06 + vibe_score*0.06]
    (each product and each sum rounded, left to right) of the stored
    scores, and returns the same total; on the scores 1.0, 0.5, 0.8, 0.9
    this is the binary64 number 0.5720000000000001, less than 1e-15
    away from 0.572. *)
Theorem weighted_total_of_completed_job :
  (forall eval_api vibe_api fault fuel request st s st',
      evaluate_model_logic eval_api vibe_api fault fuel request st
        = Some (Return s, st') ->
      score_total_score s
        = weighted_total (score_model_size_score s) (score_qualitative_score s)
                         (score_latency_score s) (score_vibe_score s)
      /\ forall r, In r (leaderboard st') -> Row.hash r = hash request ->
           Row.status r = "COMPLETED"
           /\ Row.total_score r = score_total_score s
           /\ Row.total_score r
              = weighted_total (Row.model_size_score r) (Row.qualitative_score r)
                               (Row.latency_score r) (Row.vibe_score r))
  /\ (forall m q l v,
        weighted_total m q l v
          = (m * 0.06 + q * 0.82 + l * 0.06 + v * 0.06)%float)
  /\ weighted_total 1.0 0.5 0.8 0.9 = 0.5720000000000001%float
  /\ PrimFloat.ltb
       (PrimFloat.abs (weighted_total 1.0 0.5 0.8 0.9 - 0.572)%float)
       1e-15%float = true.
Proof.
  split; [|split; [|split]]; try reflexivity.
  intros eval_api vibe_api fault fuel request st s st' H.
  apply evaluate_model_logic_returns in H.
  destruct H as (m & q & l & v & st0 & _ & -> & ->). split; [reflexivity|].
  intros r Hin Hh.
  destruct (write_final_scores_rows _ _ _ _ _ _ _ _ Hin Hh)
    as (-> & -> & -> & -> & -> & -> & _).
  cbn. auto.
Qed.

Lemma weighted_total_of_completed_job_witness :
  exists s st',
    evaluate_model_logic eval_api_ok vibe_api_ok no_fault retry_fuel
                         request_chatml queued_state = Some (Return s, st')
    /\ score_total_score s
        = weighted_total (score_model_size_score s) (score_qualitative_score s)
                         (score_latency_score s) (score_vibe_score s).
Proof.
  eexists. eexists. split.
  - vm_compute. reflexivity.
  - refine (proj1 (proj1 weighted_total_of_completed_job
                     eval_api_ok vibe_api_ok no_fault retry_fuel
                     request_chatml queued_state _ _ _)).
    vm_compute. reflexivity.
Defined.

(** C6 as stated fails on the example: with the four scores 1.0, 0.5,
    0.8 and 0.9 delivered by the scoring services, the total_score the
    job returns and stores is not the float 0.572. *)
Lemma weighted_total_example_is_not_0_572 :
  match evaluate_model_logic eval_api_ok vibe_api_ok no_fault retry_fuel
                             request_chatml queued_state with
  | Some (Return s, st') =>
      score_model_size_score s = 1.0%float
      /\ score_qualitative_score s = 0.5%float
      /\ score_latency_score s = 0.8%float
      /\ score_vibe_score s = 0.9%float
      /\ score_total_score s <> 0.572%float
      /\ map Row.total_score (leaderboard st') <> [0.572%float]
  | _ => False
  end.
Proof.
  vm_compute. repeat split; try reflexivity.
  - intros H. apply (f_equal (fun x => PrimFloat.eqb x 0.572%float)) in H.
    vm_compute in H. discriminate.
  - intros H.
    apply (f_equal (fun xs => match xs with
                              | [x] => PrimFloat.eqb x 0.572%float
                              | _ => false
                              end)) in H.
    vm_compute in H. discriminate.
Qed.

(** ** Startup column check *)

Lemma forallb_existsb_spec (cols on_disk : list string) :
  forallb (fun col => existsb (String.eqb col) on_disk) cols = true
  <-> forall c, In c cols -> In c on_disk.
Proof.
  rewrite forallb_forall. split; intros H c Hc.
  - apply H in Hc. apply existsb_exists in Hc.
    destruct Hc as (d & Hd & E). apply String.eqb_eq in E. now subst.
  - apply existsb_exists. exists c. split; [auto|apply String.eqb_refl].
Qed.

Lemma missing_column_dec (on_disk : list string) :
  (forall c, In c columns -> In c on_disk)
  \/ (exists c, In c columns /\ ~ In c on_disk).
Proof.
  induction columns as [|c cols IH].
  - left. intros c [].
  - destruct (in_dec string_dec c on_disk) as [Hc|Hc].
    + destruct IH as [IH|(d & Hd & Hn)].
      * left. intros d [<-|Hd]; auto.
      * right. exists d. split; [now right|exact Hn].
    + right. exists c. split; [now left|exact Hc].
Qed.

(** C9, as amended: with an existing leaderboard file, startup is
    rejected (sys.exit(1)) if and only if some column of the fixed
    12-column schema is missing from the on-disk columns; columns beyond
    the schema, and the order of the columns, do not matter. *)
Theorem startup_load_rejects_iff_column_missing (on_disk : list string) :
  (startup_load on_disk = SysExit 1
   <-> exists c, In c columns /\ ~ In c on_disk)
  /\ (startup_load on_disk = Proceed
      <-> forall c, In c columns -> In c on_disk)
  /\ (forall extra,
        startup_load (on_disk ++ extra) = SysExit 1 ->
        startup_load on_disk = SysExit 1).
Proof.
  assert (P : forall l, startup_load l = Proceed
                        <-> forall c, In c columns -> In c l).
  { intros l. unfold startup_load. rewrite <- forallb_existsb_spec.
    destruct (forallb _ columns); cbn; split; congruence. }
  assert (Q : forall l, startup_load l = SysExit 1 <-> startup_load l <> Proceed).
  { intros l. unfold startup_load. destruct (negb _); split; congruence. }
  split; [|split].
  - rewrite Q, P. split.
    + intros H. destruct (missing_column_dec on_disk) as [A|A]; tauto.
    + intros (c & Hc & Hn) A. auto.
  - apply P.
  - intros extra. rewrite !Q. intros H A. apply H. apply P.
    intros c Hc. apply in_or_app. left. revert c Hc. now apply P.
Qed.

Lemma startup_load_rejects_iff_column_missing_witness :
  startup_load (removelast columns) = SysExit 1
  /\ startup_load (rev columns) = Proceed.
Proof.
  split.
  - apply (proj2 (proj1 (startup_load_rejects_iff_column_missing
                           (removelast columns)))).
    exists "notes". split.
    + cbn. tauto.
    + cbn. intros H. repeat (destruct H as [H|H]; [discriminate H|]). exact H.
  - apply (proj2 (proj1 (proj2 (startup_load_rejects_iff_column_missing
                                  (rev columns))))).
    intros c Hc. apply in_rev. rewrite rev_involutive. exact Hc.
Defined.

(** C9 as stated fails: a file whose columns are the schema plus one
    more column does not have exactly the schema's column set, and
    startup proceeds. *)
Lemma startup_load_accepts_extra_column :
  ~ same_column_set (columns ++ ["extra"])
  /\ startup_load (columns ++ ["extra"]) = Proceed
  /\ ~ (startup_load (columns ++ ["extra"]) = SysExit 1
        <-> ~ same_column_set (columns ++ ["extra"])).
Proof.
  assert (N : ~ same_column_set (columns ++ ["extra"])).
  { intros H. specialize (H "extra"). destruct H as [H _].
    assert (I : In "extra" (columns ++ ["extra"])) by (apply in_or_app; right; now left).
    apply H in I. cbn in I.
    repeat (destruct I as [I|I]; [discriminate I|]). exact I. }
  split; [exact N|]. split; [reflexivity|].
  intros [_ H]. specialize (H N). discriminate H.
Qed.

(** ** Shutdown *)

Lemma filter_twice {A : Type} (f g : A -> bool) (l : list A) :
  filter f (filter g l) = filter (fun x => g x && f x) l.
Proof.
  induction l as [|x l IH]; [reflexivity|]. cbn.
  destruct (g x); cbn; [destruct (f x)|]; now rewrite IH.
Qed.

Lemma shutdown_computes eval_api vibe_api fault fuel st :
  shutdown eval_api vibe_api fault fuel st
  = Some (mkState (filter survives_shutdown (leaderboard st))
                  (filter survives_shutdown (leaderboard st))
                  [] (trace st)).
Proof.
  unfold shutdown, model_evaluation_worker. cbn.
  unfold save_leaderboard, set_leaderboard. cbn.
  now rewrite filter_twice.
Qed.


(** ** The gateway *)

Lemma get_json_result_None lb h :
  get_json_result lb h = None <-> hash_any h lb = false.
Proof.
  unfold get_json_result, hash_any. induction lb as [|r lb IH]; cbn.
  - tauto.
  - destruct (String.eqb (Row.hash r) h); cbn; [split; discriminate|exact IH].
Qed.

Lemma hash_any_false_In lb h :
  hash_any h lb = false <->
  forall r, In r lb -> String.eqb (Row.hash r) h = false.
Proof.
  unfold hash_any. split.
  - intros H r Hr. destruct (String.eqb (Row.hash r) h) eqn:E; [|reflexivity].
    rewrite <- H. symmetry. apply existsb_exists. eauto.
  - intros H. destruct (existsb _ lb) eqn:E; [|reflexivity].
    apply existsb_exists in E. destruct E as (r & Hr & E).
    now rewrite (H r Hr) in E.
Qed.

Lemma hash_any_count lb h :
  hash_any h lb = false <-> count_hash h lb = 0%nat.
Proof.
  unfold hash_any, count_hash. induction lb as [|r lb IH]; cbn.
  - tauto.
  - destruct (String.eqb (Row.hash r) h); cbn; [split; discriminate|exact IH].
Qed.

Lemma count_hash_loc_set h h' f lb :
  (forall r, Row.hash (f r) = Row.hash r) ->
  count_hash h (loc_set h' f lb) = count_hash h lb.
Proof.
  intros Hf. unfold count_hash, loc_set. induction lb as [|r lb IH]; cbn.
  - reflexivity.
  - assert (E : Row.hash (if String.eqb (Row.hash r) h' then f r else r)
                = Row.hash r) by (destruct (String.eqb _ h'); auto).
    rewrite E. destruct (String.eqb (Row.hash r) h); cbn; now rewrite IH.
Qed.

Lemma update_failed_leaderboard h n st :
  n <> "" ->
  update_leaderboard_status h "FAILED" n st
  = mkState (loc_set h (mark_failed n) (leaderboard st))
            (loc_set h (mark_failed n) (leaderboard st))
            (evaluation_queue st) (trace st).
Proof.
  intros Hn. unfold update_leaderboard_status.
  apply String.eqb_neq in Hn. rewrite Hn.
  rewrite loc_set_compose by reflexivity. reflexivity.
Qed.

Section GatewayFacts.

Variable regenerate_hash : string -> string -> string -> string -> Z.
Variable check_model_repo_size : string -> string -> string -> Lookup.
Variable get_model_size : string -> string -> Lookup.

Local Abbreviation admission :=
  (admission_checks check_model_repo_size get_model_size).
Local Abbreviation submit :=
  (evaluate_model regenerate_hash check_model_repo_size get_model_size).

Lemma rejected_notes_not_empty request n :
  admission request = Rejected n -> n <> "".
Proof.
  unfold admission_checks.
  destruct (negb (in_mappings _)); [intros [= <-]; discriminate|].
  destruct (check_model_repo_size _ _ _) as [e| |size];
    try (intros [= <-]; discriminate).
  destruct (_ || _); [intros [= <-]; discriminate|].
  destruct (get_model_size _ _) as [e| |m]; try discriminate;
    try (intros [= <-]; discriminate).
  destruct (_ >? _); [intros [= <-]; discriminate|discriminate].
Qed.

(** What a call does for a submission that passes the hash check and
    has no row yet. *)
Lemma evaluate_model_fresh utcnow request st :
  hash_check regenerate_hash request = Some true ->
  hash_any (hash request) (leaderboard st) = false ->
  submit utcnow request st =
  match admission request with
  | Rejected n =>
      (Return (Some (json_of_row (mark_failed n (new_entry utcnow request)))),
       mkState (mark_failed n (new_entry utcnow request) :: leaderboard st)
               (mark_failed n (new_entry utcnow request) :: leaderboard st)
               (evaluation_queue st) (trace st))
  | Crashed e => (Raise e, inserted utcnow request st)
  | Accepted =>
      (Return (Some (json_of_row (new_entry utcnow request))),
       mkState (new_entry utcnow request :: leaderboard st)
               (new_entry utcnow request :: leaderboard st)
               (evaluation_queue st ++ [Some request])%list (trace st))
  end.
Proof.
  intros Hc Hfresh. unfold evaluate_model. rewrite Hc.
  rewrite (proj2 (get_json_result_None _ _) Hfresh).
  destruct (admission request) as [n|e|] eqn:A.
  - unfold reject. rewrite update_failed_leaderboard
      by (eapply rejected_notes_not_empty; eauto).
    cbn [leaderboard save_leaderboard set_leaderboard evaluation_queue trace].
    assert (L : loc_set (hash request) (mark_failed n)
                  (new_entry utcnow request :: leaderboard st)
                = mark_failed n (new_entry utcnow request) :: leaderboard st).
    { unfold loc_set at 1. cbn [map]. fold (loc_set (hash request) (mark_failed n)).
      cbn [Row.hash new_entry]. rewrite String.eqb_refl.
      f_equal. apply loc_set_other. now apply hash_any_false_In. }
    rewrite L. unfold get_json_result. cbn [find].
    cbn [Row.hash mark_failed Row.set_notes Row.set_status new_entry].
    rewrite String.eqb_refl. reflexivity.
  - reflexivity.
  - cbn [leaderboard save_leaderboard set_leaderboard set_evaluation_queue
         evaluation_queue trace].
    unfold get_json_result. cbn [find Row.hash new_entry].
    rewrite String.eqb_refl. reflexivity.
Qed.

(** C8, as amended: a submission with a matching fingerprint and no row
    yet, whose chat_template_type is not a key of the supported set, is
    first inserted and then marked FAILED with the note
    "Chat template type not supported: <type>"; the call returns the
    normal payload (sentinel scores, status FAILED), the file is saved
    with that row, the other rows are untouched and nothing is put on
    the evaluation queue. *)
Theorem unsupported_template_is_recorded_as_failed utcnow request st :
  hash_check regenerate_hash request = Some true ->
  hash_any (hash request) (leaderboard st) = false ->
  in_mappings (chat_template_type request) = false ->
  let failure_notes :=
    "Chat template type not supported: " ++ chat_template_type request in
  let row := mark_failed failure_notes (new_entry utcnow request) in
  submit utcnow request st
  = (Return (Some (mkJsonResult unset_score "FAILED")),
     mkState (row :: leaderboard st) (row :: leaderboard st)
             (evaluation_queue st) (trace st))
  /\ Row.hash row = hash request
  /\ Row.status row = "FAILED"
  /\ Row.notes row = failure_notes
  /\ count_hash (hash request) (row :: leaderboard st) = 1%nat.
Proof.
  intros Hc Hfresh Ht failure_notes row.
  rewrite (evaluate_model_fresh _ _ _ Hc Hfresh).
  unfold admission_checks. rewrite Ht. cbn [negb].
  split; [reflexivity|]. repeat split.
  unfold count_hash. cbn [filter]. cbn [row Row.hash mark_failed Row.set_notes
    Row.set_status new_entry]. rewrite String.eqb_refl. cbn [List.length].
  f_equal. now apply hash_any_count.
Qed.

(** C5: for a submission with a matching fingerprint and no row yet,
    (1) if the repository size lookup raises or returns None, or the
    size is below MIN_REPO_SIZE or above MAX_REPO_SIZE, or the declared
    model size floor-divided by 4 exceeds MAX_MODEL_SIZE, then the checks
    reject it with a non-empty note, the one row of its hash is FAILED
    with that note, the payload returned has status FAILED, and the
    queue is unchanged; (2) with a supported template, the note for a
    repository size out of range and the note for a model too large
    spell out the violated bound; (3) the queue changes only when every
    check passed; (4) a submission passing every check is appended to
    the queue and returned with status QUEUED and the sentinel scores.
    Under (2) the notes of a lookup that raised or returned None are the
    two "Error checking model repo size" texts. *)
Theorem admission_gate utcnow request st :
  hash_check regenerate_hash request = Some true ->
  hash_any (hash request) (leaderboard st) = false ->
  let lookup := check_model_repo_size (hash request) (repo_namespace request)
                                      (repo_name request) in
  let declared := get_model_size (repo_namespace request) (repo_name request) in
  let out := submit utcnow request st in
  ((exists e, lookup = LookupRaises e) \/ lookup = LookupNone
    \/ (exists n, lookup = LookupSize n
                  /\ (n < MIN_REPO_SIZE \/ MAX_REPO_SIZE < n))
    \/ (exists m, declared = LookupSize m /\ MAX_MODEL_SIZE < m / 4) ->
    exists failure_notes,
      admission request = Rejected failure_notes
      /\ failure_notes <> ""
      /\ fst out = Return (Some (mkJsonResult unset_score "FAILED"))
      /\ leaderboard (snd out)
         = mark_failed failure_notes (new_entry utcnow request) :: leaderboard st
      /\ leaderboard_file (snd out) = leaderboard (snd out)
      /\ (forall r, In r (leaderboard (snd out)) ->
          Row.hash r = hash request ->
          Row.status r = "FAILED" /\ Row.notes r = failure_notes)
      /\ evaluation_queue (snd out) = evaluation_queue st)
  /\ (in_mappings (chat_template_type request) = true ->
      (forall e, lookup = LookupRaises e ->
         admission request
         = Rejected ("Error checking model repo size: " ++ e))
      /\ (lookup = LookupNone ->
          admission request
          = Rejected "Error checking model repo size. Make sure the model repository exists and is accessible.")
      /\ (forall n, lookup = LookupSize n ->
         n < MIN_REPO_SIZE \/ MAX_REPO_SIZE < n ->
         admission request
         = Rejected ("Model repo size is not up to requirments: "
                     ++ str_of_int n ++ " bytes. Should be less than "
                     ++ str_of_int MAX_REPO_SIZE
                     ++ " bytes and greater than "
                     ++ str_of_int MIN_REPO_SIZE ++ " bytes"))
      /\ (forall n m, lookup = LookupSize n ->
           MIN_REPO_SIZE <= n <= MAX_REPO_SIZE ->
           declared = LookupSize m -> MAX_MODEL_SIZE < m / 4 ->
           admission request
           = Rejected ("Model size is too large: " ++ str_of_int m
                       ++ " bytes. Should be less than "
                       ++ str_of_int MAX_MODEL_SIZE ++ " bytes")))
  /\ (evaluation_queue (snd out) <> evaluation_queue st ->
      admission request = Accepted)
  /\ (admission request = Accepted ->
      in_mappings (chat_template_type request) = true
      /\ (exists n m, lookup = LookupSize n
                      /\ MIN_REPO_SIZE <= n <= MAX_REPO_SIZE
                      /\ declared = LookupSize m
                      /\ m / 4 <= MAX_MODEL_SIZE)
      /\ evaluation_queue (snd out)
         = (evaluation_queue st ++ [Some request])%list
      /\ fst out = Return (Some (mkJsonResult unset_score "QUEUED"))
      /\ leaderboard (snd out) = new_entry utcnow request :: leaderboard st).
Proof.
  intros Hc Hfresh lookup declared out.
  assert (Eout : out = submit utcnow request st) by reflexivity.
  rewrite (evaluate_model_fresh _ _ _ Hc Hfresh) in Eout.
  assert (Hrej : forall n, admission request = Rejected n ->
            n <> ""
            /\ fst out = Return (Some (mkJsonResult unset_score "FAILED"))
            /\ leaderboard (snd out)
               = mark_failed n (new_entry utcnow request) :: leaderboard st
            /\ leaderboard_file (snd out) = leaderboard (snd out)
            /\ (forall r, In r (leaderboard (snd out)) ->
                 Row.hash r = hash request ->
                 Row.status r = "FAILED" /\ Row.notes r = n)
            /\ evaluation_queue (snd out) = evaluation_queue st).
  { intros n A. rewrite A in Eout. rewrite Eout. cbn [fst snd leaderboard
      leaderboard_file evaluation_queue].
    split; [eapply rejected_notes_not_empty; eauto|].
    repeat split; try reflexivity.
    - destruct H as [<-|Hin]; [reflexivity|].
      apply (proj1 (hash_any_false_In _ _) Hfresh) in Hin.
      apply String.eqb_neq in Hin. contradiction.
    - destruct H as [<-|Hin]; [reflexivity|].
      apply (proj1 (hash_any_false_In _ _) Hfresh) in Hin.
      apply String.eqb_neq in Hin. contradiction. }
  split; [|split; [|split]].
  - intros Hbad.
    assert (exists n, admission request = Rejected n) as (n & A).
    { unfold admission_checks. fold lookup. fold declared.
      destruct (negb (in_mappings _)); [eauto|].
      destruct Hbad as [(e & ->)|[->|[(n & -> & Hn)|(m & Hm & Hlarge)]]];
        eauto.
      - replace ((n >? MAX_REPO_SIZE) || (n <? MIN_REPO_SIZE)) with true; eauto.
        symmetry. apply orb_true_iff. rewrite Z.gtb_lt, Z.ltb_lt. tauto.
      - destruct lookup as [e| |n]; eauto.
        destruct (_ || _); eauto. rewrite Hm.
        replace (m / 4 >? MAX_MODEL_SIZE) with true; eauto.
        symmetry. now apply Z.gtb_lt. }
    exists n. split; [exact A|]. now apply Hrej.
  - intros Ht. unfold admission_checks. fold lookup. fold declared.
    rewrite Ht. cbn [negb]. split; [|split; [|split]].
    + now intros e ->.
    + now intros ->.
    + intros n -> Hn.
      replace ((n >? MAX_REPO_SIZE) || (n <? MIN_REPO_SIZE)) with true; auto.
      symmetry. apply orb_true_iff. rewrite Z.gtb_lt, Z.ltb_lt. tauto.
    + intros n m -> Hn -> Hm.
      replace ((n >? MAX_REPO_SIZE) || (n <? MIN_REPO_SIZE)) with false.
      * replace (m / 4 >? MAX_MODEL_SIZE) with true; auto.
        symmetry. now apply Z.gtb_lt.
      * symmetry. apply orb_false_iff. split.
        -- rewrite Z.gtb_ltb. apply Z.ltb_ge. lia.
        -- apply Z.ltb_ge. lia.
  - intros Hq. destruct (admission request) as [n|e|] eqn:A; [| |reflexivity].
    + destruct (Hrej n eq_refl) as (_ & _ & _ & _ & _ & Q). contradiction.
    + rewrite Eout in Hq. cbn in Hq. contradiction.
  - intros A. rewrite A in Eout. rewrite Eout. cbn [fst snd leaderboard
      evaluation_queue].
    revert A. unfold admission_checks. fold lookup. fold declared.
    destruct (in_mappings _); cbn [negb]; [|discriminate].
    destruct lookup as [e| |n]; try discriminate.
    destruct ((n >? MAX_REPO_SIZE) || (n <? MIN_REPO_SIZE)) eqn:R;
      [discriminate|].
    destruct declared as [e| |m]; try discriminate.
    destruct (m / 4 >? MAX_MODEL_SIZE) eqn:L; [discriminate|]. intros _.
    apply orb_false_iff in R. destruct R as [R1 R2].
    rewrite Z.gtb_ltb in R1. apply Z.ltb_ge in R1, R2.
    rewrite Z.gtb_ltb in L. apply Z.ltb_ge in L.
    split; [reflexivity|]. split; [|auto].
    exists n, m. repeat split; auto.
Qed.

Lemma evaluate_model_existing utcnow request st payload :
  hash_check regenerate_hash request = Some true ->
  get_json_result (leaderboard st) (hash request) = Some payload ->
  submit utcnow request st = (Return (Some payload), st).
Proof. intros Hc Hg. unfold evaluate_model. now rewrite Hc, Hg. Qed.

Lemma evaluate_model_hash_mismatch utcnow request st :
  hash_check regenerate_hash request <> Some true ->
  exists e,
    submit utcnow request st = (Raise e, st)
    /\ (hash_check regenerate_hash request = Some false ->
        e = HTTPException 400 "Hash does not match the model details")
    /\ (hash_check regenerate_hash request = None ->
        e = ValueError ("invalid literal for int() with base 10: '"
                        ++ hash request ++ "'")).
Proof.
  intros Hc. unfold evaluate_model.
  destruct (hash_check regenerate_hash request) as [[|]|].
  - congruence.
  - eexists. split; [reflexivity|]. split; [reflexivity|discriminate].
  - eexists. split; [reflexivity|]. split; [discriminate|reflexivity].
Qed.

Lemma hash_check_true request :
  hash_check regenerate_hash request = Some true ->
  py_int (hash request)
  = Some (regenerate_hash (repo_namespace request) (repo_name request)
                          (chat_template_type request)
                          (competition_id request)).
Proof.
  unfold hash_check. destruct (py_int (hash request)) as [n|]; [|discriminate].
  intros [= E]. apply Z.eqb_eq in E. now subst.
Qed.

Lemma evaluate_model_keeps_fingerprints utcnow request st :
  fingerprint_inv regenerate_hash st ->
  fingerprint_inv regenerate_hash (snd (submit utcnow request st)).
Proof.
  intros Hinv.
  destruct (hash_check regenerate_hash request) as [[|]|] eqn:Hc.
  - destruct (get_json_result (leaderboard st) (hash request)) as [p|] eqn:G.
    + now rewrite (evaluate_model_existing _ _ _ _ Hc G).
    + apply get_json_result_None in G.
      rewrite (evaluate_model_fresh _ _ _ Hc G).
      assert (Hnew : forall r,
                 Row.hash r = hash request ->
                 Row.repo_namespace r = repo_namespace request ->
                 Row.repo_name r = repo_name request ->
                 Row.chat_template_type r = chat_template_type request ->
                 row_fingerprint_ok regenerate_hash r).
      { intros r E1 E2 E3 E4. exists (competition_id request).
        rewrite E1, E2, E3, E4. now apply hash_check_true. }
      destruct (admission request); cbn [snd]; unfold fingerprint_inv;
        cbn [leaderboard inserted];
        (apply Forall_cons; [apply Hnew; reflexivity|exact Hinv]).
  - destruct (evaluate_model_hash_mismatch utcnow request st) as (e & -> & _);
      [congruence|exact Hinv].
  - destruct (evaluate_model_hash_mismatch utcnow request st) as (e & -> & _);
      [congruence|exact Hinv].
Qed.

(** The hash check comes first: a mismatch raises with the state as it
    was, and a row that a call adds is the row of a submission that
    passed the check. *)
Lemma evaluate_model_checks_fingerprint utcnow request st :
  (hash_check regenerate_hash request <> Some true ->
   exists e,
     submit utcnow request st = (Raise e, st)
     /\ (hash_check regenerate_hash request = Some false ->
         e = HTTPException 400 "Hash does not match the model details"))
  /\ (fingerprint_inv regenerate_hash st ->
      fingerprint_inv regenerate_hash (snd (submit utcnow request st)))
  /\ (forall r, In r (leaderboard (snd (submit utcnow request st))) ->
      ~ In r (leaderboard st) ->
      hash_check regenerate_hash request = Some true
      /\ Row.hash r = hash request
      /\ row_fingerprint_ok regenerate_hash r).
Proof.
  split; [|split].
  - intros Hc. destruct (evaluate_model_hash_mismatch utcnow request st Hc)
      as (e & E & H400 & _). eauto.
  - apply evaluate_model_keeps_fingerprints.
  - intros r Hin Hnew.
    destruct (hash_check regenerate_hash request) as [[|]|] eqn:Hc.
    + split; [reflexivity|].
      destruct (get_json_result (leaderboard st) (hash request)) as [p|] eqn:G.
      * rewrite (evaluate_model_existing _ _ _ _ Hc G) in Hin. contradiction.
      * apply get_json_result_None in G.
        rewrite (evaluate_model_fresh _ _ _ Hc G) in Hin.
        assert (Hr : Row.hash r = hash request
                     /\ Row.repo_namespace r = repo_namespace request
                     /\ Row.repo_name r = repo_name request
                     /\ Row.chat_template_type r = chat_template_type request).
        { destruct (admission request); cbn [snd leaderboard inserted] in Hin;
            (destruct Hin as [<-|Hin]; [repeat split|contradiction]). }
        destruct Hr as (E1 & E2 & E3 & E4). split; [exact E1|].
        exists (competition_id request). rewrite E1, E2, E3, E4.
        now apply hash_check_true.
    + destruct (evaluate_model_hash_mismatch utcnow request st) as (e & E & _);
        [congruence|]. rewrite E in Hin. contradiction.
    + destruct (evaluate_model_hash_mismatch utcnow request st) as (e & E & _);
        [congruence|]. rewrite E in Hin. contradiction.
Qed.

(** C1, as amended: two calls that carry the same hash string and both
    pass the fingerprint check (in particular the same submission sent
    twice), made on a store with at most one row of that hash: after the
    first call exactly one row has the hash; the second call leaves the
    store, the file and the queue exactly as the first call left them (no
    row inserted, no check run, nothing enqueued) and returns the payload
    read from that row, which is the payload of the first call whenever
    the first call returned one. *)
Theorem resubmission_returns_existing_row utcnow1 utcnow2 request1 request2 st :
  hash request2 = hash request1 ->
  hash_check regenerate_hash request1 = Some true ->
  hash_check regenerate_hash request2 = Some true ->
  (count_hash (hash request1) (leaderboard st) <= 1)%nat ->
  let out1 := submit utcnow1 request1 st in
  let out2 := submit utcnow2 request2 (snd out1) in
  count_hash (hash request1) (leaderboard (snd out1)) = 1%nat
  /\ snd out2 = snd out1
  /\ count_hash (hash request1) (leaderboard (snd out2)) = 1%nat
  /\ (exists row,
        find (fun r => String.eqb (Row.hash r) (hash request1))
             (leaderboard (snd out1)) = Some row
        /\ fst out2 = Return (Some (json_of_row row)))
  /\ (forall payload, fst out1 = Return payload -> fst out2 = fst out1).
Proof.
  intros Hh Hc1 Hc2 Hcount out1 out2.
  assert (Key : count_hash (hash request1) (leaderboard (snd out1)) = 1%nat
                /\ exists row,
                     find (fun r => String.eqb (Row.hash r) (hash request1))
                          (leaderboard (snd out1)) = Some row
                     /\ (forall payload, fst out1 = Return payload ->
                         payload = Some (json_of_row row))).
  { subst out1.
    destruct (get_json_result (leaderboard st) (hash request1)) as [p|] eqn:G.
    - rewrite (evaluate_model_existing _ _ _ _ Hc1 G). cbn [fst snd]. split.
      + destruct (count_hash (hash request1) (leaderboard st)) as [|[|n]] eqn:C;
          [|reflexivity|lia].
        apply hash_any_count, get_json_result_None in C. congruence.
      + unfold get_json_result in G.
        destruct (find _ (leaderboard st)) as [row|]; [|discriminate].
        exists row. split; [reflexivity|]. intros payload [= <-].
        cbn in G. congruence.
    - apply get_json_result_None in G.
      rewrite (evaluate_model_fresh _ _ _ Hc1 G).
      assert (C0 : count_hash (hash request1) (leaderboard st) = 0%nat)
        by now apply hash_any_count.
      destruct (admission request1) as [n|e|]; cbn [fst snd leaderboard inserted];
        unfold count_hash; cbn [filter find];
        cbn [Row.hash mark_failed Row.set_notes Row.set_status new_entry];
        rewrite String.eqb_refl; cbn [List.length];
        fold (count_hash (hash request1) (leaderboard st)); rewrite C0;
        (split; [reflexivity|]); eexists; (split; [reflexivity|]);
        intros payload [= <-]; reflexivity. }
  destruct Key as (C1 & row & Hfind & Hpay).
  assert (G2 : get_json_result (leaderboard (snd out1)) (hash request2)
               = Some (json_of_row row)).
  { rewrite Hh. unfold get_json_result. now rewrite Hfind. }
  assert (E2 : out2 = (Return (Some (json_of_row row)), snd out1)).
  { subst out2. now apply evaluate_model_existing. }
  rewrite E2. cbn [fst snd]. repeat split; auto.
  - eauto.
  - intros payload Hp. rewrite Hp. f_equal. symmetry. now apply Hpay.
Qed.

End GatewayFacts.

(** ** The gateway on the scenarios *)

(** The hash column is text and the check of line 309 compares
    integers: a hash that passes still passes behind a blank, as a
    different key. *)
Lemma hash_spelling_is_not_unique regenerate_hash request :
  hash_check regenerate_hash request = Some true ->
  let respelled :=
    mkRequest (repo_namespace request) (repo_name request)
              (chat_template_type request) (String " " (hash request))
              (revision request) (competition_id request) in
  hash_check regenerate_hash respelled = Some true
  /\ hash respelled <> hash request.
Proof.
  intros Hc respelled. split.
  - exact Hc.
  - cbn. intros E. apply (f_equal String.length) in E. cbn in E. lia.
Qed.

Lemma resubmission_returns_existing_row_witness :
  count_hash "7"
    (leaderboard
       (snd (evaluate_model regenerate_hash_7 repo_size_1GB model_size_16GB
                            0 request_chatml empty_state))) = 1%nat
  /\ snd (evaluate_model regenerate_hash_7 repo_size_1GB model_size_16GB
            1 request_chatml
            (snd (evaluate_model regenerate_hash_7 repo_size_1GB
                                 model_size_16GB 0 request_chatml empty_state)))
     = snd (evaluate_model regenerate_hash_7 repo_size_1GB model_size_16GB
              0 request_chatml empty_state).
Proof.
  destruct (resubmission_returns_existing_row
              regenerate_hash_7 repo_size_1GB model_size_16GB
              0 1 request_chatml request_chatml empty_state
              eq_refl eq_refl eq_refl) as (A & B & _).
  - cbn. lia.
  - split; assumption.
Defined.

(** C1 as stated fails: two calls with the same namespace, name,
    template and competition id, each with a hash that matches the
    fingerprint 7 ("7", then "07"), leave two rows and two queued jobs;
    the second call inserts and enqueues instead of returning the
    existing row. *)
Lemma respelled_hash_is_inserted_again :
  let submit :=
    evaluate_model regenerate_hash_7 repo_size_1GB model_size_16GB in
  let out1 := submit 0 request_chatml empty_state in
  let out2 := submit 1 request_chatml_07 (snd out1) in
  (repo_namespace request_chatml_07, repo_name request_chatml_07,
   chat_template_type request_chatml_07, competition_id request_chatml_07)
  = (repo_namespace request_chatml, repo_name request_chatml,
     chat_template_type request_chatml, competition_id request_chatml)
  /\ hash_check regenerate_hash_7 request_chatml = Some true
  /\ hash_check regenerate_hash_7 request_chatml_07 = Some true
  /\ List.length (leaderboard (snd out1)) = 1%nat
  /\ List.length (leaderboard (snd out2)) = 2%nat
  /\ evaluation_queue (snd out2)
     = [Some request_chatml; Some request_chatml_07]
  /\ snd out2 <> snd out1.
Proof.
  vm_compute. repeat split. intros H.
  apply (f_equal (fun st => List.length (evaluation_queue st))) in H.
  discriminate H.
Qed.

Lemma unsupported_template_is_recorded_as_failed_witness :
  fst (evaluate_model regenerate_hash_7 repo_size_1GB model_size_16GB
                      0 request_unsupported empty_state)
  = Return (Some (mkJsonResult unset_score "FAILED")).
Proof.
  destruct (unsupported_template_is_recorded_as_failed
              regenerate_hash_7 repo_size_1GB model_size_16GB
              0 request_unsupported empty_state eq_refl eq_refl eq_refl)
    as (E & _).
  rewrite E. reflexivity.
Defined.

(** C8 as stated fails: for a submission with the unsupported template
    "gpt" the call returns a payload instead of an error, and afterwards
    the leaderboard and the saved file hold a row of its hash, with
    status FAILED. *)
Lemma unsupported_template_leaves_a_row :
  let out :=
    evaluate_model regenerate_hash_7 repo_size_1GB model_size_16GB
                   0 request_unsupported empty_state in
  in_mappings (chat_template_type request_unsupported) = false
  /\ fst out = Return (Some (mkJsonResult unset_score "FAILED"))
  /\ hash_any (hash request_unsupported) (leaderboard (snd out)) = true
  /\ hash_any (hash request_unsupported) (leaderboard_file (snd out)) = true
  /\ map Row.status (leaderboard (snd out)) = ["FAILED"].
Proof. vm_compute. repeat split. Qed.

(** The example of the specification: a repository of 5 MB, below
    MIN_REPO_SIZE = 10 MB. *)
Lemma admission_gate_witness :
  let out :=
    evaluate_model regenerate_hash_7 repo_size_5MB model_size_16GB
                   0 request_chatml empty_state in
  fst out = Return (Some (mkJsonResult unset_score "FAILED"))
  /\ map Row.notes (leaderboard (snd out))
     = ["Model repo size is not up to requirments: 5242880 bytes. Should be less than 85899345920 bytes and greater than 10485760 bytes"]
  /\ evaluation_queue (snd out) = [].
Proof.
  destruct (admission_gate regenerate_hash_7 repo_size_5MB model_size_16GB
              0 request_chatml empty_state eq_refl eq_refl)
    as (Hrej & Hnote & _).
  destruct Hrej as (n & A & _ & R & L & _ & _ & Q).
  { right. right. left. exists (5 * 1024 * 1024). split; [reflexivity|].
    left. reflexivity. }
  destruct Hnote as (_ & _ & Hsize & _); [reflexivity|].
  specialize (Hsize (5 * 1024 * 1024) eq_refl (or_introl eq_refl)).
  rewrite A in Hsize. injection Hsize as ->.
  cbv zeta. rewrite R, L, Q. repeat split.
Defined.

(** ** The retry loop *)

Lemma add_trace_app evs evs' st :
  add_trace evs' (add_trace evs st) = add_trace (evs ++ evs') st.
Proof. unfold add_trace. cbn. now rewrite <- app_assoc. Qed.

Lemma emit_add_trace e st : emit e st = add_trace [e] st.
Proof. reflexivity. Qed.

Lemma add_trace_nil st : add_trace [] st = st.
Proof. unfold add_trace. rewrite app_nil_r. now destruct st. Qed.

Section RetryLoop.

Variables (api_name : string) (port : Z) (path : string).
Variable service : nat -> Attempt.
Variable h : string.

Local Abbreviation loop := (post_with_retry api_name port path service h).

(** One attempt that succeeds. *)
Lemma loop_success fuel k elapsed resp st r :
  reply (service k) = Responds r -> status_code r = 200 ->
  loop (S fuel) k elapsed resp st
  = Some (Return r, emit (PostScore port path) st).
Proof.
  intros Hr Hs. cbn [post_with_retry]. unfold bind at 1, modify at 1.
  rewrite Hr, Hs. reflexivity.
Qed.

(** One attempt that fails before the deadline. *)
Lemma loop_retry fuel k elapsed resp st :
  attempt_succeeds (service k) = false ->
  (elapsed + took (service k) <= 30000)%N ->
  loop (S fuel) k elapsed resp st
  = loop fuel (S k) (elapsed + took (service k) + 1000)%N
         (match reply (service k) with
          | Responds r => Some r
          | Raises _ => resp
          end)
         (add_trace [PostScore port path; Sleep 1] st).
Proof.
  intros Hf Hd. cbn [post_with_retry]. unfold bind at 1, modify at 1.
  apply N.ltb_ge in Hd. unfold attempt_succeeds in Hf.
  destruct (reply (service k)) as [msg|r].
  - rewrite Hd. unfold bind at 1, modify at 1.
    now rewrite !emit_add_trace, add_trace_app.
  - rewrite Hf, Hd. unfold bind at 1, modify at 1.
    now rewrite !emit_add_trace, add_trace_app.
Qed.

(** One attempt that fails past the deadline. *)
Lemma loop_give_up fuel k elapsed resp st :
  attempt_succeeds (service k) = false ->
  (30000 < elapsed + took (service k))%N ->
  let err :=
    error_string api_name
      (match reply (service k) with
       | Responds r => Some r
       | Raises _ => resp
       end)
      (exception_text api_name (service k)) in
  loop (S fuel) k elapsed resp st
  = Some (Raise (RuntimeError err),
          emit (PostShutdown port)
               (update_leaderboard_status h "FAILED" err
                                          (emit (PostScore port path) st))).
Proof.
  intros Hf Hd err. cbn [post_with_retry]. unfold bind at 1, modify at 1.
  apply N.ltb_lt in Hd. unfold attempt_succeeds in Hf.
  subst err. unfold exception_text.
  destruct (reply (service k)) as [msg|r].
  - rewrite Hd. reflexivity.
  - rewrite Hf, Hd. reflexivity.
Qed.

(** The failed attempts before the last one: the loop arrives at attempt
    [n] with the clock, the response variable and the trace the
    vocabulary describes. *)
Lemma loop_skips_failures n fuel st :
  (forall j, (j < n)%nat ->
             attempt_succeeds (service j) = false
             /\ (observed_at service j <= 30000)%N) ->
  loop (n + fuel) 0 0%N None st
  = loop fuel n (start_at service n) (response_var service n)
         (add_trace (retry_trace port path n) st).
Proof.
  revert fuel. induction n as [|n IH]; intros fuel Hfail.
  - cbn. now rewrite add_trace_nil.
  - replace (S n + fuel)%nat with (n + S fuel)%nat by lia.
    rewrite IH by (intros j Hj; apply Hfail; lia).
    destruct (Hfail n (Nat.lt_succ_diag_r n)) as [Hf Hd].
    rewrite (loop_retry _ _ _ _ _ Hf Hd). rewrite add_trace_app.
    reflexivity.
Qed.

Lemma start_at_lower_bound k : (1000 * N.of_nat k <= start_at service k)%N.
Proof. induction k as [|k IH]; cbn [start_at]; lia. Qed.

Lemma observed_at_mono j k :
  (j <= k)%nat -> (observed_at service j <= observed_at service k)%N.
Proof.
  unfold observed_at. induction 1 as [|k Hle IH]; [lia|].
  cbn [start_at]. lia.
Qed.

(** How the loop ends, from the way the service behaves. *)
Lemma loop_ends fuel st e :
  phase_ends api_name service e ->
  match e with
  | Proceeds n r =>
      (n < fuel)%nat ->
      loop fuel 0 0%N None st
      = Some (Return r,
              add_trace (retry_trace port path n ++ [PostScore port path]) st)
  | GivesUp n err =>
      (n < fuel)%nat ->
      loop fuel 0 0%N None st
      = Some (Raise (RuntimeError err),
              emit (PostShutdown port)
                (update_leaderboard_status h "FAILED" err
                   (add_trace
                      (retry_trace port path n ++ [PostScore port path]) st)))
  end.
Proof.
  destruct e as [n r|n err]; cbn [phase_ends].
  - intros (Hfail & Hr & Hs) Hfuel.
    replace fuel with (n + S (fuel - S n))%nat by lia.
    rewrite (loop_skips_failures _ _ _ Hfail).
    rewrite (loop_success _ _ _ _ _ _ Hr Hs).
    now rewrite emit_add_trace, add_trace_app.
  - intros (Hfail & Hf & Hd & ->) Hfuel.
    replace fuel with (n + S (fuel - S n))%nat by lia.
    rewrite (loop_skips_failures _ _ _ Hfail).
    rewrite (loop_give_up _ _ _ _ _ Hf Hd).
    now rewrite (emit_add_trace (PostScore port path)), add_trace_app.
Qed.

(** Every service behaviour ends the loop within 32 attempts. *)
Lemma phase_end_exists :
  exists e,
    phase_ends api_name service e
    /\ match e with Proceeds n _ | GivesUp n _ => (n <= 31)%nat end.
Proof.
  assert (G : forall d n, (n + d = 31)%nat ->
            (forall j, (j < n)%nat ->
                       attempt_succeeds (service j) = false
                       /\ (observed_at service j <= 30000)%N) ->
            exists e,
              phase_ends api_name service e
              /\ match e with Proceeds m _ | GivesUp m _ => (m <= 31)%nat end).
  { induction d as [|d IH]; intros n Hn Hfail.
    - assert (n = 31%nat) by lia. subst n.
      destruct (attempt_succeeds (service 31)) eqn:Hs.
      + unfold attempt_succeeds in Hs.
        destruct (reply (service 31)) as [|r] eqn:Hr; [discriminate|].
        exists (Proceeds 31 r). cbn. apply Z.eqb_eq in Hs. auto.
      + eexists (GivesUp 31 _). cbn [phase_ends]. repeat split; auto.
        * apply Hfail; assumption.
        * apply Hfail; assumption.
        * pose proof (start_at_lower_bound 31). unfold observed_at. lia.
    - destruct (attempt_succeeds (service n)) eqn:Hs.
      + unfold attempt_succeeds in Hs.
        destruct (reply (service n)) as [|r] eqn:Hr; [discriminate|].
        exists (Proceeds n r). cbn. apply Z.eqb_eq in Hs.
        repeat split; auto; try apply Hfail; auto; lia.
      + destruct (N.ltb 30000 (observed_at service n)) eqn:Hd.
        * apply N.ltb_lt in Hd. eexists (GivesUp n _). cbn [phase_ends].
          repeat split; auto; try apply Hfail; auto; lia.
        * apply N.ltb_ge in Hd. apply (IH (S n)); [lia|].
          intros j Hj. destruct (Nat.eq_dec j n) as [->|Hne]; [auto|].
          apply Hfail. lia. }
  apply (G 31%nat 0%nat eq_refl). intros j Hj. lia.
Qed.

End RetryLoop.

(** ** The job, phase by phase *)

Lemma evaluate_model_logic_phases eval_api vibe_api fault fuel request :
  evaluate_model_logic eval_api vibe_api fault fuel request
  = (lb <- gets leaderboard ;;
     if negb (hash_any (hash request) lb) then
       raise (ValueError ("Model " ++ hash request
                          ++ " not found in the leaderboard"))
     else
       call_update_leaderboard_status Namespace (hash request) "RUNNING"
                                      "Model evaluation in progress" ;;;
       eval_score_response <-
         post_with_retry "eval_score" EVAL_SCORE_PORT "/eval_score"
                         (eval_api request) (hash request) fuel 0 0 None ;;
       after_eval_score vibe_api fault fuel request eval_score_response).
Proof. reflexivity. Qed.

(** *** Properties kept by every step of a computation *)

Section Preserved.

Variable R : State -> State -> Prop.
Hypothesis R_refl : forall st, R st st.
Hypothesis R_trans : forall a b c, R a b -> R b c -> R a c.

Local Abbreviation preserves := (preserved_by R).

Lemma preserves_ret {A : Type} (a : A) : preserves (ret a).
Proof. intros st o st' [= _ <-]. apply R_refl. Qed.

Lemma preserves_raise {A : Type} (e : Exn) : preserves (@raise A e).
Proof. intros st o st' [= _ <-]. apply R_refl. Qed.

Lemma preserves_gets {A : Type} (f : State -> A) : preserves (gets f).
Proof. intros st o st' [= _ <-]. apply R_refl. Qed.

Lemma preserves_modify (f : State -> State) :
  (forall st, R st (f st)) -> preserves (modify f).
Proof. intros Hf st o st' [= _ <-]. apply Hf. Qed.

Lemma preserves_bind {A B : Type} (m : M A) (f : A -> M B) :
  preserves m -> (forall a, preserves (f a)) -> preserves (bind m f).
Proof.
  intros Hm Hf st o st' H. apply bind_inv in H.
  destruct H as [(e & H & _)|(a & st1 & H1 & H2)].
  - eapply Hm; eauto.
  - eapply R_trans; [eapply Hm|eapply Hf]; eauto.
Qed.

(** The hash of the job at hand. *)
Variable h : string.

Hypothesis R_emit : forall e st, R st (emit e st).
(** The job writes two statuses through [update_leaderboard_status]:
    RUNNING at its start and FAILED when a loop gives up. *)
Hypothesis R_update :
  forall status notes st,
    status = "RUNNING" \/ status = "FAILED" ->
    R st (update_leaderboard_status h status notes st).
Hypothesis R_partial :
  forall m q l st, R st (write_partial_scores h m q l st).
Hypothesis R_final :
  forall m q l v t st, R st (write_final_scores h m q l v t st).

Lemma preserves_call_update ns status notes :
  status = "RUNNING" \/ status = "FAILED" ->
  preserves (call_update_leaderboard_status ns h status notes).
Proof.
  intros Hs. destruct ns; [apply preserves_modify; auto|apply preserves_raise].
Qed.

Lemma preserves_response_json r : preserves (response_json r).
Proof.
  unfold response_json. destruct (json r);
    [apply preserves_ret|apply preserves_raise].
Qed.

Lemma preserves_getitem d key : preserves (getitem d key).
Proof.
  unfold getitem. destruct (find _ d);
    [apply preserves_ret|apply preserves_raise].
Qed.

Lemma preserves_py_float x : preserves (py_float x).
Proof. destruct x; [apply preserves_ret|apply preserves_raise]. Qed.

Lemma preserves_post_with_retry api_name port path service fuel :
  forall k elapsed resp,
    preserves (post_with_retry api_name port path service h fuel
                               k elapsed resp).
Proof.
  induction fuel as [|fuel IH]; intros k elapsed resp.
  - intros st o st' H. discriminate H.
  - cbn [post_with_retry].
    apply preserves_bind; [apply preserves_modify; auto|intros _].
    assert (Hexc : forall r e,
               preserves
                 (if (30000 <? elapsed + took (service k))%N
                  then
                    call_update_leaderboard_status Namespace h "FAILED"
                      (error_string api_name r e) ;;;
                    modify (emit (PostShutdown port)) ;;;
                    raise (RuntimeError (error_string api_name r e))
                  else
                    modify (emit (Sleep 1)) ;;;
                    post_with_retry api_name port path service h fuel (S k)
                      (elapsed + took (service k) + 1000)%N r)).
    { intros r e. destruct (_ <? _)%N.
      - apply preserves_bind; [apply preserves_call_update; now right|intros _].
        apply preserves_bind; [apply preserves_modify; auto|intros _].
        apply preserves_raise.
      - apply preserves_bind; [apply preserves_modify; auto|intros _].
        apply IH. }
    destruct (reply (service k)) as [msg|r]; [apply Hexc|].
    destruct (status_code r =? 200); [apply preserves_ret|apply Hexc].
Qed.

Lemma preserves_finish_job fault request q l m v :
  hash request = h ->
  preserves (finish_job fault request q l m v).
Proof.
  intros Hh. unfold finish_job. cbv zeta. rewrite Hh.
  destruct q as [q|]; [|apply preserves_raise].
  destruct l as [l|]; [|destruct m; apply preserves_raise].
  destruct m as [m|]; [|apply preserves_raise].
  destruct v as [v|]; [|apply preserves_raise].
  destruct (fault request).
  - apply preserves_bind; [apply preserves_raise|intros _].
    apply preserves_raise.
  - apply preserves_bind; [apply preserves_modify; auto|intros _].
    apply preserves_ret.
Qed.

Lemma preserves_after_vibe_score fault request q l m r :
  hash request = h ->
  preserves (after_vibe_score fault request q l m r).
Proof.
  intros Hh. unfold after_vibe_score.
  apply preserves_bind; [apply preserves_modify; auto|intros _].
  apply preserves_bind; [apply preserves_response_json|intros d].
  apply preserves_bind; [apply preserves_getitem|intros v].
  now apply preserves_finish_job.
Qed.

Lemma preserves_after_eval_score vibe_api fault fuel request r :
  hash request = h ->
  preserves (after_eval_score vibe_api fault fuel request r).
Proof.
  intros Hh. unfold after_eval_score. cbv zeta. rewrite Hh.
  apply preserves_bind; [apply preserves_modify; auto|intros _].
  apply preserves_bind; [apply preserves_response_json|intros d].
  apply preserves_bind; [apply preserves_getitem|intros q].
  apply preserves_bind; [apply preserves_getitem|intros l].
  apply preserves_bind; [apply preserves_getitem|intros m].
  apply preserves_bind; [apply preserves_py_float|intros m'].
  apply preserves_bind; [apply preserves_py_float|intros q'].
  apply preserves_bind; [apply preserves_py_float|intros l'].
  apply preserves_bind; [apply preserves_modify; auto|intros _].
  apply preserves_bind; [apply preserves_post_with_retry|intros rv].
  now apply preserves_after_vibe_score.
Qed.

Lemma preserves_evaluate_model_logic eval_api vibe_api fault fuel request :
  hash request = h ->
  preserves (evaluate_model_logic eval_api vibe_api fault fuel request).
Proof.
  intros Hh. rewrite evaluate_model_logic_phases. rewrite Hh.
  apply preserves_bind; [apply preserves_gets|intros lb].
  destruct (negb _); [apply preserves_raise|].
  apply preserves_bind; [apply preserves_call_update; now left|intros _].
  apply preserves_bind; [apply preserves_post_with_retry|intros r].
  now apply preserves_after_eval_score.
Qed.

End Preserved.

(** *** The trace of a job only grows *)

Lemma trace_extends_refl st : trace_extends st st.
Proof. exists []. now rewrite app_nil_r. Qed.

Lemma trace_extends_trans a b c :
  trace_extends a b -> trace_extends b c -> trace_extends a c.
Proof.
  intros (e1 & H1) (e2 & H2). exists (e1 ++ e2)%list.
  now rewrite H2, H1, app_assoc.
Qed.

Lemma evaluate_model_logic_extends_trace eval_api vibe_api fault fuel request :
  preserved_by trace_extends
    (evaluate_model_logic eval_api vibe_api fault fuel request).
Proof.
  apply (preserves_evaluate_model_logic trace_extends trace_extends_refl
           trace_extends_trans (hash request)); try reflexivity.
  - intros e st. exists [e]. reflexivity.
  - intros status notes st _. exists []. cbn. now rewrite app_nil_r.
  - intros m q l st. exists []. cbn. now rewrite app_nil_r.
  - intros m q l v t st. exists []. cbn. now rewrite app_nil_r.
Qed.

(** *** The footprint of a job *)

Lemma same_identity_refl r : same_identity r r.
Proof. repeat split. Qed.

Lemma same_identity_trans a b c :
  same_identity a b -> same_identity b c -> same_identity a c.
Proof.
  unfold same_identity. intros (A1 & A2 & A3 & A4 & A5) (B1 & B2 & B3 & B4 & B5).
  repeat split; congruence.
Qed.

Lemma loc_set_id h lb : loc_set h (fun r => r) lb = lb.
Proof.
  unfold loc_set. rewrite <- (map_id lb) at 2. apply map_ext.
  intros r. now destruct (String.eqb _ _).
Qed.

Lemma job_frame_refl h st : job_frame h st st.
Proof.
  split; [|reflexivity]. exists (fun r => r). split.
  - intros r. apply same_identity_refl.
  - now rewrite loc_set_id.
Qed.

Lemma job_frame_trans h a b c :
  job_frame h a b -> job_frame h b c -> job_frame h a c.
Proof.
  intros [(f & Hf & Ef) Qf] [(g & Hg & Eg) Qg]. split; [|congruence].
  exists (fun r => g (f r)). split.
  - intros r. eapply same_identity_trans; eauto.
  - rewrite Eg, Ef. apply loc_set_compose. intros r. apply Hf.
Qed.

Lemma job_frame_loc_set h f st st' :
  (forall r, same_identity r (f r)) ->
  leaderboard st' = loc_set h f (leaderboard st) ->
  evaluation_queue st' = evaluation_queue st ->
  job_frame h st st'.
Proof. intros Hf E Q. split; [eauto|exact Q]. Qed.

Lemma job_frame_update h status notes st :
  job_frame h st (update_leaderboard_status h status notes st).
Proof.
  unfold update_leaderboard_status. destruct (String.eqb notes "").
  - apply (job_frame_loc_set h (Row.set_status status));
      [intros r; repeat split|reflexivity|reflexivity].
  - apply (job_frame_loc_set h
             (fun r => Row.set_notes notes (Row.set_status status r)));
      [intros r; repeat split| |reflexivity].
    cbn. now rewrite loc_set_compose.
Qed.

Lemma job_frame_partial h m q l st :
  job_frame h st (write_partial_scores h m q l st).
Proof.
  unfold write_partial_scores. cbv zeta.
  rewrite !loc_set_compose by reflexivity.
  eapply job_frame_loc_set; [|reflexivity|reflexivity].
  intros r. repeat split.
Qed.

Lemma job_frame_final h m q l v t st :
  job_frame h st (write_final_scores h m q l v t st).
Proof.
  unfold write_final_scores. cbv zeta.
  rewrite !loc_set_compose by reflexivity.
  eapply job_frame_loc_set; [|reflexivity|reflexivity].
  intros r. repeat split.
Qed.

Lemma evaluate_model_logic_frame eval_api vibe_api fault fuel request :
  preserved_by (job_frame (hash request))
    (evaluate_model_logic eval_api vibe_api fault fuel request).
Proof.
  apply (preserves_evaluate_model_logic (job_frame (hash request))
           (job_frame_refl _) (job_frame_trans _) (hash request));
    try reflexivity.
  - intros e st. apply (job_frame_loc_set _ (fun r => r));
      [intros r; apply same_identity_refl
      |cbn; now rewrite loc_set_id|reflexivity].
  - intros status notes st _. apply job_frame_update.
  - apply job_frame_partial.
  - apply job_frame_final.
Qed.

(** *** Every job ends *)

Lemma terminates_ret {A : Type} (a : A) : terminates (ret a).
Proof. intros st. eexists. eexists. reflexivity. Qed.

Lemma terminates_raise {A : Type} (e : Exn) : terminates (@raise A e).
Proof. intros st. eexists. eexists. reflexivity. Qed.

Lemma terminates_modify (f : State -> State) : terminates (modify f).
Proof. intros st. eexists. eexists. reflexivity. Qed.

Lemma terminates_gets {A : Type} (f : State -> A) : terminates (gets f).
Proof. intros st. eexists. eexists. reflexivity. Qed.

Lemma terminates_bind {A B : Type} (m : M A) (f : A -> M B) :
  terminates m -> (forall a, terminates (f a)) -> terminates (bind m f).
Proof.
  intros Hm Hf st. destruct (Hm st) as ([a|e] & st1 & E).
  - destruct (Hf a st1) as (o & st2 & E2). exists o, st2.
    now rewrite (bind_Return _ _ _ _ _ E).
  - exists (Raise e), st1. now apply bind_Raise.
Qed.

Lemma terminates_call_update ns h status notes :
  terminates (call_update_leaderboard_status ns h status notes).
Proof. destruct ns; [apply terminates_modify|apply terminates_raise]. Qed.

Lemma terminates_response_json r : terminates (response_json r).
Proof.
  unfold response_json. destruct (json r);
    [apply terminates_ret|apply terminates_raise].
Qed.

Lemma terminates_getitem d key : terminates (getitem d key).
Proof.
  unfold getitem. destruct (find _ d);
    [apply terminates_ret|apply terminates_raise].
Qed.

Lemma terminates_py_float x : terminates (py_float x).
Proof. destruct x; [apply terminates_ret|apply terminates_raise]. Qed.

Lemma terminates_post_with_retry api_name port path service h fuel :
  (32 <= fuel)%nat ->
  terminates (post_with_retry api_name port path service h fuel 0 0%N None).
Proof.
  intros Hfuel st.
  destruct (phase_end_exists api_name service) as (e & He & Hn).
  pose proof (loop_ends api_name port path service h fuel st e He) as L.
  destruct e as [n r|n err]; rewrite L by lia; eauto.
Qed.

Lemma terminates_finish_job fault request q l m v :
  terminates (finish_job fault request q l m v).
Proof.
  unfold finish_job.
  destruct q as [q|]; [|apply terminates_raise].
  destruct l as [l|]; [|destruct m; apply terminates_raise].
  destruct m as [m|]; [|apply terminates_raise].
  destruct v as [v|]; [|apply terminates_raise].
  cbv zeta. destruct (fault request).
  - apply terminates_bind; [apply terminates_raise|intros _].
    apply terminates_raise.
  - apply terminates_bind; [apply terminates_modify|intros _].
    apply terminates_ret.
Qed.

Lemma terminates_after_vibe_score fault request q l m r :
  terminates (after_vibe_score fault request q l m r).
Proof.
  unfold after_vibe_score.
  apply terminates_bind; [apply terminates_modify|intros _].
  apply terminates_bind; [apply terminates_response_json|intros d].
  apply terminates_bind; [apply terminates_getitem|intros v].
  apply terminates_finish_job.
Qed.

Lemma terminates_after_eval_score vibe_api fault fuel request r :
  (32 <= fuel)%nat ->
  terminates (after_eval_score vibe_api fault fuel request r).
Proof.
  intros Hfuel. unfold after_eval_score. cbv zeta.
  apply terminates_bind; [apply terminates_modify|intros _].
  apply terminates_bind; [apply terminates_response_json|intros d].
  apply terminates_bind; [apply terminates_getitem|intros q].
  apply terminates_bind; [apply terminates_getitem|intros l].
  apply terminates_bind; [apply terminates_getitem|intros m].
  apply terminates_bind; [apply terminates_py_float|intros m'].
  apply terminates_bind; [apply terminates_py_float|intros q'].
  apply terminates_bind; [apply terminates_py_float|intros l'].
  apply terminates_bind; [apply terminates_modify|intros _].
  apply terminates_bind; [now apply terminates_post_with_retry|intros rv].
  apply terminates_after_vibe_score.
Qed.

Lemma terminates_evaluate_model_logic eval_api vibe_api fault fuel request :
  (32 <= fuel)%nat ->
  terminates (evaluate_model_logic eval_api vibe_api fault fuel request).
Proof.
  intros Hfuel. rewrite evaluate_model_logic_phases.
  apply terminates_bind; [apply terminates_gets|intros lb].
  destruct (negb _); [apply terminates_raise|].
  apply terminates_bind; [apply terminates_call_update|intros _].
  apply terminates_bind; [now apply terminates_post_with_retry|intros r].
  now apply terminates_after_eval_score.
Qed.

(** The worker gets through any queue, whatever the jobs do. *)
Lemma worker_loop_terminates eval_api vibe_api fault fuel items :
  (32 <= fuel)%nat ->
  forall st, exists st', worker_loop eval_api vibe_api fault fuel items st = Some st'.
Proof.
  intros Hfuel. induction items as [|[request|] rest IH]; intros st;
    cbn [worker_loop].
  - eauto.
  - destruct (terminates_evaluate_model_logic eval_api vibe_api fault fuel
                request Hfuel (set_evaluation_queue rest st)) as (o & st1 & E).
    rewrite E. apply IH.
  - eauto.
Qed.

(** ** The job around its two retry loops *)

Lemma update_leaderboard_status_rows h status notes st r :
  In r (leaderboard (update_leaderboard_status h status notes st)) ->
  Row.hash r = h ->
  Row.status r = status /\ (notes <> "" -> Row.notes r = notes).
Proof.
  unfold update_leaderboard_status. intros Hin Hh.
  destruct (String.eqb notes "") eqn:En.
  - cbn in Hin. apply loc_set_In in Hin. destruct Hin as (r0 & _ & ->).
    destruct (String.eqb (Row.hash r0) h) eqn:E.
    + split; [reflexivity|]. apply String.eqb_eq in En. congruence.
    + apply String.eqb_neq in E. contradiction.
  - cbn in Hin. rewrite loc_set_compose in Hin by reflexivity.
    apply loc_set_In in Hin. destruct Hin as (r0 & _ & ->).
    destruct (String.eqb (Row.hash r0) h) eqn:E.
    + split; reflexivity.
    + apply String.eqb_neq in E. contradiction.
Qed.

Lemma error_string_not_empty api_name resp e :
  error_string api_name resp e <> "".
Proof. unfold error_string. cbn. discriminate. Qed.

Lemma getitem_found (r : Response) d key x :
  json r = Some d ->
  json_field r key = Some x ->
  getitem d key = ret x.
Proof.
  unfold json_field, getitem. intros ->.
  destruct (find _ d) as [kv|]; [|discriminate].
  cbn. now intros [= ->].
Qed.

Section Job.

Variable eval_score_api : EvaluateModelRequest -> nat -> Attempt.
Variable vibe_score_api : EvaluateModelRequest -> nat -> Attempt.
Variable final_write_fault : EvaluateModelRequest -> option string.
Variable fuel : nat.
Variable request : EvaluateModelRequest.

Local Abbreviation job :=
  (evaluate_model_logic eval_score_api vibe_score_api final_write_fault
                        fuel request).
Local Abbreviation after_eval :=
  (after_eval_score vibe_score_api final_write_fault fuel request).
Local Abbreviation after_vibe :=
  (after_vibe_score final_write_fault request).

Lemma job_start st :
  hash_any (hash request) (leaderboard st) = true ->
  job st
  = bind (post_with_retry "eval_score" EVAL_SCORE_PORT "/eval_score"
                          (eval_score_api request) (hash request)
                          fuel 0 0%N None)
         after_eval (running request st).
Proof.
  intros Hrow. rewrite evaluate_model_logic_phases.
  unfold bind at 1, gets at 1. rewrite Hrow. cbn [negb].
  unfold bind at 1. reflexivity.
Qed.

Lemma job_without_row st :
  hash_any (hash request) (leaderboard st) = false ->
  job st
  = Some (Raise (ValueError ("Model " ++ hash request
                             ++ " not found in the leaderboard")), st).
Proof.
  intros Hrow. rewrite evaluate_model_logic_phases.
  unfold bind at 1, gets at 1. now rewrite Hrow.
Qed.

Lemma after_eval_score_trace r st o st' :
  after_eval r st = Some (o, st') ->
  exists evs,
    trace st' = (trace st ++ PostShutdown EVAL_SCORE_PORT :: evs)%list.
Proof.
  intros H. unfold after_eval_score in H. cbv zeta in H.
  apply bind_inv in H. destruct H as [(e & H & _)|(u & st1 & H1 & H)];
    [discriminate H|].
  injection H1 as _ <-.
  assert (T : trace_extends (emit (PostShutdown EVAL_SCORE_PORT) st) st').
  { revert H. generalize (emit (PostShutdown EVAL_SCORE_PORT) st).
    intros s0 H. revert s0 o st' H.
    change (preserved_by trace_extends
      (eval_score_data <- response_json r ;;
       eval_score <- getitem eval_score_data "eval_score" ;;
       latency_score <- getitem eval_score_data "latency_score" ;;
       model_size_score <- getitem eval_score_data "model_size_score" ;;
       m <- py_float model_size_score ;;
       q <- py_float eval_score ;;
       l <- py_float latency_score ;;
       modify (write_partial_scores (hash request) m q l) ;;;
       vibe_score_response <-
         post_with_retry "vibe_score" VIBE_SCORE_PORT "/vibe_match_score"
                         (vibe_score_api request) (hash request)
                         fuel 0 0 None ;;
       after_vibe eval_score latency_score model_size_score
                  vibe_score_response)).
    pose proof trace_extends_refl as Rr. pose proof trace_extends_trans as Rt.
    assert (Re : forall e st, trace_extends st (emit e st))
      by (intros e s; exists [e]; reflexivity).
    assert (Ru : forall status notes st,
               status = "RUNNING" \/ status = "FAILED" ->
               trace_extends st
                 (update_leaderboard_status (hash request) status notes st))
      by (intros; exists []; cbn; now rewrite app_nil_r).
    assert (Rp : forall m q l st,
               trace_extends st (write_partial_scores (hash request) m q l st))
      by (intros; exists []; cbn; now rewrite app_nil_r).
    assert (Rf : forall m q l v t st,
               trace_extends st
                 (write_final_scores (hash request) m q l v t st))
      by (intros; exists []; cbn; now rewrite app_nil_r).
    apply preserves_bind; auto; [apply preserves_response_json; auto|intros d].
    apply preserves_bind; auto; [apply preserves_getitem; auto|intros q].
    apply preserves_bind; auto; [apply preserves_getitem; auto|intros l].
    apply preserves_bind; auto; [apply preserves_getitem; auto|intros m].
    apply preserves_bind; auto; [apply preserves_py_float; auto|intros m'].
    apply preserves_bind; auto; [apply preserves_py_float; auto|intros q'].
    apply preserves_bind; auto; [apply preserves_py_float; auto|intros l'].
    apply preserves_bind; auto; [apply preserves_modify; auto|intros _].
    apply preserves_bind; auto;
      [apply preserves_post_with_retry; auto|intros rv].
    apply (preserves_after_vibe_score trace_extends Rr Rt (hash request));
      auto. }
  destruct T as (evs & T). exists evs. rewrite T. cbn.
  now rewrite <- app_assoc.
Qed.

Lemma json_field_json (r : Response) key x :
  json_field r key = Some x -> exists d, json r = Some d.
Proof. unfold json_field. destruct (json r); [eauto|discriminate]. Qed.

Lemma after_eval_score_good r st m q l :
  json_field r "eval_score" = Some (Some q) ->
  json_field r "latency_score" = Some (Some l) ->
  json_field r "model_size_score" = Some (Some m) ->
  after_eval r st
  = bind (post_with_retry "vibe_score" VIBE_SCORE_PORT "/vibe_match_score"
                          (vibe_score_api request) (hash request)
                          fuel 0 0%N None)
         (after_vibe (Some q) (Some l) (Some m))
         (write_partial_scores (hash request) m q l
            (emit (PostShutdown EVAL_SCORE_PORT) st)).
Proof.
  intros Hq Hl Hm. destruct (json_field_json _ _ _ Hq) as (d & Hd).
  unfold after_eval_score. cbv zeta.
  unfold bind at 1, modify at 1.
  unfold response_json. rewrite Hd.
  unfold bind at 1, ret at 1.
  rewrite (getitem_found r d _ _ Hd Hq). unfold bind at 1, ret at 1.
  rewrite (getitem_found r d _ _ Hd Hl). unfold bind at 1, ret at 1.
  rewrite (getitem_found r d _ _ Hd Hm). unfold bind at 1, ret at 1.
  reflexivity.
Qed.

Lemma after_vibe_score_trace q l m r st o st' :
  after_vibe q l m r st = Some (o, st') ->
  trace st' = (trace st ++ [PostShutdown VIBE_SCORE_PORT])%list.
Proof.
  intros H. unfold after_vibe_score in H.
  apply bind_inv in H. destruct H as [(e & H & _)|(u & st1 & H1 & H)];
    [discriminate H|].
  injection H1 as _ <-.
  change (trace st ++ [PostShutdown VIBE_SCORE_PORT])%list
    with (trace (emit (PostShutdown VIBE_SCORE_PORT) st)).
  revert H. generalize (emit (PostShutdown VIBE_SCORE_PORT) st).
  intros s0 H. revert s0 o st' H.
  change (preserved_by (fun a b => trace b = trace a)
    (vibe_score_data <- response_json r ;;
     vibe_score <- getitem vibe_score_data "vibe_score" ;;
     finish_job final_write_fault request q l m vibe_score)).
  assert (Rr : forall st : State, trace st = trace st) by reflexivity.
  assert (Rt : forall a b c : State,
             trace b = trace a -> trace c = trace b -> trace c = trace a)
    by (intros; congruence).
  apply preserves_bind; auto; [apply preserves_response_json; auto|intros d].
  apply preserves_bind; auto; [apply preserves_getitem; auto|intros v].
  apply (preserves_finish_job _ Rr Rt (hash request)); auto.
Qed.

Lemma after_vibe_score_good r st m q l v :
  json_field r "vibe_score" = Some (Some v) ->
  final_write_fault request = None ->
  after_vibe (Some q) (Some l) (Some m) r st
  = Some (Return (mkScore m q l v (weighted_total m q l v)),
          write_final_scores (hash request) m q l v (weighted_total m q l v)
            (emit (PostShutdown VIBE_SCORE_PORT) st)).
Proof.
  intros Hv Hfault. destruct (json_field_json _ _ _ Hv) as (d & Hd).
  unfold after_vibe_score.
  unfold bind at 1, modify at 1.
  unfold response_json. rewrite Hd.
  unfold bind at 1, ret at 1.
  rewrite (getitem_found r d _ _ Hd Hv). unfold bind at 1, ret at 1.
  unfold finish_job. rewrite Hfault. reflexivity.
Qed.

End Job.

Ltac trace_norm :=
  cbn [trace emit add_trace update_leaderboard_status save_leaderboard
       set_leaderboard write_partial_scores write_final_scores running];
  rewrite <- ?app_assoc; cbn [app].

Ltac trace_norm_in H :=
  cbn [trace emit add_trace update_leaderboard_status save_leaderboard
       set_leaderboard write_partial_scores write_final_scores running] in H;
  rewrite <- ?app_assoc in H; cbn [app] in H.

Lemma observed_in_time_bound service k :
  (observed_at service k <= 30000)%N -> (k <= 30)%nat.
Proof.
  intros Hd. pose proof (start_at_lower_bound service k) as Hk.
  unfold observed_at in Hd. lia.
Qed.

Lemma phase_ends_bound api_name service e :
  phase_ends api_name service e ->
  match e with Proceeds n _ | GivesUp n _ => (n <= 31)%nat end.
Proof.
  assert (B : forall n,
             (forall j, (j < n)%nat ->
                        attempt_succeeds (service j) = false
                        /\ (observed_at service j <= 30000)%N) ->
             (n <= 31)%nat).
  { intros n Hfail. destruct n as [|n]; [lia|].
    destruct (Hfail n (Nat.lt_succ_diag_r n)) as [_ Hd].
    apply observed_in_time_bound in Hd. lia. }
  destruct e as [n r|n err]; intros H; apply B; apply H.
Qed.

(** C3, as amended: a job whose row exists (with at least the 32 iterations a loop
    can need) always ends, and each retry loop ends in one of two ways.
    In each scoring phase the POST is repeated with a one-second sleep
    after every failure seen with at most 30 seconds on the clock.  If an
    attempt succeeds before any failure was seen past 30 seconds (so in
    particular if it first succeeds within 30 seconds), the restart
    signal is sent to that service and the job goes on; with both phases
    succeeding, scores delivered and the write going through, the job
    returns and the row is COMPLETED.  If an attempt fails with more than
    30 seconds on the clock, the row is set to FAILED with the error text
    of lines 165/214 as notes and saved, the restart signal is sent to
    that service, the job raises and nothing more is posted. *)
Theorem retry_protocol eval_api vibe_api fault fuel request st :
  (32 <= fuel)%nat ->
  hash_any (hash request) (leaderboard st) = true ->
  (exists eA, phase_ends "eval_score" (eval_api request) eA)
  /\ (exists eB, phase_ends "vibe_score" (vibe_api request) eB)
  /\ forall eA,
      phase_ends "eval_score" (eval_api request) eA ->
      exists o st',
        evaluate_model_logic eval_api vibe_api fault fuel request st
        = Some (o, st')
        /\ match eA with
           | GivesUp n err =>
               o = Raise (RuntimeError err)
               /\ trace st'
                  = (trace st
                     ++ retry_trace EVAL_SCORE_PORT "/eval_score" n
                     ++ [PostScore EVAL_SCORE_PORT "/eval_score";
                         PostShutdown EVAL_SCORE_PORT])%list
               /\ (forall r, In r (leaderboard st') ->
                     Row.hash r = hash request ->
                     Row.status r = "FAILED" /\ Row.notes r = err)
               /\ leaderboard_file st' = leaderboard st'
           | Proceeds n rA =>
               (exists evs,
                   trace st'
                   = (trace st
                      ++ retry_trace EVAL_SCORE_PORT "/eval_score" n
                      ++ [PostScore EVAL_SCORE_PORT "/eval_score";
                          PostShutdown EVAL_SCORE_PORT] ++ evs)%list)
               /\ forall m q l eB,
                   json_field rA "model_size_score" = Some (Some m) ->
                   json_field rA "eval_score" = Some (Some q) ->
                   json_field rA "latency_score" = Some (Some l) ->
                   phase_ends "vibe_score" (vibe_api request) eB ->
                   match eB with
                   | GivesUp k err =>
                       o = Raise (RuntimeError err)
                       /\ trace st'
                          = (trace st
                             ++ retry_trace EVAL_SCORE_PORT "/eval_score" n
                             ++ [PostScore EVAL_SCORE_PORT "/eval_score";
                                 PostShutdown EVAL_SCORE_PORT]
                             ++ retry_trace VIBE_SCORE_PORT
                                            "/vibe_match_score" k
                             ++ [PostScore VIBE_SCORE_PORT "/vibe_match_score";
                                 PostShutdown VIBE_SCORE_PORT])%list
                       /\ (forall r, In r (leaderboard st') ->
                             Row.hash r = hash request ->
                             Row.status r = "FAILED" /\ Row.notes r = err)
                       /\ leaderboard_file st' = leaderboard st'
                   | Proceeds k rB =>
                       trace st'
                       = (trace st
                          ++ retry_trace EVAL_SCORE_PORT "/eval_score" n
                          ++ [PostScore EVAL_SCORE_PORT "/eval_score";
                              PostShutdown EVAL_SCORE_PORT]
                          ++ retry_trace VIBE_SCORE_PORT
                                         "/vibe_match_score" k
                          ++ [PostScore VIBE_SCORE_PORT "/vibe_match_score";
                              PostShutdown VIBE_SCORE_PORT])%list
                       /\ forall v,
                           json_field rB "vibe_score" = Some (Some v) ->
                           fault request = None ->
                           o = Return (mkScore m q l v
                                         (weighted_total m q l v))
                           /\ forall r, In r (leaderboard st') ->
                                Row.hash r = hash request ->
                                Row.status r = "COMPLETED"
                   end
           end.
Proof.
  intros Hfuel Hrow.
  split; [destruct (phase_end_exists "eval_score" (eval_api request))
            as (e & He & _); eauto|].
  split; [destruct (phase_end_exists "vibe_score" (vibe_api request))
            as (e & He & _); eauto|].
  intros eA HA. pose proof (phase_ends_bound _ _ _ HA) as HnA.
  destruct (terminates_evaluate_model_logic eval_api vibe_api fault fuel
              request Hfuel st) as (o & st' & E).
  exists o, st'. split; [exact E|].
  rewrite job_start in E by exact Hrow.
  pose proof (loop_ends "eval_score" EVAL_SCORE_PORT "/eval_score"
                (eval_api request) (hash request) fuel
                (running request st) eA HA) as L.
  destruct eA as [n rA|n err].
  - specialize (L ltac:(lia)). rewrite (bind_Return _ _ _ _ _ L) in E.
    split.
    + destruct (after_eval_score_trace _ _ _ _ _ _ _ _ E) as (evs & T).
      exists evs. rewrite T. trace_norm. reflexivity.
    + intros m q l eB Hm Hq Hl HB.
      pose proof (phase_ends_bound _ _ _ HB) as HnB.
      rewrite (after_eval_score_good _ _ _ _ _ _ m q l Hq Hl Hm) in E.
      match type of E with
      | bind (post_with_retry _ _ _ _ _ _ _ _ _) _ ?s = _ =>
          pose proof (loop_ends "vibe_score" VIBE_SCORE_PORT
                        "/vibe_match_score" (vibe_api request) (hash request)
                        fuel s eB HB) as LB
      end.
      destruct eB as [k rB|k err].
      * specialize (LB ltac:(lia)). rewrite (bind_Return _ _ _ _ _ LB) in E.
        split.
        -- rewrite (after_vibe_score_trace _ _ _ _ _ _ _ _ _ E).
           trace_norm. reflexivity.
        -- intros v Hv Hfault.
           rewrite (after_vibe_score_good _ _ _ _ m q l v Hv Hfault) in E.
           injection E as <- <-. split; [reflexivity|].
           intros r Hin Hh.
           now destruct (write_final_scores_rows _ _ _ _ _ _ _ _ Hin Hh)
             as (_ & _ & _ & _ & _ & -> & _).
      * specialize (LB ltac:(lia)). rewrite (bind_Raise _ _ _ _ _ LB) in E.
        injection E as <- <-.
        split; [reflexivity|]. split.
        -- trace_norm. reflexivity.
        -- split; [|reflexivity].
           intros r Hin Hh. change (leaderboard (emit ?e ?s))
             with (leaderboard s) in Hin.
           destruct (update_leaderboard_status_rows _ _ _ _ _ Hin Hh)
             as (Hs & Hnotes).
           split; [exact Hs|apply Hnotes].
           destruct HB as (_ & _ & _ & ->). apply error_string_not_empty.
  - specialize (L ltac:(lia)). rewrite (bind_Raise _ _ _ _ _ L) in E.
    injection E as <- <-.
    split; [reflexivity|]. split.
    + trace_norm. reflexivity.
    + split; [|reflexivity].
      intros r Hin Hh. change (leaderboard (emit ?e ?s))
        with (leaderboard s) in Hin.
      destruct (update_leaderboard_status_rows _ _ _ _ _ Hin Hh)
        as (Hs & Hnotes).
      split; [exact Hs|apply Hnotes].
      destruct HA as (_ & _ & _ & ->). apply error_string_not_empty.
Qed.

Lemma eval_api_down_29s_ends :
  phase_ends "eval_score" (eval_api_down_29s request_chatml)
             (Proceeds 30 eval_ok_response).
Proof.
  cbn [phase_ends]. split; [|split; reflexivity].
  intros j Hj.
  do 30 (destruct j as [|j]; [split; [reflexivity|vm_compute; discriminate]|]).
  lia.
Qed.

Lemma vibe_api_ok_ends :
  phase_ends "vibe_score" (vibe_api_ok request_chatml)
             (Proceeds 0 vibe_ok_response).
Proof.
  cbn [phase_ends]. split; [|split; reflexivity]. intros j Hj. lia.
Qed.

Lemma api_down_ends api_name :
  phase_ends api_name (api_down request_chatml)
    (GivesUp 31 (error_string api_name None "Connection refused")).
Proof.
  cbn [phase_ends]. split; [|split; [reflexivity|split]].
  - intros j Hj.
    do 31 (destruct j as [|j]; [split; [reflexivity|vm_compute; discriminate]|]).
    lia.
  - vm_compute. reflexivity.
  - reflexivity.
Qed.

(** The two examples of the specification: the eval_score service is
    down for 29 seconds and then answers, and the job is COMPLETED; the
    service stays down, and the job raises with the row FAILED and the
    restart signal sent after the 32nd attempt. *)
Lemma retry_protocol_witness :
  (exists st',
      evaluate_model_logic eval_api_down_29s vibe_api_ok no_fault retry_fuel
                           request_chatml queued_state
      = Some (Return (mkScore 1.0 0.5 0.8 0.9
                              (weighted_total 1.0 0.5 0.8 0.9))%float, st')
      /\ forall r, In r (leaderboard st') -> Row.hash r = "7" ->
                   Row.status r = "COMPLETED")
  /\ (exists st',
        evaluate_model_logic api_down vibe_api_ok no_fault retry_fuel
                             request_chatml queued_state
        = Some (Raise (RuntimeError
                         "Error calling eval_score API with message: Connection refused"),
                st')
        /\ (forall r, In r (leaderboard st') -> Row.hash r = "7" ->
                      Row.status r = "FAILED")
        /\ last (trace st') (Sleep 0) = PostShutdown EVAL_SCORE_PORT).
Proof.
  split.
  - destruct (retry_protocol eval_api_down_29s vibe_api_ok no_fault retry_fuel
                request_chatml queued_state (Nat.le_refl 32) eq_refl)
      as (_ & _ & H).
    destruct (H _ eval_api_down_29s_ends) as (o & st' & E & _ & HB).
    destruct (HB 1.0%float 0.5%float 0.8%float _
                eq_refl eq_refl eq_refl vibe_api_ok_ends) as (_ & Hdone).
    destruct (Hdone 0.9%float eq_refl eq_refl) as (-> & Hrows).
    exists st'. split; [exact E|exact Hrows].
  - destruct (retry_protocol api_down vibe_api_ok no_fault retry_fuel
                request_chatml queued_state (Nat.le_refl 32) eq_refl)
      as (_ & _ & H).
    destruct (H _ (api_down_ends "eval_score"))
      as (o & st' & E & -> & T & Hrows & _).
    exists st'. split; [exact E|]. split.
    + intros r Hin Hh. now destruct (Hrows r Hin Hh).
    + rewrite T. reflexivity.
Defined.

(** ** Jobs that reach the end of both loops *)

Lemma write_partial_scores_rows h m q l st r :
  In r (leaderboard (write_partial_scores h m q l st)) ->
  Row.hash r = h ->
  exists r0,
    In r0 (leaderboard st) /\ Row.hash r0 = h
    /\ Row.status r = Row.status r0
    /\ Row.total_score r = Row.total_score r0
    /\ Row.vibe_score r = Row.vibe_score r0
    /\ Row.notes r = "Now computing vibe score".
Proof.
  unfold write_partial_scores. cbn [leaderboard save_leaderboard set_leaderboard].
  rewrite !loc_set_compose by reflexivity.
  intros Hin Hh. apply loc_set_In in Hin. destruct Hin as (r0 & Hin0 & ->).
  destruct (String.eqb (Row.hash r0) h) eqn:E.
  - exists r0. apply String.eqb_eq in E. repeat split; auto.
  - apply String.eqb_neq in E. contradiction.
Qed.

Lemma after_both_loops_rows request n k m q l st r :
  In r (leaderboard (after_both_loops request n k m q l st)) ->
  Row.hash r = hash request ->
  Row.status r = "RUNNING"
  /\ Row.notes r = "Now computing vibe score"
  /\ exists r0, In r0 (leaderboard st) /\ Row.hash r0 = hash request
                /\ Row.total_score r = Row.total_score r0.
Proof.
  unfold after_both_loops. intros Hin Hh.
  change (leaderboard (add_trace ?e ?s)) with (leaderboard s) in Hin.
  apply write_partial_scores_rows in Hin; [|exact Hh].
  destruct Hin as (r1 & Hin1 & Hh1 & Hs & Ht & _ & Hn).
  change (leaderboard (emit ?e ?s)) with (leaderboard s) in Hin1.
  change (leaderboard (add_trace ?e ?s)) with (leaderboard s) in Hin1.
  unfold running in Hin1.
  destruct (update_leaderboard_status_rows _ _ _ _ _ Hin1 Hh1) as (Hs1 & _).
  split; [congruence|]. split; [exact Hn|].
  unfold update_leaderboard_status in Hin1.
  cbn [String.eqb Ascii.eqb Bool.eqb leaderboard save_leaderboard set_leaderboard]
    in Hin1.
  rewrite loc_set_compose in Hin1 by reflexivity.
  apply loc_set_In in Hin1. destruct Hin1 as (r0 & Hin0 & ->).
  exists r0. destruct (String.eqb (Row.hash r0) (hash request)) eqn:E.
  - apply String.eqb_eq in E. repeat split; auto.
  - repeat split; auto.
Qed.

Section JobEnd.

Variable eval_score_api : EvaluateModelRequest -> nat -> Attempt.
Variable vibe_score_api : EvaluateModelRequest -> nat -> Attempt.
Variable final_write_fault : EvaluateModelRequest -> option string.
Variable fuel : nat.
Variable request : EvaluateModelRequest.
Variable st : State.
Variables (n k : nat) (rA rB : Response) (m q l : float).

Hypothesis Hfuel : (32 <= fuel)%nat.
Hypothesis Hrow : hash_any (hash request) (leaderboard st) = true.
Hypothesis HA :
  phase_ends "eval_score" (eval_score_api request) (Proceeds n rA).
Hypothesis Hm : json_field rA "model_size_score" = Some (Some m).
Hypothesis Hq : json_field rA "eval_score" = Some (Some q).
Hypothesis Hl : json_field rA "latency_score" = Some (Some l).
Hypothesis HB :
  phase_ends "vibe_score" (vibe_score_api request) (Proceeds k rB).

(** With both loops ending on a success and the three scores of
    eval_score delivered, the job arrives at line 227. *)
Lemma job_reaches_vibe_response :
  evaluate_model_logic eval_score_api vibe_score_api final_write_fault
                       fuel request st
  = after_vibe_score final_write_fault request (Some q) (Some l) (Some m) rB
                     (after_both_loops request n k m q l st).
Proof.
  pose proof (phase_ends_bound _ _ _ HA) as HnA.
  pose proof (phase_ends_bound _ _ _ HB) as HnB.
  cbn in HnA, HnB.
  rewrite job_start by exact Hrow.
  rewrite (bind_Return _ _ _ _ _
             (loop_ends "eval_score" EVAL_SCORE_PORT "/eval_score"
                (eval_score_api request) (hash request) fuel
                (running request st) _ HA ltac:(lia))).
  rewrite (after_eval_score_good _ _ _ _ _ _ m q l Hq Hl Hm).
  rewrite (bind_Return _ _ _ _ _
             (loop_ends "vibe_score" VIBE_SCORE_PORT "/vibe_match_score"
                (vibe_score_api request) (hash request) fuel
                _ _ HB ltac:(lia))).
  reflexivity.
Qed.

(** Line 236 with [vibe_score] equal to [None]. *)
Lemma job_with_null_vibe_score :
  json_field rB "vibe_score" = Some None ->
  evaluate_model_logic eval_score_api vibe_score_api final_write_fault
                       fuel request st
  = Some (Raise (HTTPException 500
                   "Error calculating scores, one or more scores are None"),
          emit (PostShutdown VIBE_SCORE_PORT)
               (after_both_loops request n k m q l st)).
Proof.
  intros Hv. rewrite job_reaches_vibe_response.
  destruct (json_field_json _ _ _ Hv) as (d & Hd).
  unfold after_vibe_score.
  unfold bind at 1, modify at 1.
  unfold response_json. rewrite Hd.
  unfold bind at 1, ret at 1.
  rewrite (getitem_found rB d _ _ Hd Hv). reflexivity.
Qed.

(** Lines 256-262 when the block of lines 245-254 has raised. *)
Lemma job_with_failing_final_write v failure_reason :
  json_field rB "vibe_score" = Some (Some v) ->
  final_write_fault request = Some failure_reason ->
  evaluate_model_logic eval_score_api vibe_score_api final_write_fault
                       fuel request st
  = Some (Raise (AttributeError "'str' object has no attribute 'leaderboard'"),
          emit (PostShutdown VIBE_SCORE_PORT)
               (after_both_loops request n k m q l st)).
Proof.
  intros Hv Hfault. rewrite job_reaches_vibe_response.
  destruct (json_field_json _ _ _ Hv) as (d & Hd).
  unfold after_vibe_score.
  unfold bind at 1, modify at 1.
  unfold response_json. rewrite Hd.
  unfold bind at 1, ret at 1.
  rewrite (getitem_found rB d _ _ Hd Hv). unfold bind at 1, ret at 1.
  unfold finish_job. rewrite Hfault. reflexivity.
Qed.

End JobEnd.

(** ** The two raising exits at the end of the job *)

(** C10, the code at the defensive check: when both scoring phases have
    run and the vibe_score delivered is None, the job raises the
    HTTPException of line 237 without touching the row: every row of the
    job's hash is left with status RUNNING (neither FAILED nor COMPLETED),
    the progress note "Now computing vibe score" and the total_score it
    had before the job. *)
Theorem null_vibe_score_leaves_row_running
  eval_api vibe_api fault fuel request st n k rA rB m q l :
  (32 <= fuel)%nat ->
  hash_any (hash request) (leaderboard st) = true ->
  phase_ends "eval_score" (eval_api request) (Proceeds n rA) ->
  json_field rA "model_size_score" = Some (Some m) ->
  json_field rA "eval_score" = Some (Some q) ->
  json_field rA "latency_score" = Some (Some l) ->
  phase_ends "vibe_score" (vibe_api request) (Proceeds k rB) ->
  json_field rB "vibe_score" = Some None ->
  exists st',
    evaluate_model_logic eval_api vibe_api fault fuel request st
    = Some (Raise (HTTPException 500
                     "Error calculating scores, one or more scores are None"),
            st')
    /\ forall r, In r (leaderboard st') -> Row.hash r = hash request ->
         Row.status r = "RUNNING"
         /\ Row.status r <> "FAILED" /\ Row.status r <> "COMPLETED"
         /\ Row.notes r = "Now computing vibe score"
         /\ exists r0, In r0 (leaderboard st) /\ Row.hash r0 = hash request
                       /\ Row.total_score r = Row.total_score r0.
Proof.
  intros Hfuel Hrow HA Hm Hq Hl HB Hv.
  eexists. split.
  - eapply job_with_null_vibe_score; eauto.
  - intros r Hin Hh.
    change (leaderboard (emit ?e ?s)) with (leaderboard s) in Hin.
    destruct (after_both_loops_rows _ _ _ _ _ _ _ _ Hin Hh) as (Hs & Hn & H0).
    rewrite Hs. repeat split; auto; discriminate.
Qed.

Lemma eval_api_ok_ends :
  phase_ends "eval_score" (eval_api_ok request_chatml)
             (Proceeds 0 eval_ok_response).
Proof.
  cbn [phase_ends]. split; [|split; reflexivity]. intros j Hj. lia.
Qed.

Lemma vibe_api_null_ends :
  phase_ends "vibe_score" (vibe_api_null request_chatml)
             (Proceeds 0 vibe_null_response).
Proof.
  cbn [phase_ends]. split; [|split; reflexivity]. intros j Hj. lia.
Qed.

Lemma null_vibe_score_leaves_row_running_witness :
  exists st',
    evaluate_model_logic eval_api_ok vibe_api_null no_fault retry_fuel
                         request_chatml queued_state
    = Some (Raise (HTTPException 500
                     "Error calculating scores, one or more scores are None"),
            st')
    /\ forall r, In r (leaderboard st') -> Row.hash r = "7" ->
                 Row.status r = "RUNNING".
Proof.
  destruct (null_vibe_score_leaves_row_running
              eval_api_ok vibe_api_null no_fault retry_fuel request_chatml
              queued_state 0 0 eval_ok_response vibe_null_response
              1.0%float 0.5%float 0.8%float
              (Nat.le_refl 32) eq_refl eval_api_ok_ends eq_refl eq_refl eq_refl
              vibe_api_null_ends eq_refl) as (st' & E & Hrows).
  exists st'. split; [exact E|].
  intros r Hin Hh. now destruct (Hrows r Hin Hh).
Defined.

(** C7, the code when the final write fails: with both phases done and
    the four scores delivered, a failure of the write of lines 245-254
    makes the handler call update_leaderboard_status without the
    namespace (line 260), which raises AttributeError before any row is
    touched: every row of the job's hash is left RUNNING with the note
    "Now computing vibe score", not FAILED with the failure text.  The
    exception does not leave the worker: the loop takes the next item and
    gets through the rest of the queue. *)
Theorem failing_final_write_leaves_row_running
  eval_api vibe_api fault fuel request st n k rA rB m q l v failure_reason
  items :
  (32 <= fuel)%nat ->
  hash_any (hash request) (leaderboard st) = true ->
  phase_ends "eval_score" (eval_api request) (Proceeds n rA) ->
  json_field rA "model_size_score" = Some (Some m) ->
  json_field rA "eval_score" = Some (Some q) ->
  json_field rA "latency_score" = Some (Some l) ->
  phase_ends "vibe_score" (vibe_api request) (Proceeds k rB) ->
  json_field rB "vibe_score" = Some (Some v) ->
  fault request = Some failure_reason ->
  exists st',
    evaluate_model_logic eval_api vibe_api fault fuel request
                         (set_evaluation_queue items st)
    = Some (Raise (AttributeError
                     "'str' object has no attribute 'leaderboard'"), st')
    /\ (forall r, In r (leaderboard st') -> Row.hash r = hash request ->
          Row.status r = "RUNNING" /\ Row.status r <> "FAILED"
          /\ Row.notes r = "Now computing vibe score")
    /\ worker_loop eval_api vibe_api fault fuel (Some request :: items) st
       = worker_loop eval_api vibe_api fault fuel items st'
    /\ exists st_end,
         worker_loop eval_api vibe_api fault fuel (Some request :: items) st
         = Some st_end.
Proof.
  intros Hfuel Hrow HA Hm Hq Hl HB Hv Hfault.
  pose proof (job_with_failing_final_write eval_api vibe_api fault fuel request
                (set_evaluation_queue items st) n k rA rB m q l
                Hfuel Hrow HA Hm Hq Hl HB v failure_reason Hv Hfault) as E.
  eexists. split; [exact E|]. split; [|split].
  - intros r Hin Hh.
    change (leaderboard (emit ?e ?s)) with (leaderboard s) in Hin.
    destruct (after_both_loops_rows _ _ _ _ _ _ _ _ Hin Hh) as (Hs & Hn & _).
    rewrite Hs. repeat split; auto; discriminate.
  - cbn [worker_loop]. now rewrite E.
  - apply worker_loop_terminates. exact Hfuel.
Qed.

Lemma vibe_api_ok_ends_for request :
  phase_ends "vibe_score" (vibe_api_ok request) (Proceeds 0 vibe_ok_response).
Proof.
  cbn [phase_ends]. split; [|split; reflexivity]. intros j Hj. lia.
Qed.

Lemma failing_final_write_leaves_row_running_witness :
  exists st_end,
    model_evaluation_worker eval_api_ok vibe_api_ok write_fault retry_fuel
                            two_queued_state = Some st_end
    /\ exists st',
         evaluate_model_logic eval_api_ok vibe_api_ok write_fault retry_fuel
                              request_chatml
                              (set_evaluation_queue [Some request_second]
                                                    two_queued_state)
         = Some (Raise (AttributeError
                          "'str' object has no attribute 'leaderboard'"), st')
         /\ forall r, In r (leaderboard st') -> Row.hash r = "7" ->
                      Row.status r = "RUNNING".
Proof.
  destruct (failing_final_write_leaves_row_running
              eval_api_ok vibe_api_ok write_fault retry_fuel request_chatml
              two_queued_state 0 0 eval_ok_response vibe_ok_response
              1.0%float 0.5%float 0.8%float 0.9%float "[Errno 32] Broken pipe"
              [Some request_second]
              (Nat.le_refl 32) eq_refl eval_api_ok_ends eq_refl eq_refl eq_refl
              (vibe_api_ok_ends_for request_chatml) eq_refl eq_refl)
    as (st' & E & Hrows & _ & st_end & Hend).
  exists st_end. split; [exact Hend|].
  exists st'. split; [exact E|].
  intros r Hin Hh. now destruct (Hrows r Hin Hh).
Defined.

(** The scenario evaluated: the worker on a queue of two jobs whose final
    writes fail leaves both rows RUNNING and an empty queue. *)
Lemma worker_with_failing_writes_evaluated :
  match model_evaluation_worker eval_api_ok vibe_api_ok write_fault
                                retry_fuel two_queued_state with
  | Some st' =>
      map Row.status (leaderboard st') = ["RUNNING"; "RUNNING"]
      /\ map Row.notes (leaderboard st')
         = ["Now computing vibe score"; "Now computing vibe score"]
      /\ evaluation_queue st' = []
  | None => False
  end.
Proof. vm_compute. repeat split. Qed.

(** The scenario evaluated: a null vibe_score. *)
Lemma null_vibe_score_evaluated :
  match evaluate_model_logic eval_api_ok vibe_api_null no_fault retry_fuel
                             request_chatml queued_state with
  | Some (Raise e, st') =>
      e = HTTPException 500
            "Error calculating scores, one or more scores are None"
      /\ map Row.status (leaderboard st') = ["RUNNING"]
      /\ map Row.notes (leaderboard st') = ["Now computing vibe score"]
  | _ => False
  end.
Proof. vm_compute. repeat split. Qed.

(** C3 as stated fails: more than 30 seconds after the first attempt the
    row is not set to FAILED when the attempt in progress succeeds.  A
    first POST answered with 200 after 45 seconds, and a service that is
    down up to 30 seconds and answers at 31 seconds, both let the job go
    on to COMPLETED. *)
Lemma success_after_30_seconds_proceeds :
  (30000 < observed_at (eval_api_slow request_chatml) 0)%N
  /\ (30000 < observed_at (eval_api_down_30s request_chatml) 31)%N
  /\ match evaluate_model_logic eval_api_slow vibe_api_ok no_fault retry_fuel
                               request_chatml queued_state with
     | Some (Return _, st') =>
         map Row.status (leaderboard st') = ["COMPLETED"]
     | _ => False
     end
  /\ match evaluate_model_logic eval_api_down_30s vibe_api_ok no_fault
                               retry_fuel request_chatml queued_state with
     | Some (Return _, st') =>
         map Row.status (leaderboard st') = ["COMPLETED"]
     | _ => False
     end.
Proof. vm_compute. repeat split. Qed.

(** ** Invariants of the system *)

Lemma loc_set_hashes h f lb :
  (forall r, Row.hash (f r) = Row.hash r) ->
  map Row.hash (loc_set h f lb) = map Row.hash lb.
Proof.
  intros Hf. unfold loc_set. rewrite map_map. apply map_ext.
  intros r. destruct (String.eqb _ _); auto.
Qed.

Lemma job_frame_hashes h st st' :
  job_frame h st st' ->
  map Row.hash (leaderboard st') = map Row.hash (leaderboard st).
Proof.
  intros [(f & Hf & ->) _]. apply loc_set_hashes. intros r. apply Hf.
Qed.

Lemma job_frame_fingerprints regenerate_hash h st st' :
  job_frame h st st' ->
  fingerprint_inv regenerate_hash st -> fingerprint_inv regenerate_hash st'.
Proof.
  intros [(f & Hf & E) _]. unfold fingerprint_inv. rewrite E.
  unfold loc_set. rewrite Forall_map. apply Forall_impl.
  intros r (cid & Hr).
  assert (I : same_identity r (if String.eqb (Row.hash r) h then f r else r))
    by (destruct (String.eqb _ _); [apply Hf|apply same_identity_refl]).
  destruct I as (E1 & E2 & E3 & E4 & _).
  exists cid. now rewrite E1, E2, E3, E4.
Qed.

(** Dropping rows keeps the hashes distinct. *)
Lemma distinct_hashes_after_pruning (keep : Row.t -> bool) (lb : list Row.t) :
  NoDup (map Row.hash lb) -> NoDup (map Row.hash (filter keep lb)).
Proof.
  intros Hdistinct. induction lb as [|row lb IH]; [exact Hdistinct|].
  cbn [map] in Hdistinct. apply NoDup_cons_iff in Hdistinct.
  destruct Hdistinct as [Hfresh Hrest]. cbn [filter].
  destruct (keep row); [|now apply IH].
  cbn [map]. apply NoDup_cons; [|now apply IH].
  intros Hin. apply Hfresh. apply in_map_iff in Hin.
  destruct Hin as (other & Hsame & Hkept). apply filter_In in Hkept.
  rewrite <- Hsame. apply in_map. apply Hkept.
Qed.


Section SystemFacts.

Variable regenerate_hash : string -> string -> string -> string -> Z.
Variable check_model_repo_size : string -> string -> string -> Lookup.
Variable get_model_size : string -> string -> Lookup.
Variable eval_score_api : EvaluateModelRequest -> nat -> Attempt.
Variable vibe_score_api : EvaluateModelRequest -> nat -> Attempt.
Variable final_write_fault : EvaluateModelRequest -> option string.

Local Abbreviation submit :=
  (evaluate_model regenerate_hash check_model_repo_size get_model_size).
Local Abbreviation sys_step :=
  (step regenerate_hash check_model_repo_size get_model_size
        eval_score_api vibe_score_api final_write_fault).

Lemma evaluate_model_keeps_hashes_unique utcnow request st :
  unique_hashes st -> unique_hashes (snd (submit utcnow request st)).
Proof.
  intros Hu.
  destruct (hash_check regenerate_hash request) as [[|]|] eqn:Hc.
  - destruct (get_json_result (leaderboard st) (hash request)) as [p|] eqn:G.
    + now rewrite (evaluate_model_existing _ _ _ _ _ _ _ Hc G).
    + apply get_json_result_None in G.
      rewrite (evaluate_model_fresh _ _ _ _ _ _ Hc G).
      assert (Hnin : ~ In (hash request) (map Row.hash (leaderboard st))).
      { intros Hin. apply in_map_iff in Hin. destruct Hin as (r & E & Hr).
        apply (proj1 (hash_any_false_In _ _) G) in Hr.
        apply String.eqb_neq in Hr. contradiction. }
      destruct (admission_checks _ _ request); cbn [snd];
        unfold unique_hashes; cbn [leaderboard inserted map];
        constructor; assumption.
  - destruct (evaluate_model_hash_mismatch regenerate_hash
                check_model_repo_size get_model_size utcnow request st)
      as (e & -> & _); [congruence|exact Hu].
  - destruct (evaluate_model_hash_mismatch regenerate_hash
                check_model_repo_size get_model_size utcnow request st)
      as (e & -> & _); [congruence|exact Hu].
Qed.

(** A run of the worker over a queue keeps any property of the
    leaderboard that jobs and queue updates keep. *)
Lemma worker_loop_keeps (P : State -> Prop) fuel :
  (forall q st, P st -> P (set_evaluation_queue q st)) ->
  (forall request st o st',
      evaluate_model_logic eval_score_api vibe_score_api final_write_fault
                           fuel request st = Some (o, st') ->
      P st -> P st') ->
  forall items st st',
    worker_loop eval_score_api vibe_score_api final_write_fault fuel items st
    = Some st' ->
    P st -> P st'.
Proof.
  intros Hq Hjob. induction items as [|[request|] rest IH]; intros st st';
    cbn [worker_loop].
  - intros [= <-]. apply Hq.
  - destruct (evaluate_model_logic _ _ _ fuel request _)
      as [[o st1]|] eqn:E; [|discriminate].
    intros Hw Hp. apply (IH _ _ Hw). eapply Hjob; eauto.
  - intros [= <-]. apply Hq.
Qed.

Lemma step_keeps_fingerprints st st' :
  sys_step st st' ->
  fingerprint_inv regenerate_hash st -> fingerprint_inv regenerate_hash st'.
Proof.
  intros Hstep Hinv. destruct Hstep as
    [utcnow request st|fuel request st o st' E|fuel st st' E|st|fuel st st' E].
  - now apply evaluate_model_keeps_fingerprints.
  - eapply job_frame_fingerprints; [|exact Hinv].
    eapply evaluate_model_logic_frame; eauto.
  - unfold model_evaluation_worker in E.
    refine (worker_loop_keeps (fingerprint_inv regenerate_hash) fuel _ _
              _ _ _ E Hinv).
    + intros q s Hs. exact Hs.
    + intros request s o s' Ej Hs.
      eapply job_frame_fingerprints; [|exact Hs].
      eapply evaluate_model_logic_frame; eauto.
  - exact Hinv.
  - rewrite shutdown_computes in E. injection E as <-.
    unfold fingerprint_inv in *. cbn [leaderboard].
    apply Forall_forall. intros r Hr. apply filter_In in Hr.
    destruct Hr as [Hr _]. revert r Hr. now apply Forall_forall.
Qed.

Lemma step_keeps_hashes_unique st st' :
  sys_step st st' -> unique_hashes st -> unique_hashes st'.
Proof.
  intros Hstep Hu. destruct Hstep as
    [utcnow request st|fuel request st o st' E|fuel st st' E|st|fuel st st' E].
  - now apply evaluate_model_keeps_hashes_unique.
  - unfold unique_hashes.
    rewrite (job_frame_hashes _ _ _
               (evaluate_model_logic_frame _ _ _ _ _ _ _ _ E)).
    exact Hu.
  - unfold model_evaluation_worker in E.
    refine (worker_loop_keeps unique_hashes fuel _ _ _ _ _ E Hu).
    + intros q s Hs. exact Hs.
    + intros request s o s' Ej Hs. unfold unique_hashes.
      rewrite (job_frame_hashes _ _ _
                 (evaluate_model_logic_frame _ _ _ _ _ _ _ _ Ej)).
      exact Hs.
  - exact Hu.
  - rewrite shutdown_computes in E. injection E as <-.
    unfold unique_hashes in *. cbn [leaderboard].
    now apply distinct_hashes_after_pruning.
Qed.

(** Every state reached from a store whose rows have distinct hashes,
    each reading as the fingerprint of its row, is such a store. *)
Lemma reachable_invariants st0 st :
  reachable_from regenerate_hash check_model_repo_size get_model_size
                 eval_score_api vibe_score_api final_write_fault st0 st ->
  fingerprint_inv regenerate_hash st0 -> unique_hashes st0 ->
  fingerprint_inv regenerate_hash st /\ unique_hashes st.
Proof.
  induction 1 as [|st st' Hreach IH Hstep]; intros Hf Hu; [auto|].
  destruct (IH Hf Hu) as [Hf' Hu']. split.
  - eapply step_keeps_fingerprints; eauto.
  - eapply step_keeps_hashes_unique; eauto.
Qed.

End SystemFacts.

Lemma reachable_keeps_fingerprints
  regenerate_hash check_model_repo_size get_model_size
  eval_score_api vibe_score_api final_write_fault st0 st :
  reachable_from regenerate_hash check_model_repo_size get_model_size
                 eval_score_api vibe_score_api final_write_fault st0 st ->
  fingerprint_inv regenerate_hash st0 -> fingerprint_inv regenerate_hash st.
Proof.
  induction 1 as [|st st' Hreach IH Hstep]; intros Hf; [auto|].
  eapply step_keeps_fingerprints; eauto.
Qed.

(** C2: a submission whose hash does not read as the recomputed
    fingerprint (it reads as another integer, or not as an integer)
    makes the call raise before the store is touched: the leaderboard,
    the file and the queue are exactly as they were; a hash that reads
    as another integer raises the 400 error "Hash does not match the
    model details".  A row that a call adds is the row of a submission
    that passed the check.  Consequently, in every state the system
    reaches (calls, jobs, worker runs, periodic saves, shutdown) from a
    store with the property, every stored row's hash reads as the
    fingerprint recomputed from its namespace, name and template and the
    competition id of its submission. *)
Theorem fingerprint_is_validated
  regenerate_hash check_model_repo_size get_model_size
  eval_score_api vibe_score_api final_write_fault utcnow request st :
  (hash_check regenerate_hash request <> Some true ->
   exists e,
     evaluate_model regenerate_hash check_model_repo_size get_model_size
                    utcnow request st = (Raise e, st)
     /\ (hash_check regenerate_hash request = Some false ->
         e = HTTPException 400 "Hash does not match the model details"))
  /\ (forall r,
        In r (leaderboard
                (snd (evaluate_model regenerate_hash check_model_repo_size
                                     get_model_size utcnow request st))) ->
        ~ In r (leaderboard st) ->
        hash_check regenerate_hash request = Some true
        /\ Row.hash r = hash request
        /\ row_fingerprint_ok regenerate_hash r)
  /\ (forall st',
        fingerprint_inv regenerate_hash st ->
        reachable_from regenerate_hash check_model_repo_size get_model_size
                       eval_score_api vibe_score_api final_write_fault st st' ->
        fingerprint_inv regenerate_hash st').
Proof.
  destruct (evaluate_model_checks_fingerprint regenerate_hash
              check_model_repo_size get_model_size utcnow request st)
    as (Hrej & _ & Hnew).
  split; [exact Hrej|]. split; [exact Hnew|].
  intros st' Hinv Hreach. eapply reachable_keeps_fingerprints; eauto.
Qed.

Lemma fingerprint_is_validated_witness :
  (exists e,
      evaluate_model regenerate_hash_7 repo_size_1GB model_size_16GB
                     0 request_wrong_hash queued_state = (Raise e, queued_state))
  /\ fingerprint_inv regenerate_hash_7
       (snd (evaluate_model regenerate_hash_7 repo_size_1GB model_size_16GB
                            0 request_chatml empty_state)).
Proof.
  split.
  - destruct (proj1 (fingerprint_is_validated
                       regenerate_hash_7 repo_size_1GB model_size_16GB
                       eval_api_ok vibe_api_ok no_fault
                       0 request_wrong_hash queued_state)) as (e & E & _).
    + vm_compute. discriminate.
    + exists e. exact E.
  - apply (proj2 (proj2 (fingerprint_is_validated
                           regenerate_hash_7 repo_size_1GB model_size_16GB
                           eval_api_ok vibe_api_ok no_fault
                           0 request_chatml empty_state))).
    + constructor.
    + eapply reach_step; [apply reach_start|apply step_submit].
Defined.

(** ** A shutdown that finds the worker in a job *)









(** The scenario evaluated: the worker is in the first retry loop of a
    job whose services then answer; the job is completed during the
    join, the queued row is gone, the completed row is as it was. *)
Lemma shutdown_in_flight_evaluated :
  match shutdown_in_flight eval_api_ok vibe_api_ok no_fault retry_fuel
                           request_chatml (InEvalLoop 1 1000 None)
                           in_flight_state with
  | Some st' =>
      map Row.hash (leaderboard_file st') = ["7"; "11"]
      /\ map Row.status (leaderboard_file st') = ["COMPLETED"; "COMPLETED"]
      /\ In completed_row (leaderboard_file st')
  | None => False
  end.
Proof. vm_compute. repeat split. right. left. reflexivity. Qed.



(** * Further properties of the module *)

(** ** [update_leaderboard_status] *)




(** ** More on the gateway *)

Section GatewayMore.

Variable regenerate_hash : string -> string -> string -> string -> Z.
Variable check_model_repo_size : string -> string -> string -> Lookup.
Variable get_model_size : string -> string -> Lookup.

Local Abbreviation admission :=
  (admission_checks check_model_repo_size get_model_size).
Local Abbreviation submit :=
  (evaluate_model regenerate_hash check_model_repo_size get_model_size).

(** The three ways a call can go. *)
Lemma evaluate_model_cases utcnow request st :
  (exists e, submit utcnow request st = (Raise e, st)
             /\ hash_check regenerate_hash request <> Some true)
  \/ (exists payload,
        submit utcnow request st = (Return (Some payload), st)
        /\ hash_check regenerate_hash request = Some true
        /\ get_json_result (leaderboard st) (hash request) = Some payload)
  \/ (hash_check regenerate_hash request = Some true
      /\ hash_any (hash request) (leaderboard st) = false
      /\ submit utcnow request st =
         match admission request with
         | Rejected n =>
             (Return (Some (json_of_row
                              (mark_failed n (new_entry utcnow request)))),
              mkState (mark_failed n (new_entry utcnow request) :: leaderboard st)
                      (mark_failed n (new_entry utcnow request) :: leaderboard st)
                      (evaluation_queue st) (trace st))
         | Crashed e => (Raise e, inserted utcnow request st)
         | Accepted =>
             (Return (Some (json_of_row (new_entry utcnow request))),
              mkState (new_entry utcnow request :: leaderboard st)
                      (new_entry utcnow request :: leaderboard st)
                      (evaluation_queue st ++ [Some request])%list (trace st))
         end).
Proof.
  destruct (hash_check regenerate_hash request) as [[|]|] eqn:Hc.
  - destruct (get_json_result (leaderboard st) (hash request)) as [p|] eqn:G.
    + right. left. exists p. split; [|auto].
      now apply evaluate_model_existing.
    + right. right. apply get_json_result_None in G.
      split; [reflexivity|]. split; [exact G|].
      now apply evaluate_model_fresh.
  - left. destruct (evaluate_model_hash_mismatch regenerate_hash
                      check_model_repo_size get_model_size utcnow request st)
      as (e & E & _); [congruence|].
    exists e. split; [exact E|congruence].
  - left. destruct (evaluate_model_hash_mismatch regenerate_hash
                      check_model_repo_size get_model_size utcnow request st)
      as (e & E & _); [congruence|].
    exists e. split; [exact E|congruence].
Qed.

(** X2: the footprint of a call of the gateway.  Whatever the request
    and the lookups, a call leaves every row that was in the leaderboard
    unchanged and in place, adds at most one row, at the head and with
    the request's hash; it appends at most one item to the queue, the
    request itself and only together with its freshly inserted QUEUED
    row; it never touches the worker's trace; and either it changes
    nothing at all or the file it leaves equals the store. *)
Theorem evaluate_model_footprint utcnow request st :
  let st' := snd (submit utcnow request st) in
  (exists new_rows,
      leaderboard st' = (new_rows ++ leaderboard st)%list
      /\ (List.length new_rows <= 1)%nat
      /\ forall r, In r new_rows -> Row.hash r = hash request)
  /\ (evaluation_queue st' = evaluation_queue st
      \/ (evaluation_queue st' = (evaluation_queue st ++ [Some request])%list
          /\ leaderboard st' = new_entry utcnow request :: leaderboard st))
  /\ trace st' = trace st
  /\ (st' = st \/ leaderboard_file st' = leaderboard st').
Proof.
  destruct (evaluate_model_cases utcnow request st)
    as [(e & E & _)|[(p & E & _)|(_ & _ & E)]]; cbv zeta; rewrite E.
  - cbn [snd]. split; [exists []; cbn; repeat split; [lia|tauto]|]. auto.
  - cbn [snd]. split; [exists []; cbn; repeat split; [lia|tauto]|]. auto.
  - destruct (admission request) as [n|e|]; cbn [snd leaderboard
      leaderboard_file evaluation_queue trace inserted].
    + split; [exists [mark_failed n (new_entry utcnow request)]; cbn;
              repeat split; [lia|intros r [<-|[]]; reflexivity]|]. auto.
    + split; [exists [new_entry utcnow request]; cbn;
              repeat split; [lia|intros r [<-|[]]; reflexivity]|]. auto.
    + split; [exists [new_entry utcnow request]; cbn;
              repeat split; [lia|intros r [<-|[]]; reflexivity]|]. auto.
Qed.

End GatewayMore.

(** X3: the size bounds of the gateway are inclusive, and the limit on
    the declared model size is 4 * MAX_MODEL_SIZE + 3 bytes.  The checks
    accept a submission exactly when its template is supported, the
    repository lookup returns a size n with
    MIN_REPO_SIZE <= n <= MAX_REPO_SIZE, and the declared-size lookup
    returns a size m <= 4 * MAX_MODEL_SIZE + 3 (the floor division by 4
    lets three more bytes through). *)
Theorem admission_accepts_exactly_within_bounds
  check_model_repo_size get_model_size request :
  admission_checks check_model_repo_size get_model_size request = Accepted
  <-> in_mappings (chat_template_type request) = true
      /\ exists n m,
           check_model_repo_size (hash request) (repo_namespace request)
                                 (repo_name request) = LookupSize n
           /\ MIN_REPO_SIZE <= n <= MAX_REPO_SIZE
           /\ get_model_size (repo_namespace request) (repo_name request)
              = LookupSize m
           /\ m <= 4 * MAX_MODEL_SIZE + 3.
Proof.
  unfold admission_checks.
  destruct (in_mappings (chat_template_type request)); cbn [negb];
    [|split; [discriminate|intros [H _]; discriminate]].
  destruct (check_model_repo_size _ _ _) as [e| |n];
    try (split; [discriminate|intros (_ & n & m & H & _); discriminate]).
  destruct ((n >? MAX_REPO_SIZE) || (n <? MIN_REPO_SIZE)) eqn:R.
  - split; [discriminate|]. intros (_ & n' & m & [= <-] & Hn & _).
    apply orb_true_iff in R. rewrite Z.gtb_lt, Z.ltb_lt in R. lia.
  - apply orb_false_iff in R. destruct R as [R1 R2].
    rewrite Z.gtb_ltb in R1. apply Z.ltb_ge in R1, R2.
    destruct (get_model_size _ _) as [e| |m];
      try (split; [discriminate|intros (_ & n' & m & _ & _ & H & _); discriminate]).
    assert (D : m / 4 <= MAX_MODEL_SIZE <-> m <= 4 * MAX_MODEL_SIZE + 3).
    { pose proof (Z.div_mod m 4 ltac:(lia)) as E.
      pose proof (Z.mod_pos_bound m 4 ltac:(lia)) as B. lia. }
    destruct (m / 4 >? MAX_MODEL_SIZE) eqn:L.
    + split; [discriminate|]. intros (_ & n' & m' & _ & _ & [= <-] & Hm).
      apply Z.gtb_lt in L. lia.
    + rewrite Z.gtb_ltb in L. apply Z.ltb_ge in L.
      split; [|reflexivity]. intros _. split; [reflexivity|].
      exists n, m. repeat split; auto; lia.
Qed.

Lemma admission_accepts_exactly_within_bounds_witness :
  admission_checks repo_size_min model_size_edge request_chatml = Accepted.
Proof.
  apply (proj2 (admission_accepts_exactly_within_bounds
                  repo_size_min model_size_edge request_chatml)).
  split; [reflexivity|].
  exists MIN_REPO_SIZE, (4 * MAX_MODEL_SIZE + 3).
  repeat split; try reflexivity; vm_compute; discriminate.
Defined.

(** X4: the lookups are made only when they are needed.  A call whose
    hash does not pass the check, or whose hash already has a row, or
    whose template is unsupported, does the same whatever the two lookup
    functions are (it does not call them); and a call whose repository
    lookup raises, returns None or returns a size out of bounds does the
    same whatever the declared-size lookup is. *)
Theorem lookups_are_made_only_when_needed
  regenerate_hash check_model_repo_size check_model_repo_size'
  get_model_size get_model_size' utcnow request st :
  (hash_check regenerate_hash request <> Some true
   \/ hash_any (hash request) (leaderboard st) = true
   \/ in_mappings (chat_template_type request) = false ->
   evaluate_model regenerate_hash check_model_repo_size get_model_size
                  utcnow request st
   = evaluate_model regenerate_hash check_model_repo_size' get_model_size'
                    utcnow request st)
  /\ ((forall n,
         check_model_repo_size (hash request) (repo_namespace request)
                               (repo_name request) = LookupSize n ->
         n < MIN_REPO_SIZE \/ MAX_REPO_SIZE < n) ->
      evaluate_model regenerate_hash check_model_repo_size get_model_size
                     utcnow request st
      = evaluate_model regenerate_hash check_model_repo_size get_model_size'
                       utcnow request st).
Proof.
  split.
  - intros H. unfold evaluate_model.
    destruct (hash_check regenerate_hash request) as [[|]|]; try reflexivity.
    destruct (get_json_result (leaderboard st) (hash request)) as [p|] eqn:G;
      [reflexivity|].
    apply get_json_result_None in G.
    destruct H as [H|[H|H]]; [congruence|congruence|].
    unfold admission_checks. now rewrite H.
  - intros H. unfold evaluate_model.
    destruct (hash_check regenerate_hash request) as [[|]|]; try reflexivity.
    destruct (get_json_result (leaderboard st) (hash request)) as [p|];
      [reflexivity|].
    assert (A : admission_checks check_model_repo_size get_model_size request
                = admission_checks check_model_repo_size get_model_size'
                                   request).
    { unfold admission_checks.
      destruct (negb (in_mappings _)); [reflexivity|].
      destruct (check_model_repo_size _ _ _) as [e| |n] eqn:E;
        try reflexivity.
      destruct (H n eq_refl) as [Hn|Hn].
      - replace (n <? MIN_REPO_SIZE) with true
          by (symmetry; now apply Z.ltb_lt).
        now rewrite orb_true_r.
      - replace (n >? MAX_REPO_SIZE) with true
          by (symmetry; now apply Z.gtb_lt).
        reflexivity. }
    now rewrite A.
Qed.

Lemma lookups_are_made_only_when_needed_witness :
  evaluate_model regenerate_hash_7 repo_size_1GB model_size_16GB
                 0 request_unsupported empty_state
  = evaluate_model regenerate_hash_7 repo_size_raises model_size_raises
                   0 request_unsupported empty_state
  /\ evaluate_model regenerate_hash_7 repo_size_5MB model_size_16GB
                    0 request_chatml empty_state
     = evaluate_model regenerate_hash_7 repo_size_5MB model_size_raises
                      0 request_chatml empty_state.
Proof.
  split.
  - apply (proj1 (lookups_are_made_only_when_needed
                    regenerate_hash_7 repo_size_1GB repo_size_raises
                    model_size_16GB model_size_raises
                    0 request_unsupported empty_state)).
    right. right. reflexivity.
  - apply (proj2 (lookups_are_made_only_when_needed
                    regenerate_hash_7 repo_size_5MB repo_size_5MB
                    model_size_16GB model_size_raises
                    0 request_chatml empty_state)).
    intros n [= <-]. left. reflexivity.
Defined.

(** X5: what happens when the declared-size lookup fails, for a fresh
    submission that passed the template and repository checks.  If the
    lookup returns None the row is FAILED with the note about the index
    file and nothing is enqueued.  If the lookup raises, the exception
    leaves the call: the row stays QUEUED in the store and in the file
    and is not enqueued; every later call for the same hash finds that
    row and returns it as QUEUED, unchanged and still without enqueuing,
    so the submission is never evaluated. *)
Theorem declared_size_lookup_failure
  regenerate_hash check_model_repo_size get_model_size utcnow request st n :
  hash_check regenerate_hash request = Some true ->
  hash_any (hash request) (leaderboard st) = false ->
  in_mappings (chat_template_type request) = true ->
  check_model_repo_size (hash request) (repo_namespace request)
                        (repo_name request) = LookupSize n ->
  MIN_REPO_SIZE <= n <= MAX_REPO_SIZE ->
  (get_model_size (repo_namespace request) (repo_name request) = LookupNone ->
   let failure_notes :=
     "Error getting model size. Make sure the model.index.safetensors.json file exists in the model repository. And it has the metadata->total_size field." in
   let row := mark_failed failure_notes (new_entry utcnow request) in
   evaluate_model regenerate_hash check_model_repo_size get_model_size
                  utcnow request st
   = (Return (Some (mkJsonResult unset_score "FAILED")),
      mkState (row :: leaderboard st) (row :: leaderboard st)
              (evaluation_queue st) (trace st)))
  /\ (forall e,
        get_model_size (repo_namespace request) (repo_name request)
        = LookupRaises e ->
        evaluate_model regenerate_hash check_model_repo_size get_model_size
                       utcnow request st
        = (Raise (LookupFailure e), inserted utcnow request st)
        /\ evaluation_queue (inserted utcnow request st) = evaluation_queue st
        /\ forall utcnow',
             evaluate_model regenerate_hash check_model_repo_size
                            get_model_size utcnow' request
                            (inserted utcnow request st)
             = (Return (Some (mkJsonResult unset_score "QUEUED")),
                inserted utcnow request st)).
Proof.
  intros Hc Hfresh Ht Hsize Hn.
  assert (R : (n >? MAX_REPO_SIZE) || (n <? MIN_REPO_SIZE) = false).
  { apply orb_false_iff. split.
    - rewrite Z.gtb_ltb. apply Z.ltb_ge. lia.
    - apply Z.ltb_ge. lia. }
  split.
  - intros Hnone. cbv zeta.
    rewrite (evaluate_model_fresh _ _ _ _ _ _ Hc Hfresh).
    unfold admission_checks. rewrite Ht, Hsize, R, Hnone. reflexivity.
  - intros e Hraise. split; [|split; [reflexivity|]].
    + rewrite (evaluate_model_fresh _ _ _ _ _ _ Hc Hfresh).
      unfold admission_checks. now rewrite Ht, Hsize, R, Hraise.
    + intros utcnow'. apply evaluate_model_existing; [exact Hc|].
      unfold get_json_result, inserted. cbn [leaderboard find].
      cbn [Row.hash new_entry]. now rewrite String.eqb_refl.
Qed.

Lemma declared_size_lookup_failure_witness :
  evaluate_model regenerate_hash_7 repo_size_1GB model_size_raises
                 0 request_chatml empty_state
  = (Raise (LookupFailure "Connection reset by peer"),
     inserted 0 request_chatml empty_state)
  /\ fst (evaluate_model regenerate_hash_7 repo_size_1GB model_size_none
                         0 request_chatml empty_state)
     = Return (Some (mkJsonResult unset_score "FAILED")).
Proof.
  destruct (declared_size_lookup_failure
              regenerate_hash_7 repo_size_1GB model_size_raises
              0 request_chatml empty_state (1024 * 1024 * 1024)
              eq_refl eq_refl eq_refl eq_refl)
    as (_ & Hraise); [vm_compute; split; discriminate|].
  destruct (declared_size_lookup_failure
              regenerate_hash_7 repo_size_1GB model_size_none
              0 request_chatml empty_state (1024 * 1024 * 1024)
              eq_refl eq_refl eq_refl eq_refl)
    as (Hnone & _); [vm_compute; split; discriminate|].
  split.
  - apply (Hraise _ eq_refl).
  - cbv zeta in Hnone. now rewrite (Hnone eq_refl).
Defined.

(** ** More on the job *)

Lemma after_eval_score_defective vibe_api fault fuel request rA st :
  json_field rA "eval_score" = None
  \/ json_field rA "latency_score" = None
  \/ json_field rA "model_size_score" = None
  \/ json_field rA "eval_score" = Some None
  \/ json_field rA "latency_score" = Some None
  \/ json_field rA "model_size_score" = Some None ->
  exists e,
    after_eval_score vibe_api fault fuel request rA st
    = Some (Raise e, emit (PostShutdown EVAL_SCORE_PORT) st)
    /\ (e = JSONDecodeError \/ (exists key, e = KeyError key)
        \/ exists msg, e = TypeError msg).
Proof.
  unfold json_field, after_eval_score. cbv zeta.
  unfold bind at 1, modify at 1. unfold response_json.
  destruct (json rA) as [d|]; [|intros _; eexists; split; [reflexivity|auto]].
  unfold bind at 1, ret at 1. unfold getitem.
  destruct (find (fun kv => String.eqb (fst kv) "eval_score") d)
    as [[k1 q]|]; cbn [option_map snd];
    [|intros _; eexists; split; [reflexivity|eauto]].
  unfold bind at 1, ret at 1.
  destruct (find (fun kv => String.eqb (fst kv) "latency_score") d)
    as [[k2 l]|]; cbn [option_map snd];
    [|intros _; eexists; split; [reflexivity|eauto]].
  unfold bind at 1, ret at 1.
  destruct (find (fun kv => String.eqb (fst kv) "model_size_score") d)
    as [[k3 m]|]; cbn [option_map snd];
    [|intros _; eexists; split; [reflexivity|eauto]].
  unfold bind at 1, ret at 1.
  destruct m as [m|]; [|intros _; eexists; split; [reflexivity|eauto]].
  unfold bind at 1, py_float at 1, ret at 1.
  destruct q as [q|]; [|intros _; eexists; split; [reflexivity|eauto]].
  unfold bind at 1, py_float at 1, ret at 1.
  destruct l as [l|]; [|intros _; eexists; split; [reflexivity|eauto]].
  intros [H|[H|[H|[H|[H|H]]]]]; discriminate H.
Qed.

(** X6: a 200 response of eval_score whose body is not JSON, lacks one
    of the keys eval_score, latency_score, model_size_score, or gives
    null for one of them, ends the job with JSONDecodeError, KeyError or
    TypeError right after the restart signal to eval_score: the
    vibe_score service is never called, no score is written, and every
    row of the job's hash is left RUNNING with the note "Model evaluation
    in progress" in the store and in the file. *)
Theorem defective_eval_scores_end_the_job
  eval_api vibe_api fault fuel request st n rA :
  (32 <= fuel)%nat ->
  hash_any (hash request) (leaderboard st) = true ->
  phase_ends "eval_score" (eval_api request) (Proceeds n rA) ->
  json_field rA "eval_score" = None
  \/ json_field rA "latency_score" = None
  \/ json_field rA "model_size_score" = None
  \/ json_field rA "eval_score" = Some None
  \/ json_field rA "latency_score" = Some None
  \/ json_field rA "model_size_score" = Some None ->
  exists e st',
    evaluate_model_logic eval_api vibe_api fault fuel request st
    = Some (Raise e, st')
    /\ (e = JSONDecodeError \/ (exists key, e = KeyError key)
        \/ exists msg, e = TypeError msg)
    /\ trace st'
       = (trace st ++ retry_trace EVAL_SCORE_PORT "/eval_score" n
          ++ [PostScore EVAL_SCORE_PORT "/eval_score";
              PostShutdown EVAL_SCORE_PORT])%list
    /\ leaderboard st' = leaderboard (running request st)
    /\ leaderboard_file st' = leaderboard st'
    /\ forall r, In r (leaderboard st') -> Row.hash r = hash request ->
         Row.status r = "RUNNING"
         /\ Row.notes r = "Model evaluation in progress".
Proof.
  intros Hfuel Hrow HA Hbad.
  pose proof (phase_ends_bound _ _ _ HA) as HnA. cbn in HnA.
  destruct (after_eval_score_defective vibe_api fault fuel request rA
              (add_trace (retry_trace EVAL_SCORE_PORT "/eval_score" n
                          ++ [PostScore EVAL_SCORE_PORT "/eval_score"])
                         (running request st)) Hbad) as (e & E & He).
  exists e. eexists. split.
  - rewrite job_start by exact Hrow.
    rewrite (bind_Return _ _ _ _ _
               (loop_ends "eval_score" EVAL_SCORE_PORT "/eval_score"
                  (eval_api request) (hash request) fuel
                  (running request st) _ HA ltac:(lia))).
    exact E.
  - split; [exact He|]. split; [trace_norm; reflexivity|].
    split; [reflexivity|]. split; [reflexivity|].
    intros r Hin Hh.
    change (leaderboard (emit ?ev ?s)) with (leaderboard s) in Hin.
    change (leaderboard (add_trace ?ev ?s)) with (leaderboard s) in Hin.
    unfold running in Hin.
    destruct (update_leaderboard_status_rows _ _ _ _ _ Hin Hh) as (Hs & Hn).
    split; [exact Hs|apply Hn; discriminate].
Qed.

Lemma eval_api_null_ends :
  phase_ends "eval_score" (eval_api_null request_chatml)
             (Proceeds 0 eval_null_response).
Proof.
  cbn [phase_ends]. split; [|split; reflexivity]. intros j Hj. lia.
Qed.

Lemma defective_eval_scores_end_the_job_witness :
  exists e st',
    evaluate_model_logic eval_api_null vibe_api_ok no_fault retry_fuel
                         request_chatml queued_state = Some (Raise e, st')
    /\ trace st' = [PostScore EVAL_SCORE_PORT "/eval_score";
                    PostShutdown EVAL_SCORE_PORT].
Proof.
  destruct (defective_eval_scores_end_the_job
              eval_api_null vibe_api_ok no_fault retry_fuel request_chatml
              queued_state 0 eval_null_response
              (Nat.le_refl 32) eq_refl eval_api_null_ends)
    as (e & st' & E & _ & T & _).
  - right. right. right. right. left. reflexivity.
  - exists e, st'. split; [exact E|exact T].
Defined.

Lemma job_completes
  eval_api vibe_api fault fuel request st n k rA rB m q l v :
  (32 <= fuel)%nat ->
  hash_any (hash request) (leaderboard st) = true ->
  phase_ends "eval_score" (eval_api request) (Proceeds n rA) ->
  json_field rA "model_size_score" = Some (Some m) ->
  json_field rA "eval_score" = Some (Some q) ->
  json_field rA "latency_score" = Some (Some l) ->
  phase_ends "vibe_score" (vibe_api request) (Proceeds k rB) ->
  json_field rB "vibe_score" = Some (Some v) ->
  fault request = None ->
  exists st',
    evaluate_model_logic eval_api vibe_api fault fuel request st
    = Some (Return (mkScore m q l v (weighted_total m q l v)), st')
    /\ leaderboard st'
       = loc_set (hash request) (completed_row_of m q l v) (leaderboard st)
    /\ leaderboard_file st'
       = loc_set (hash request) (partial_row_of m q l) (leaderboard st)
    /\ evaluation_queue st' = evaluation_queue st.
Proof.
  intros Hfuel Hrow HA Hm Hq Hl HB Hv Hfault.
  eexists. split.
  - rewrite (job_reaches_vibe_response eval_api vibe_api fault fuel request st
               n k rA rB m q l Hfuel Hrow HA Hm Hq Hl HB).
    apply after_vibe_score_good; assumption.
  - unfold write_final_scores, after_both_loops, write_partial_scores, running,
      update_leaderboard_status.
    cbn [leaderboard leaderboard_file evaluation_queue save_leaderboard
         set_leaderboard emit add_trace
         String.eqb Ascii.eqb Bool.eqb].
    rewrite !loc_set_compose by reflexivity.
    split; [|split; [|reflexivity]].
    + unfold loc_set. apply map_ext. intros r.
      destruct (String.eqb _ _); [|reflexivity]. now destruct r.
    + unfold loc_set. apply map_ext. intros r.
      destruct (String.eqb _ _); [|reflexivity]. now destruct r.
Qed.

(** X7: what a job that goes through leaves behind.  With both loops
    ending on a success, the four scores delivered and the final write
    going through, the job returns the scores and their total; in the
    store every row of its hash has the four scores, the total, status
    COMPLETED and empty notes, its identity columns and timestamp as
    before, and every other row is untouched, however many retries were
    needed.  The final write does not save: the file still shows these
    rows RUNNING with the three eval scores and the note "Now computing
    vibe score", until the next periodic save makes it equal to the
    store. *)
Theorem completed_job_result
  eval_api vibe_api fault fuel request st n k rA rB m q l v :
  (32 <= fuel)%nat ->
  hash_any (hash request) (leaderboard st) = true ->
  phase_ends "eval_score" (eval_api request) (Proceeds n rA) ->
  json_field rA "model_size_score" = Some (Some m) ->
  json_field rA "eval_score" = Some (Some q) ->
  json_field rA "latency_score" = Some (Some l) ->
  phase_ends "vibe_score" (vibe_api request) (Proceeds k rB) ->
  json_field rB "vibe_score" = Some (Some v) ->
  fault request = None ->
  exists st',
    evaluate_model_logic eval_api vibe_api fault fuel request st
    = Some (Return (mkScore m q l v (weighted_total m q l v)), st')
    /\ leaderboard st'
       = loc_set (hash request) (completed_row_of m q l v) (leaderboard st)
    /\ leaderboard_file st'
       = loc_set (hash request) (partial_row_of m q l) (leaderboard st)
    /\ leaderboard_file (save_leaderboard_periodically st') = leaderboard st'
    /\ evaluation_queue st' = evaluation_queue st.
Proof.
  intros Hfuel Hrow HA Hm Hq Hl HB Hv Hfault.
  destruct (job_completes eval_api vibe_api fault fuel request st n k rA rB
              m q l v Hfuel Hrow HA Hm Hq Hl HB Hv Hfault)
    as (st' & E & L & F & Q).
  exists st'. repeat split; assumption || reflexivity.
Qed.

Lemma completed_job_result_witness :
  exists st',
    evaluate_model_logic eval_api_ok vibe_api_ok no_fault retry_fuel
                         request_chatml queued_state
    = Some (Return (mkScore 1.0 0.5 0.8 0.9
                            (weighted_total 1.0 0.5 0.8 0.9))%float, st')
    /\ map Row.status (leaderboard st') = ["COMPLETED"]
    /\ map Row.status (leaderboard_file st') = ["RUNNING"].
Proof.
  destruct (completed_job_result
              eval_api_ok vibe_api_ok no_fault retry_fuel request_chatml
              queued_state 0 0 eval_ok_response vibe_ok_response
              1.0%float 0.5%float 0.8%float 0.9%float
              (Nat.le_refl 32) eq_refl eval_api_ok_ends eq_refl eq_refl eq_refl
              (vibe_api_ok_ends_for request_chatml) eq_refl eq_refl)
    as (st' & E & L & F & _).
  exists st'. split; [exact E|]. rewrite L, F. split; reflexivity.
Defined.

Lemma nth_error_loc_set h f lb i :
  nth_error (loc_set h f lb) i
  = option_map (fun r => if String.eqb (Row.hash r) h then f r else r)
               (nth_error lb i).
Proof. unfold loc_set. apply nth_error_map. Qed.

(** X8: the footprint of a job.  However a job ends (returning or
    raising, at any fuel), the leaderboard has the same number of rows,
    each row keeps its place, hash, namespace, name, template and
    timestamp, every row of another hash is left exactly as it was, the
    queue is not touched, and the trace is only extended. *)
Theorem job_footprint eval_api vibe_api fault fuel request st o st' :
  evaluate_model_logic eval_api vibe_api fault fuel request st
  = Some (o, st') ->
  List.length (leaderboard st') = List.length (leaderboard st)
  /\ (forall i r,
        nth_error (leaderboard st) i = Some r ->
        exists r',
          nth_error (leaderboard st') i = Some r'
          /\ same_identity r r'
          /\ (Row.hash r <> hash request -> r' = r))
  /\ evaluation_queue st' = evaluation_queue st
  /\ exists evs, trace st' = (trace st ++ evs)%list.
Proof.
  intros E.
  destruct (evaluate_model_logic_frame _ _ _ _ _ _ _ _ E)
    as [(f & Hf & L) Q].
  split; [rewrite L; apply loc_set_length|].
  split; [|split; [exact Q|exact (evaluate_model_logic_extends_trace
                                    _ _ _ _ _ _ _ _ E)]].
  intros i r Hi. rewrite L, nth_error_loc_set, Hi. cbn [option_map].
  eexists. split; [reflexivity|].
  destruct (String.eqb (Row.hash r) (hash request)) eqn:Eh.
  - split; [apply Hf|]. apply String.eqb_eq in Eh. congruence.
  - split; [apply same_identity_refl|reflexivity].
Qed.

Lemma job_footprint_witness :
  exists o st',
    evaluate_model_logic api_down vibe_api_ok no_fault retry_fuel
                         request_chatml two_queued_state = Some (o, st')
    /\ List.length (leaderboard st') = 2%nat
    /\ evaluation_queue st' = evaluation_queue two_queued_state.
Proof.
  destruct (terminates_evaluate_model_logic api_down vibe_api_ok no_fault
              retry_fuel request_chatml (Nat.le_refl 32) two_queued_state)
    as (o & st' & E).
  destruct (job_footprint _ _ _ _ _ _ _ _ E) as (Hlen & _ & Q & _).
  exists o, st'. split; [exact E|]. split; [exact Hlen|exact Q].
Defined.

(** ** More on the retry loop *)

Lemma count_posts_app evs evs' :
  count_posts (evs ++ evs') = (count_posts evs + count_posts evs')%nat.
Proof. unfold count_posts. now rewrite filter_app, length_app. Qed.

Lemma count_sleeps_app evs evs' :
  count_sleeps (evs ++ evs') = (count_sleeps evs + count_sleeps evs')%nat.
Proof. unfold count_sleeps. now rewrite filter_app, length_app. Qed.

Lemma count_retry_trace port path n :
  count_posts (retry_trace port path n) = n
  /\ count_sleeps (retry_trace port path n) = n.
Proof.
  induction n as [|n [IHp IHs]]; [split; reflexivity|].
  cbn [retry_trace]. rewrite count_posts_app, count_sleeps_app, IHp, IHs.
  cbn. split; lia.
Qed.

(** X9: a retry loop always ends, after at most 32 POSTs to its
    endpoint: one sleep of a second separates two POSTs, and the queue is
    never touched.  When it returns, the response has status 200 and the
    leaderboard and its file are as before, with no restart signal sent
    yet; when it raises, the exception is a RuntimeError whose text is the
    note written with status FAILED to every row of the hash, in the
    store and in the file, and the restart signal to the port is the last
    thing sent. *)
Theorem retry_loop_is_bounded api_name port path service h fuel st :
  (32 <= fuel)%nat ->
  exists o st' evs,
    post_with_retry api_name port path service h fuel 0 0 None st
    = Some (o, st')
    /\ trace st' = (trace st ++ evs)%list
    /\ (1 <= count_posts evs <= 32)%nat
    /\ S (count_sleeps evs) = count_posts evs
    /\ evaluation_queue st' = evaluation_queue st
    /\ match o with
       | Return r =>
           status_code r = 200
           /\ leaderboard st' = leaderboard st
           /\ leaderboard_file st' = leaderboard_file st
           /\ ~ In (PostShutdown port) evs
       | Raise e =>
           exists err,
             e = RuntimeError err
             /\ leaderboard st' = loc_set h (mark_failed err) (leaderboard st)
             /\ leaderboard_file st' = leaderboard st'
             /\ exists evs', evs = (evs' ++ [PostShutdown port])%list
       end.
Proof.
  intros Hfuel.
  destruct (phase_end_exists api_name service) as (e & He & Hn).
  pose proof (loop_ends api_name port path service h fuel st e He) as Hloop.
  destruct e as [n r|n err].
  - exists (Return r), (add_trace (retry_trace port path n ++ [PostScore port path]) st),
      (retry_trace port path n ++ [PostScore port path])%list.
    destruct (count_retry_trace port path n) as [Hp Hs].
    split; [apply Hloop; lia|]. split; [reflexivity|].
    rewrite count_posts_app, count_sleeps_app, Hp, Hs. cbn.
    split; [lia|]. split; [lia|]. split; [reflexivity|].
    split; [apply He|]. split; [reflexivity|]. split; [reflexivity|].
    intros Hin. apply in_app_or in Hin. destruct Hin as [Hin|[Hin|[]]].
    + clear -Hin. induction n as [|n IH]; [exact Hin|].
      cbn [retry_trace] in Hin. apply in_app_or in Hin.
      destruct Hin as [Hin|[Hin|[Hin|[]]]]; [now apply IH|discriminate..].
    + discriminate.
  - assert (Herr : err <> "").
    { destruct He as (_ & _ & _ & ->). apply error_string_not_empty. }
    eexists (Raise (RuntimeError err)), _,
      ((retry_trace port path n ++ [PostScore port path])
         ++ [PostShutdown port])%list.
    destruct (count_retry_trace port path n) as [Hp Hs].
    split; [apply Hloop; lia|].
    rewrite (update_failed_leaderboard h err _ Herr).
    split; [cbn [trace emit add_trace]; now rewrite <- app_assoc|].
    rewrite !count_posts_app, !count_sleeps_app, Hp, Hs. cbn.
    split; [lia|]. split; [lia|]. split; [reflexivity|].
    exists err. split; [reflexivity|]. split; [reflexivity|].
    split; [reflexivity|]. eexists. reflexivity.
Qed.

Lemma retry_loop_is_bounded_witness :
  exists o st' evs,
    post_with_retry "eval_score" EVAL_SCORE_PORT "/eval_score"
                    (api_down request_chatml) "7" retry_fuel 0 0 None
                    queued_state = Some (o, st')
    /\ trace st' = evs
    /\ (count_posts evs <= 32)%nat.
Proof.
  destruct (retry_loop_is_bounded "eval_score" EVAL_SCORE_PORT "/eval_score"
              (api_down request_chatml) "7" retry_fuel queued_state
              (Nat.le_refl 32))
    as (o & st' & evs & E & T & [_ Hle] & _).
  exists o, st', evs. split; [exact E|]. split; [exact T|exact Hle].
Defined.

(** ** More on the worker *)

Lemma trace_extends_set_queue q st :
  trace_extends st (set_evaluation_queue q st).
Proof. exists []. cbn. now rewrite app_nil_r. Qed.

Lemma worker_loop_runs_to_sentinel eval_api vibe_api fault fuel :
  (32 <= fuel)%nat ->
  forall items st,
  exists st',
    worker_loop eval_api vibe_api fault fuel items st = Some st'
    /\ evaluation_queue st' = after_sentinel items
    /\ map Row.hash (leaderboard st') = map Row.hash (leaderboard st)
    /\ trace_extends st st'.
Proof.
  intros Hfuel items.
  induction items as [|[request|] rest IH]; intros st.
  - eexists. split; [reflexivity|]. repeat split.
    apply trace_extends_set_queue.
  - destruct (terminates_evaluate_model_logic eval_api vibe_api fault fuel
                request Hfuel (set_evaluation_queue rest st)) as (o & st1 & E).
    destruct (IH st1) as (st' & W & Q & Hh & T).
    exists st'. cbn [worker_loop after_sentinel]. rewrite E.
    split; [exact W|]. split; [exact Q|].
    pose proof (evaluate_model_logic_frame _ _ _ _ _ _ _ _ E) as Hf.
    pose proof (evaluate_model_logic_extends_trace _ _ _ _ _ _ _ _ E) as Ht.
    split.
    + rewrite Hh. now rewrite (job_frame_hashes _ _ _ Hf).
    + apply (trace_extends_trans st (set_evaluation_queue rest st) st');
        [apply trace_extends_set_queue|].
      now apply (trace_extends_trans _ st1).
  - eexists. split; [reflexivity|]. repeat split.
    apply trace_extends_set_queue.
Qed.

(** X10: the worker gets through its queue.  Whatever the scoring
    services answer and however the jobs end, returning or raising, the
    worker takes the requests up to the first sentinel one after the
    other and stops there: the queue is left with what stood behind the
    sentinel, the leaderboard has the same hashes in the same order, and
    the trace is only extended.  With the sentinel at the head of the
    queue nothing but the queue changes. *)
Theorem worker_runs_to_the_sentinel eval_api vibe_api fault fuel st :
  (32 <= fuel)%nat ->
  exists st',
    model_evaluation_worker eval_api vibe_api fault fuel st = Some st'
    /\ evaluation_queue st' = after_sentinel (evaluation_queue st)
    /\ map Row.hash (leaderboard st') = map Row.hash (leaderboard st)
    /\ (exists evs, trace st' = (trace st ++ evs)%list)
    /\ forall rest,
         evaluation_queue st = None :: rest ->
         st' = set_evaluation_queue rest st.
Proof.
  intros Hfuel.
  destruct (worker_loop_runs_to_sentinel eval_api vibe_api fault fuel Hfuel
              (evaluation_queue st) st) as (st' & W & Q & Hh & T).
  exists st'. unfold model_evaluation_worker.
  split; [exact W|]. split; [exact Q|]. split; [exact Hh|].
  split; [exact T|].
  intros rest Hq. rewrite Hq in W. cbn in W. congruence.
Qed.

Lemma worker_runs_to_the_sentinel_witness :
  exists st',
    model_evaluation_worker api_down vibe_api_ok no_fault retry_fuel
                            two_queued_state = Some st'
    /\ evaluation_queue st' = after_sentinel (evaluation_queue two_queued_state).
Proof.
  destruct (worker_runs_to_the_sentinel api_down vibe_api_ok no_fault
              retry_fuel two_queued_state (Nat.le_refl 32))
    as (st' & W & Q & _).
  exists st'. split; [exact W|exact Q].
Defined.

(** X18: a job for a hash that has no row raises ValueError at line
    141 before anything is done: no status is written, nothing is sent to
    a scoring service, the file is not saved; and the worker that took the
    request from the queue goes on with the next one. *)
Theorem job_for_unknown_hash eval_api vibe_api fault fuel request st :
  hash_any (hash request) (leaderboard st) = false ->
  evaluate_model_logic eval_api vibe_api fault fuel request st
  = Some (Raise (ValueError ("Model " ++ hash request
                             ++ " not found in the leaderboard")), st)
  /\ forall rest,
       worker_loop eval_api vibe_api fault fuel (Some request :: rest) st
       = worker_loop eval_api vibe_api fault fuel rest
                     (set_evaluation_queue rest st).
Proof.
  intros Hrow. split; [now apply job_without_row|].
  intros rest. cbn [worker_loop].
  now rewrite (job_without_row eval_api vibe_api fault fuel request
                 (set_evaluation_queue rest st) Hrow).
Qed.

Lemma job_for_unknown_hash_witness :
  evaluate_model_logic eval_api_ok vibe_api_ok no_fault retry_fuel
                       request_chatml empty_state
  = Some (Raise (ValueError "Model 7 not found in the leaderboard"),
          empty_state).
Proof.
  exact (proj1 (job_for_unknown_hash eval_api_ok vibe_api_ok no_fault
                  retry_fuel request_chatml empty_state eq_refl)).
Defined.

(** ** More on the system *)









(** ** More on the shutdown *)

Lemma filter_again {A : Type} (f : A -> bool) (l : list A) :
  filter f (filter f l) = filter f l.
Proof.
  rewrite filter_twice. apply filter_ext. intros x. now destruct (f x).
Qed.

(** X13: a shutdown with the worker idle runs no job.  The requests
    still in the queue are thrown away and nothing is sent to a scoring
    service for them; the queue ends empty, the worker having read the
    sentinel; no hash gains a row; and a second shutdown finds nothing
    left to do. *)
Theorem idle_shutdown_runs_no_job eval_api vibe_api fault fuel st :
  exists st',
    shutdown eval_api vibe_api fault fuel st = Some st'
    /\ trace st' = trace st
    /\ evaluation_queue st' = []
    /\ (forall h, (count_hash h (leaderboard st')
                   <= count_hash h (leaderboard st))%nat)
    /\ shutdown eval_api vibe_api fault fuel st' = Some st'.
Proof.
  eexists. split; [apply shutdown_computes|].
  split; [reflexivity|]. split; [reflexivity|]. split.
  - intros h. cbn [leaderboard]. unfold count_hash.
    rewrite filter_twice.
    induction (leaderboard st) as [|r lb IH]; [apply Nat.le_refl|].
    cbn [filter]. destruct (survives_shutdown r);
      destruct (String.eqb (Row.hash r) h); cbn [andb List.length]; lia.
  - rewrite shutdown_computes. cbn [leaderboard trace].
    now rewrite filter_again.
Qed.

(** X14: a submission dropped by a shutdown starts afresh.  When every
    row of the request's hash was QUEUED or RUNNING at the shutdown, the
    leaderboard after it has no row of that hash, and the same request,
    submitted again, is not answered from an old row: a new row with the
    new timestamp is put at the head, and if the checks pass the request
    is the one entry of the queue. *)
Theorem dropped_submission_starts_afresh
  regenerate_hash check_model_repo_size get_model_size
  eval_api vibe_api fault fuel utcnow request st st' :
  shutdown eval_api vibe_api fault fuel st = Some st' ->
  hash_check regenerate_hash request = Some true ->
  (forall r, In r (leaderboard st) -> Row.hash r = hash request ->
             Row.status r = "QUEUED" \/ Row.status r = "RUNNING") ->
  hash_any (hash request) (leaderboard st') = false
  /\ exists row,
       leaderboard
         (snd (evaluate_model regenerate_hash check_model_repo_size
                              get_model_size utcnow request st'))
       = row :: leaderboard st'
       /\ Row.hash row = hash request
       /\ Row.timestamp row = utcnow
       /\ (admission_checks check_model_repo_size get_model_size request
           = Accepted ->
           row = new_entry utcnow request
           /\ evaluation_queue
                (snd (evaluate_model regenerate_hash check_model_repo_size
                                     get_model_size utcnow request st'))
              = [Some request]).
Proof.
  intros S Hc Hrows. rewrite shutdown_computes in S. injection S as S.
  assert (Hlb : leaderboard st' = filter survives_shutdown (leaderboard st))
    by now rewrite <- S.
  assert (Hq : evaluation_queue st' = []) by now rewrite <- S.
  clear S.
  assert (Hno : hash_any (hash request) (leaderboard st') = false).
  { rewrite Hlb.
    apply hash_any_false_In. intros r Hr. apply filter_In in Hr.
    destruct Hr as [Hr Hs].
    destruct (String.eqb (Row.hash r) (hash request)) eqn:E; [|reflexivity].
    apply String.eqb_eq in E. unfold survives_shutdown in Hs.
    destruct (Hrows r Hr E) as [Hst|Hst]; rewrite Hst in Hs; discriminate. }
  split; [exact Hno|].
  rewrite (evaluate_model_fresh regenerate_hash check_model_repo_size
             get_model_size utcnow request st' Hc Hno).
  destruct (admission_checks _ _ _) as [n|e|]; eexists;
    (split; [reflexivity|]); (split; [reflexivity|]);
    (split; [reflexivity|]); intros Ha; try discriminate.
  split; [reflexivity|]. cbn [snd evaluation_queue]. now rewrite Hq.
Qed.

Lemma dropped_submission_starts_afresh_witness :
  hash_any "7" (filter survives_shutdown (leaderboard queued_state)) = false.
Proof.
  refine (proj1 (dropped_submission_starts_afresh
                   regenerate_hash_7 repo_size_1GB model_size_16GB
                   eval_api_ok vibe_api_ok no_fault retry_fuel 0
                   request_chatml queued_state _
                   (shutdown_computes _ _ _ _ _) eq_refl _)).
  intros r [<-|[]] _. left. reflexivity.
Defined.

(** ** More on the spelling of the hash *)

(** X15: one model, many rows.  The hash check reads the hash as a
    number and the leaderboard is searched with its text; so for every
    request that passes the check, the same request with a blank put
    before the hash passes it too, and unless that very text is already
    in the leaderboard it is given a row of its own: the model of a row
    already in the leaderboard is inserted a second time, under a hash
    that reads as the same number. *)
Theorem respelled_submission_gets_its_own_row
  regenerate_hash check_model_repo_size get_model_size utcnow request st :
  hash_check regenerate_hash request = Some true ->
  hash_any (String " " (hash request)) (leaderboard st) = false ->
  hash_check regenerate_hash (with_hash (String " " (hash request)) request)
  = Some true
  /\ exists row,
       leaderboard
         (snd (evaluate_model regenerate_hash check_model_repo_size
                              get_model_size utcnow
                              (with_hash (String " " (hash request)) request)
                              st))
       = row :: leaderboard st
       /\ Row.hash row <> hash request
       /\ py_int (Row.hash row) = py_int (hash request)
       /\ Row.repo_namespace row = repo_namespace request
       /\ Row.repo_name row = repo_name request
       /\ Row.chat_template_type row = chat_template_type request.
Proof.
  intros Hc Hno.
  destruct (hash_spelling_is_not_unique regenerate_hash request Hc)
    as [Hc' Hne].
  fold (with_hash (String " " (hash request)) request) in Hc', Hne.
  split; [exact Hc'|].
  rewrite (evaluate_model_fresh regenerate_hash check_model_repo_size
             get_model_size utcnow _ st Hc' Hno).
  destruct (admission_checks _ _ _) as [n|e|]; eexists;
    (split; [reflexivity|]); (split; [exact Hne|]);
    (split; [reflexivity|]); repeat split.
Qed.

Lemma respelled_submission_gets_its_own_row_witness :
  hash_check regenerate_hash_7 (with_hash " 7" request_chatml) = Some true.
Proof.
  exact (proj1 (respelled_submission_gets_its_own_row
                  regenerate_hash_7 repo_size_1GB model_size_16GB 0
                  request_chatml queued_state eq_refl eq_refl)).
Defined.









(** ** From submission to result *)

(** X17: gateway, worker and query together.  A new submission that
    passes the checks is answered with its QUEUED row; the worker, with
    this one request to take, evaluates it, and when both scoring phases
    succeed with all four scores and the final write goes through, the
    leaderboard has that row first, COMPLETED with the scores and their
    weighted total, over the rows it had; the same request submitted again
    is then answered with these scores and status COMPLETED, and changes
    nothing. *)
Theorem submission_is_evaluated_and_served
  regenerate_hash check_model_repo_size get_model_size
  eval_api vibe_api fault fuel utcnow later request st n k rA rB m q l v :
  (32 <= fuel)%nat ->
  hash_check regenerate_hash request = Some true ->
  hash_any (hash request) (leaderboard st) = false ->
  admission_checks check_model_repo_size get_model_size request = Accepted ->
  evaluation_queue st = [] ->
  phase_ends "eval_score" (eval_api request) (Proceeds n rA) ->
  json_field rA "model_size_score" = Some (Some m) ->
  json_field rA "eval_score" = Some (Some q) ->
  json_field rA "latency_score" = Some (Some l) ->
  phase_ends "vibe_score" (vibe_api request) (Proceeds k rB) ->
  json_field rB "vibe_score" = Some (Some v) ->
  fault request = None ->
  exists st1 st2,
    evaluate_model regenerate_hash check_model_repo_size get_model_size
                   utcnow request st
    = (Return (Some (json_of_row (new_entry utcnow request))), st1)
    /\ model_evaluation_worker eval_api vibe_api fault fuel st1 = Some st2
    /\ leaderboard st2
       = completed_row_of m q l v (new_entry utcnow request) :: leaderboard st
    /\ evaluation_queue st2 = []
    /\ evaluate_model regenerate_hash check_model_repo_size get_model_size
                      later request st2
       = (Return (Some (mkJsonResult
                          (mkScore m q l v (weighted_total m q l v))
                          "COMPLETED")), st2).
Proof.
  intros Hfuel Hc Hno Ha Hq HA Hm Hqs Hl HB Hv Hfault.
  pose (st1 := mkState (new_entry utcnow request :: leaderboard st)
                       (new_entry utcnow request :: leaderboard st)
                       [Some request] (trace st)).
  assert (Hrow : hash_any (hash request)
                   (leaderboard (set_evaluation_queue [] st1)) = true).
  { cbn. now rewrite String.eqb_refl. }
  destruct (job_completes eval_api vibe_api fault fuel request
              (set_evaluation_queue [] st1) n k rA rB m q l v
              Hfuel Hrow HA Hm Hqs Hl HB Hv Hfault)
    as (st' & E & L & _ & _).
  assert (L' : leaderboard st'
               = completed_row_of m q l v (new_entry utcnow request)
                   :: leaderboard st).
  { rewrite L. cbn [leaderboard set_evaluation_queue st1].
    unfold loc_set at 1. cbn [map].
    change (Row.hash (new_entry utcnow request)) with (hash request).
    rewrite String.eqb_refl. f_equal.
    apply (loc_set_other (hash request)).
    now apply hash_any_false_In. }
  exists st1, (set_evaluation_queue [] st').
  split.
  { rewrite (evaluate_model_fresh regenerate_hash check_model_repo_size
               get_model_size utcnow request st Hc Hno), Ha.
    unfold st1. now rewrite Hq. }
  split.
  { unfold model_evaluation_worker. cbn [evaluation_queue st1 worker_loop].
    fold st1. now rewrite E. }
  split; [exact L'|]. split; [reflexivity|].
  apply evaluate_model_existing; [exact Hc|].
  cbn [leaderboard set_evaluation_queue]. rewrite L'.
  unfold get_json_result. cbn [find].
  change (Row.hash (completed_row_of m q l v (new_entry utcnow request)))
    with (hash request).
  now rewrite String.eqb_refl.
Qed.

Lemma submission_is_evaluated_and_served_witness :
  exists st1 st2,
    evaluate_model regenerate_hash_7 repo_size_1GB model_size_16GB
                   0 request_chatml empty_state
    = (Return (Some (json_of_row (new_entry 0 request_chatml))), st1)
    /\ model_evaluation_worker eval_api_ok vibe_api_ok no_fault retry_fuel st1
       = Some st2
    /\ map Row.status (leaderboard st2) = ["COMPLETED"].
Proof.
  destruct (submission_is_evaluated_and_served
              regenerate_hash_7 repo_size_1GB model_size_16GB
              eval_api_ok vibe_api_ok no_fault retry_fuel 0 60 request_chatml
              empty_state 0 0 eval_ok_response vibe_ok_response
              1.0%float 0.5%float 0.8%float 0.9%float
              (Nat.le_refl 32) eq_refl eq_refl eq_refl eq_refl
              eval_api_ok_ends eq_refl eq_refl eq_refl
              (vibe_api_ok_ends_for request_chatml) eq_refl eq_refl)
    as (st1 & st2 & S & W & L & _).
  exists st1, st2. split; [exact S|]. split; [exact W|].
  rewrite L. reflexivity.
Defined.

(** ** The file and the store *)

Local Abbreviation keeps_saved :=
  (preserved_by (fun st st' => saved st -> saved st')).

Lemma raises_saved_of_keeps {A : Type} (m : M A) :
  keeps_saved m -> raises_saved m.
Proof.
  intros Hm st o st' E Hs. destruct o; [exact I|]. exact (Hm _ _ _ E Hs).
Qed.

Lemma raises_saved_bind {A B : Type} (m : M A) (f : A -> M B) :
  keeps_saved m -> (forall a, raises_saved (f a)) -> raises_saved (bind m f).
Proof.
  intros Hm Hf st o st' E Hs. apply bind_inv in E.
  destruct E as [(e & E & ->)|(a & st1 & E1 & E2)].
  - exact (Hm _ _ _ E Hs).
  - exact (Hf a _ _ _ E2 (Hm _ _ _ E1 Hs)).
Qed.

Lemma keeps_saved_emit e : keeps_saved (modify (emit e)).
Proof. intros st o st' [= _ <-] Hs. exact Hs. Qed.

Lemma keeps_saved_loop api_name port path service h fuel k elapsed resp :
  keeps_saved (post_with_retry api_name port path service h fuel k elapsed resp).
Proof.
  apply (preserves_post_with_retry (fun st st' => saved st -> saved st')).
  - auto.
  - auto.
  - intros e st Hs. exact Hs.
  - intros status notes st _ _. reflexivity.
Qed.

Lemma raises_saved_finish_job fault request q l m v :
  raises_saved (finish_job fault request q l m v).
Proof.
  intros st o st' E Hs. unfold finish_job in E.
  destruct q as [q|]; [|injection E as <- <-; exact Hs].
  destruct l as [l|]; [|destruct m; injection E as <- <-; exact Hs].
  destruct m as [m|]; [|injection E as <- <-; exact Hs].
  destruct v as [v|]; [|injection E as <- <-; exact Hs].
  destruct (fault request) as [reason|].
  - injection E as <- <-. exact Hs.
  - injection E as <- _. exact I.
Qed.

Lemma raises_saved_after_vibe_score fault request q l m r :
  raises_saved (after_vibe_score fault request q l m r).
Proof.
  unfold after_vibe_score.
  apply raises_saved_bind; [apply keeps_saved_emit|intros _].
  apply raises_saved_bind; [apply preserves_response_json; auto|intros d].
  apply raises_saved_bind; [apply preserves_getitem; auto|intros v].
  apply raises_saved_finish_job.
Qed.

Lemma raises_saved_after_eval_score vibe_api fault fuel request r :
  raises_saved (after_eval_score vibe_api fault fuel request r).
Proof.
  unfold after_eval_score.
  apply raises_saved_bind; [apply keeps_saved_emit|intros _].
  apply raises_saved_bind; [apply preserves_response_json; auto|intros d].
  apply raises_saved_bind; [apply preserves_getitem; auto|intros q].
  apply raises_saved_bind; [apply preserves_getitem; auto|intros l].
  apply raises_saved_bind; [apply preserves_getitem; auto|intros m].
  apply raises_saved_bind; [apply preserves_py_float; auto|intros m'].
  apply raises_saved_bind; [apply preserves_py_float; auto|intros q'].
  apply raises_saved_bind; [apply preserves_py_float; auto|intros l'].
  apply raises_saved_bind;
    [intros st o st' [= _ <-] _; reflexivity|intros _].
  apply raises_saved_bind; [apply keeps_saved_loop|intros r'].
  apply raises_saved_after_vibe_score.
Qed.

(** X19: a job that raises leaves the file in step with the store.
    Whichever exit a job that found its row takes when it raises (a loop
    giving up, a body that is not JSON, a missing or null score, the
    defensive check, a failing final write), and at whatever attempt, the
    file then holds exactly what the store holds: the return of a job that
    goes through is the one exit after which the file is behind. *)
Theorem raising_job_leaves_file_in_step
  eval_api vibe_api fault fuel request st e st' :
  hash_any (hash request) (leaderboard st) = true ->
  evaluate_model_logic eval_api vibe_api fault fuel request st
  = Some (Raise e, st') ->
  leaderboard_file st' = leaderboard st'.
Proof.
  intros Hrow E. rewrite job_start in E by exact Hrow.
  refine (raises_saved_bind _ _ (keeps_saved_loop _ _ _ _ _ _ _ _ _)
            (raises_saved_after_eval_score _ _ _ _) _ _ _ E _).
  reflexivity.
Qed.

Lemma raising_job_leaves_file_in_step_witness :
  exists e st',
    evaluate_model_logic eval_api_null vibe_api_ok no_fault retry_fuel
                         request_chatml queued_state = Some (Raise e, st')
    /\ leaderboard_file st' = leaderboard st'.
Proof.
  destruct (evaluate_model_logic eval_api_null vibe_api_ok no_fault retry_fuel
                                 request_chatml queued_state)
    as [[[s|e] st']|] eqn:E.
  - vm_compute in E. discriminate.
  - exists e, st'. split; [reflexivity|].
    exact (raising_job_leaves_file_in_step
             eval_api_null vibe_api_ok no_fault retry_fuel request_chatml
             queued_state e st' eq_refl E).
  - vm_compute in E. discriminate.
Defined.

(** ** A defective answer of vibe_score *)

Lemma after_vibe_score_defective fault request q l m rB st :
  json_field rB "vibe_score" = None ->
  exists e,
    after_vibe_score fault request q l m rB st
    = Some (Raise e, emit (PostShutdown VIBE_SCORE_PORT) st)
    /\ (e = JSONDecodeError \/ e = KeyError "vibe_score").
Proof.
  unfold json_field, after_vibe_score.
  unfold bind at 1, modify at 1. unfold response_json.
  destruct (json rB) as [d|]; [|intros _; eexists; split; [reflexivity|auto]].
  unfold bind at 1, ret at 1. unfold getitem.
  destruct (find (fun kv => String.eqb (fst kv) "vibe_score") d)
    as [[k1 v]|]; cbn [option_map snd]; [discriminate|].
  intros _. eexists. split; [reflexivity|auto].
Qed.

Lemma vibe_api_html_ends request :
  phase_ends "vibe_score" (vibe_api_html request)
             (Proceeds 0 vibe_html_response).
Proof.
  cbn [phase_ends]. split; [|split; reflexivity]. intros j Hj. lia.
Qed.

(** X20: a 200 response of vibe_score whose body is not JSON, or has no
    key vibe_score, ends the job with JSONDecodeError or KeyError right
    after the restart signal to vibe_score.  No status is written on this
    exit: the rows of the hash stay RUNNING with the note "Now computing
    vibe score" and the three scores of eval_score, in the store and in
    the file, and the other rows are as they were. *)
Theorem defective_vibe_body_ends_the_job
  eval_api vibe_api fault fuel request st n k rA rB m q l :
  (32 <= fuel)%nat ->
  hash_any (hash request) (leaderboard st) = true ->
  phase_ends "eval_score" (eval_api request) (Proceeds n rA) ->
  json_field rA "model_size_score" = Some (Some m) ->
  json_field rA "eval_score" = Some (Some q) ->
  json_field rA "latency_score" = Some (Some l) ->
  phase_ends "vibe_score" (vibe_api request) (Proceeds k rB) ->
  json_field rB "vibe_score" = None ->
  exists e st',
    evaluate_model_logic eval_api vibe_api fault fuel request st
    = Some (Raise e, st')
    /\ (e = JSONDecodeError \/ e = KeyError "vibe_score")
    /\ leaderboard st'
       = loc_set (hash request) (partial_row_of m q l) (leaderboard st)
    /\ leaderboard_file st' = leaderboard st'
    /\ exists evs,
         trace st'
         = (trace st ++ evs
            ++ [PostScore VIBE_SCORE_PORT "/vibe_match_score";
                PostShutdown VIBE_SCORE_PORT])%list.
Proof.
  intros Hfuel Hrow HA Hm Hq Hl HB Hv.
  destruct (after_vibe_score_defective fault request (Some q) (Some l) (Some m)
              rB (after_both_loops request n k m q l st) Hv)
    as (e & E & He).
  exists e. eexists. split.
  { rewrite (job_reaches_vibe_response eval_api vibe_api fault fuel request st
               n k rA rB m q l Hfuel Hrow HA Hm Hq Hl HB).
    exact E. }
  split; [exact He|].
  assert (L : leaderboard (after_both_loops request n k m q l st)
              = loc_set (hash request) (partial_row_of m q l) (leaderboard st)).
  { unfold after_both_loops, write_partial_scores, running,
      update_leaderboard_status.
    cbn [leaderboard save_leaderboard set_leaderboard emit add_trace
         String.eqb Ascii.eqb Bool.eqb].
    rewrite !loc_set_compose by reflexivity.
    unfold loc_set. apply map_ext. intros r.
    destruct (String.eqb _ _); [|reflexivity]. now destruct r. }
  split; [exact L|]. split; [reflexivity|].
  exists (retry_trace EVAL_SCORE_PORT "/eval_score" n
          ++ [PostScore EVAL_SCORE_PORT "/eval_score";
              PostShutdown EVAL_SCORE_PORT]
          ++ retry_trace VIBE_SCORE_PORT "/vibe_match_score" k)%list.
  unfold after_both_loops. trace_norm. reflexivity.
Qed.

Lemma defective_vibe_body_ends_the_job_witness :
  exists e st',
    evaluate_model_logic eval_api_ok vibe_api_html no_fault retry_fuel
                         request_chatml queued_state = Some (Raise e, st')
    /\ map Row.status (leaderboard st') = ["RUNNING"].
Proof.
  destruct (defective_vibe_body_ends_the_job
              eval_api_ok vibe_api_html no_fault retry_fuel request_chatml
              queued_state 0 0 eval_ok_response vibe_html_response
              1.0%float 0.5%float 0.8%float
              (Nat.le_refl 32) eq_refl eval_api_ok_ends eq_refl eq_refl eq_refl
              (vibe_api_html_ends request_chatml) eq_refl)
    as (e & st' & E & _ & L & _).
  exists e, st'. split; [exact E|]. rewrite L. reflexivity.
Defined.
